(** * OCPP charging-station simulator: transaction generator and worker command channel

    A shallow embedding of
    - [src/charging-station/AutomaticTransactionGenerator.ts] and
    - [src/charging-station/broadcast-channel/ChargingStationWorkerBroadcastChannel.ts]
    together with the properties their design document states about them. *)

From Stdlib Require Import ZArith QArith Qabs String List Bool Lia.
From Stdlib Require PrimFloat FloatOps SpecFloat Uint63.
From stdpp Require Import base option gmap strings list fin_maps.

Local Open Scope Z_scope.
Local Open Scope string_scope.

(** ** JSON values

    Payloads travel as plain JavaScript objects.  An object is a finite map
    from property names to values; a property that is missing reads as
    [undefined], which is [None] below. *)

#[warnings="-register-all"]
Inductive JsonValue : Type :=
| JNull
| JBool (b : bool)
| JNum (n : Z)
| JStr (s : string)
| JArr (items : list JsonValue)
| JObj (fields : gmap string JsonValue).

Abbreviation JsObject := (gmap string JsonValue).

(** [v == null]: true for [undefined] and for [null]. *)
Definition isNullish (v : option JsonValue) : bool :=
  match v with
  | None | Some JNull => true
  | Some _ => false
  end.

(** [v.k] on a value that is neither [undefined] nor [null]; only objects
    own the properties read here. *)
Definition getProp (v : JsonValue) (k : string) : option JsonValue :=
  match v with
  | JObj fields => fields !! k
  | _ => None
  end.

(** [v?.k] *)
Definition optProp (v : option JsonValue) (k : string) : option JsonValue :=
  match v with
  | None | Some JNull => None
  | Some w => getProp w k
  end.

(** [v === s] for a string constant [s]. *)
Definition strictEqStr (v : option JsonValue) (s : string) : bool :=
  match v with
  | Some (JStr t) => bool_decide (t = s)
  | _ => false
  end.

(** [String.prototype.includes]: [needle] occurs somewhere in [hay]. *)
Fixpoint strIncludes (needle hay : string) : bool :=
  String.prefix needle hay ||
  match hay with
  | EmptyString => false
  | String _ rest => strIncludes needle rest
  end.

(** rambda's [isEmpty] on an object: it has no own key. *)
Definition isEmpty (o : JsObject) : bool := bool_decide (o = ∅).

(** Errors carry what the dispatcher reads from them. *)
Record Error : Type := mkError {
  message : string;
  stack : option string;
  details : option JsonValue
}.

(** ** A trace-and-exception monad

    The code is sequential between its suspension points; a computation
    yields the events it emitted, in order, and either a value or the error
    it threw. *)

Section Monad.
Context {E : Type}.

Definition M (A : Type) : Type := (list E * (Error + A))%type.

Definition ret {A} (a : A) : M A := ([], inr a).

Definition bind {A B} (m : M A) (f : A -> M B) : M B :=
  match m with
  | (t, inl e) => (t, inl e)
  | (t, inr a) => let '(t', r) := f a in ((t ++ t')%list, r)
  end.

Definition emit (e : E) : M unit := ([e], inr tt).

Definition throw {A} (e : Error) : M A := ([], inl e).

Definition trace {A} (m : M A) : list E := fst m.
Definition outcome {A} (m : M A) : Error + A := snd m.
End Monad.

Arguments M : clear implicits.

#[export] Instance M_ret {E : Type} : MRet (M E) := @ret E.
#[export] Instance M_bind {E : Type} : MBind (M E) := fun A B f m => bind m f.

(** ** The worker command channel
    [ChargingStationWorkerBroadcastChannel.ts] *)

Module Channel.

Definition moduleName : string := "ChargingStationWorkerBroadcastChannel".

(** The procedures the handler table is built over. *)
Inductive BroadcastChannelProcedureName : Type :=
| START_CHARGING_STATION
| STOP_CHARGING_STATION
| DELETE_CHARGING_STATIONS
| OPEN_CONNECTION
| CLOSE_CONNECTION
| START_AUTOMATIC_TRANSACTION_GENERATOR
| STOP_AUTOMATIC_TRANSACTION_GENERATOR
| SET_SUPERVISION_URL
| START_TRANSACTION
| STOP_TRANSACTION
| AUTHORIZE
| BOOT_NOTIFICATION
| STATUS_NOTIFICATION
| HEARTBEAT
| METER_VALUES
| DATA_TRANSFER
| DIAGNOSTICS_STATUS_NOTIFICATION
| FIRMWARE_STATUS_NOTIFICATION.

#[export] Instance BroadcastChannelProcedureName_eq_dec :
  EqDecision BroadcastChannelProcedureName.
Proof. solve_decision. Defined.

(** The command slot of an envelope is typed by the enumeration, but what
    arrives is whatever the sender wrote: [Other name] is a command text
    that is not the value of any of the procedures above. *)
Inductive Command : Type :=
| Proc (p : BroadcastChannelProcedureName)
| Other (name : string).

Inductive ResponseStatus : Type := SUCCESS | FAILURE.

#[export] Instance ResponseStatus_eq_dec : EqDecision ResponseStatus.
Proof. solve_decision. Defined.

(** Modelled from the spec: the status enumerations are declared in
    [types/], which is not among the sources; the three [ACCEPTED] members
    carry the OCPP 1.6 wire value. *)
Module AuthorizationStatus.
Definition ACCEPTED : string := "Accepted".
End AuthorizationStatus.
Module RegistrationStatusEnumType.
Definition ACCEPTED : string := "Accepted".
End RegistrationStatusEnumType.
Module DataTransferStatus.
Definition ACCEPTED : string := "Accepted".
End DataTransferStatus.

(** The OCPP requests the handlers forward. *)
Inductive RequestCommand : Type :=
| RC_START_TRANSACTION
| RC_STOP_TRANSACTION
| RC_AUTHORIZE
| RC_BOOT_NOTIFICATION
| RC_STATUS_NOTIFICATION
| RC_HEARTBEAT
| RC_METER_VALUES
| RC_DATA_TRANSFER
| RC_DIAGNOSTICS_STATUS_NOTIFICATION
| RC_FIRMWARE_STATUS_NOTIFICATION.

Record RequestParams : Type := {
  skipBufferingOnError : option bool;
  throwError : option bool
}.

(** What a handler asks of the station: a lifecycle method or a request
    through the OCPP request service. *)
Inductive StationCall : Type :=
| CS_start
| CS_stop
| CS_delete (deleteConfiguration : option JsonValue)
| CS_openWSConnection
| CS_closeWSConnection
| CS_startAutomaticTransactionGenerator (connectorIds : option JsonValue)
| CS_stopAutomaticTransactionGenerator (connectorIds : option JsonValue)
| CS_setSupervisionUrl (url : option JsonValue)
| CS_ocppRequest (command : RequestCommand) (payload : JsObject)
                 (params : RequestParams).

(** How such a call settles: with a (possibly absent) response, or by
    throwing.  A call that never settles has no place here. *)
Inductive CallOutcome : Type :=
| Returns (response : option JsObject)
| Throws (error : Error).

Record BroadcastChannelResponsePayload : Type := {
  hashId : option string;
  status : ResponseStatus;
  command : option Command;
  requestPayload : option JsObject;
  commandResponse : option JsObject;
  errorMessage : option string;
  errorStack : option string;
  errorDetails : option JsonValue
}.

Inductive MessageData : Type :=
| RequestData (uuid : string) (command : Command) (requestPayload : JsObject)
| ResponseData (uuid : string) (responsePayload : BroadcastChannelResponsePayload).

Record MessageEvent : Type := { data : MessageData }.

Inductive Event : Type :=
| ConsoleLog (label : string)
| LoggerError (text : string) (error : option Error)
| Invoke (command : Command) (requestPayload : JsObject)
| Call (c : StationCall)
| Uncaught (error : Error)
| SendResponse (uuid : string) (responsePayload : option BroadcastChannelResponsePayload).

Module StationInfo.
Record t : Type := { hashId : string }.
End StationInfo.

Record ConnectorStatus : Type := { transactionId : option JsonValue }.

(** The station handle, as far as the channel uses it.  [perform] is the
    reaction of the station and of its OCPP request service to a call;
    [captureStack] is the stack text the runtime attaches to an error
    built here. *)
Record ChargingStation : Type := {
  stationInfo : option StationInfo.t;
  logPrefix : string;
  bootNotificationRequest : JsObject;
  getEnergyActiveImportRegisterByTransactionId : option JsonValue -> bool -> JsonValue;
  getConnectorStatus : option JsonValue -> option ConnectorStatus;
  (** [getConfigurationKey (station, MeterValueSampleInterval)], already
      read as an integer number of seconds *)
  configuredMeterValueSampleInterval : option Z;
  buildMeterValue : option JsonValue -> option JsonValue -> Z -> JsonValue;
  perform : StationCall -> CallOutcome;
  captureStack : string -> option string
}.

(** What the class takes from outside the sources at hand, taken as given:
    the two methods inherited from [WorkerBroadcastChannel]
    ([validateMessageEvent] answers [false], here [None], or the event), and
    the text of each member of the procedure enumeration. *)
Record WorkerBroadcastChannel : Type := {
  validateMessageEvent : MessageEvent -> option MessageEvent;
  isResponse : MessageData -> bool;
  procedureName : BroadcastChannelProcedureName -> string
}.

(** Modelled from the spec: [Constants.DEFAULT_METER_VALUES_INTERVAL], in
    milliseconds; [utils/Constants] is not among the sources. *)
Definition DEFAULT_METER_VALUES_INTERVAL : Z := 60000.

Definition secondsToMilliseconds (s : Z) : Z := s * 1000.

Definition BaseError (cs : ChargingStation) (msg : string) : Error :=
  {| message := msg; stack := captureStack cs msg; details := None |}.

Definition TypeError (cs : ChargingStation) (msg : string) : Error :=
  {| message := msg; stack := captureStack cs msg; details := None |}.

Definition stationHashId (cs : ChargingStation) : option string :=
  StationInfo.hashId <$> stationInfo cs.

Definition call (cs : ChargingStation) (c : StationCall) : M Event (option JsObject) :=
  match perform cs c with
  | Returns r => ([Call c], inr r)
  | Throws e => ([Call c], inl e)
  end.

Record CommandHandler : Type := {
  isAsyncFunction : bool;
  run : JsObject -> M Event (option JsObject)
}.

Definition sync (f : JsObject -> M Event (option JsObject)) : CommandHandler :=
  {| isAsyncFunction := false; run := f |}.
Definition async (f : JsObject -> M Event (option JsObject)) : CommandHandler :=
  {| isAsyncFunction := true; run := f |}.

Definition requestParams : RequestParams :=
  {| skipBufferingOnError := None; throwError := Some true |}.

(** [{ k: v, ...requestPayload }]: the payload's own [k] wins. *)
Definition withDefault (k : string) (v : JsonValue) (requestPayload : JsObject) : JsObject :=
  requestPayload ∪ {[ k := v ]}.

(** The table built by the constructor. *)
Definition commandHandlers (cs : ChargingStation) :
  list (BroadcastChannelProcedureName * CommandHandler) :=
  [ (START_CHARGING_STATION, sync (fun _ => call cs CS_start ;; mret None));
    (STOP_CHARGING_STATION, async (fun _ => call cs CS_stop ;; mret None));
    (DELETE_CHARGING_STATIONS,
      async (fun requestPayload =>
        call cs (CS_delete (requestPayload !! "deleteConfiguration")) ;; mret None));
    (OPEN_CONNECTION, sync (fun _ => call cs CS_openWSConnection ;; mret None));
    (CLOSE_CONNECTION, sync (fun _ => call cs CS_closeWSConnection ;; mret None));
    (START_AUTOMATIC_TRANSACTION_GENERATOR,
      sync (fun requestPayload =>
        call cs (CS_startAutomaticTransactionGenerator (requestPayload !! "connectorIds")) ;;
        ret None));
    (STOP_AUTOMATIC_TRANSACTION_GENERATOR,
      sync (fun requestPayload =>
        call cs (CS_stopAutomaticTransactionGenerator (requestPayload !! "connectorIds")) ;;
        ret None));
    (SET_SUPERVISION_URL,
      sync (fun requestPayload =>
        call cs (CS_setSupervisionUrl (requestPayload !! "url")) ;; mret None));
    (START_TRANSACTION,
      async (fun requestPayload =>
        call cs (CS_ocppRequest RC_START_TRANSACTION requestPayload requestParams)));
    (STOP_TRANSACTION,
      async (fun requestPayload =>
        call cs (CS_ocppRequest RC_STOP_TRANSACTION
          (withDefault "meterStop"
             (getEnergyActiveImportRegisterByTransactionId cs
                (requestPayload !! "transactionId") true)
             requestPayload)
          requestParams)));
    (AUTHORIZE,
      async (fun requestPayload =>
        call cs (CS_ocppRequest RC_AUTHORIZE requestPayload requestParams)));
    (BOOT_NOTIFICATION,
      async (fun requestPayload =>
        call cs (CS_ocppRequest RC_BOOT_NOTIFICATION
          (requestPayload ∪ bootNotificationRequest cs)
          {| skipBufferingOnError := Some true; throwError := Some true |})));
    (STATUS_NOTIFICATION,
      async (fun requestPayload =>
        call cs (CS_ocppRequest RC_STATUS_NOTIFICATION requestPayload requestParams)));
    (HEARTBEAT,
      async (fun requestPayload =>
        call cs (CS_ocppRequest RC_HEARTBEAT requestPayload requestParams)));
    (METER_VALUES,
      async (fun requestPayload =>
        let connectorId := requestPayload !! "connectorId" in
        match getConnectorStatus cs connectorId with
        | None => throw (TypeError cs "Cannot read properties of undefined (reading 'transactionId')")
        | Some connectorStatus =>
            call cs (CS_ocppRequest RC_METER_VALUES
              (withDefault "meterValue"
                 (JArr [ buildMeterValue cs connectorId (transactionId connectorStatus)
                           match configuredMeterValueSampleInterval cs with
                           | Some seconds => secondsToMilliseconds seconds
                           | None => DEFAULT_METER_VALUES_INTERVAL
                           end ])
                 requestPayload)
              requestParams)
        end));
    (DATA_TRANSFER,
      async (fun requestPayload =>
        call cs (CS_ocppRequest RC_DATA_TRANSFER requestPayload requestParams)));
    (DIAGNOSTICS_STATUS_NOTIFICATION,
      async (fun requestPayload =>
        call cs (CS_ocppRequest RC_DIAGNOSTICS_STATUS_NOTIFICATION requestPayload requestParams)));
    (FIRMWARE_STATUS_NOTIFICATION,
      async (fun requestPayload =>
        call cs (CS_ocppRequest RC_FIRMWARE_STATUS_NOTIFICATION requestPayload requestParams)))
  ].

(** [Map.prototype.get] on the table, for a command as received. *)
Fixpoint mapGet {V : Type} (entries : list (BroadcastChannelProcedureName * V))
    (p : BroadcastChannelProcedureName) : option V :=
  match entries with
  | [] => None
  | (k, v) :: rest => if decide (k = p) then Some v else mapGet rest p
  end.

Definition getHandler (cs : ChargingStation) (command : Command) : option CommandHandler :=
  match command with
  | Proc p => mapGet (commandHandlers cs) p
  | Other _ => None
  end.

(** [`${command}`] *)
Definition commandText (ch : WorkerBroadcastChannel) (command : Command) : string :=
  match command with
  | Proc p => procedureName ch p
  | Other name => name
  end.

(** [[p1, p2].includes(command)] *)
Definition procIncludes (ps : list BroadcastChannelProcedureName) (command : Command) : bool :=
  match command with
  | Proc p => bool_decide (p ∈ ps)
  | Other _ => false
  end.

(** The payload object is changed in place; the result is its new content. *)
Definition cleanRequestPayload (command : Command) (requestPayload : JsObject) : JsObject :=
  let requestPayload := delete "hashId" requestPayload in
  let requestPayload := delete "hashIds" requestPayload in
  if negb (procIncludes [START_AUTOMATIC_TRANSACTION_GENERATOR;
                         STOP_AUTOMATIC_TRANSACTION_GENERATOR] command)
  then delete "connectorIds" requestPayload
  else requestPayload.

(** [commandHandler]: the content of the payload object once it has run,
    and the computation itself.  [Invoke] marks the entry into a handler. *)
Definition commandHandler (ch : WorkerBroadcastChannel) (cs : ChargingStation)
    (command : Command) (requestPayload : JsObject)
  : JsObject * M Event (option JsObject) :=
  match getHandler cs command with
  | Some handler =>
      let requestPayload := cleanRequestPayload command requestPayload in
      (requestPayload,
       emit (ConsoleLog "commandHandler") ;;
       emit (Invoke command requestPayload) ;;
       if isAsyncFunction handler
       then run handler requestPayload
       else run handler requestPayload)
  | None =>
      (requestPayload,
       emit (ConsoleLog "commandHandler") ;;
       throw (BaseError cs
         ("Unknown worker broadcast channel command: '" ++ commandText ch command ++ "'")))
  end.

Definition commandResponseToResponseStatus (command : Command) (commandResponse : JsObject)
  : ResponseStatus :=
  match command with
  | Proc START_TRANSACTION
  | Proc STOP_TRANSACTION
  | Proc AUTHORIZE =>
      if strictEqStr (optProp (commandResponse !! "idTagInfo") "status")
                     AuthorizationStatus.ACCEPTED
      then SUCCESS else FAILURE
  | Proc BOOT_NOTIFICATION =>
      if strictEqStr (commandResponse !! "status") RegistrationStatusEnumType.ACCEPTED
      then SUCCESS else FAILURE
  | Proc DATA_TRANSFER =>
      if strictEqStr (commandResponse !! "status") DataTransferStatus.ACCEPTED
      then SUCCESS else FAILURE
  | Proc STATUS_NOTIFICATION
  | Proc METER_VALUES =>
      if isEmpty commandResponse then SUCCESS else FAILURE
  | Proc HEARTBEAT =>
      if bool_decide (is_Some (commandResponse !! "currentTime"))
      then SUCCESS else FAILURE
  | _ => FAILURE
  end.

Definition statusOnly (cs : ChargingStation) (responseStatus : ResponseStatus)
  : BroadcastChannelResponsePayload :=
  {| hashId := stationHashId cs; status := responseStatus;
     command := None; requestPayload := None; commandResponse := None;
     errorMessage := None; errorStack := None; errorDetails := None |}.

Definition commandResponseToResponsePayload (cs : ChargingStation) (command : Command)
    (requestPayload : JsObject) (commandResponse : JsObject)
  : BroadcastChannelResponsePayload :=
  let responseStatus := commandResponseToResponseStatus command commandResponse in
  if decide (responseStatus = SUCCESS)
  then statusOnly cs responseStatus
  else {| hashId := stationHashId cs; status := responseStatus;
          command := Some command; requestPayload := Some requestPayload;
          commandResponse := Some commandResponse;
          errorMessage := None; errorStack := None; errorDetails := None |}.

(** The [.then] callback of [requestHandler]. *)
Definition onFulfilled (cs : ChargingStation) (command : Command)
    (requestPayload : JsObject) (commandResponse : option JsObject)
  : BroadcastChannelResponsePayload :=
  match commandResponse with
  | None => statusOnly cs SUCCESS
  | Some response =>
      if isEmpty response then statusOnly cs SUCCESS
      else commandResponseToResponsePayload cs command requestPayload response
  end.

(** The [.catch] callback of [requestHandler]. *)
Definition onRejected (cs : ChargingStation) (command : Command)
    (requestPayload : JsObject) (error : Error)
  : BroadcastChannelResponsePayload :=
  {| hashId := stationHashId cs; status := FAILURE;
     command := Some command; requestPayload := Some requestPayload;
     commandResponse := None;
     errorMessage := Some (message error); errorStack := stack error;
     errorDetails := details error |}.

(** [hashIds.includes(hashId)]: an array is searched for the string, a
    string for the substring; anything else has no [includes] to call. *)
Definition hashIdsIncludes (hashIds : JsonValue) (h : string) : option bool :=
  match hashIds with
  | JArr items => Some (existsb (fun item => strictEqStr (Some item) h) items)
  | JStr s => Some (strIncludes h s)
  | _ => None
  end.

(** The promise chain of [requestHandler], for a request that passed the
    targeting checks: handler, then [.then] or [.catch], then [.finally]. *)
Definition dispatch (ch : WorkerBroadcastChannel) (cs : ChargingStation)
    (uuid : string) (command : Command) (requestPayload : JsObject) : list Event :=
  let '(requestPayload, (events, settled)) := commandHandler ch cs command requestPayload in
  match settled with
  | inr commandResponse =>
      let responsePayload := Some (onFulfilled cs command requestPayload commandResponse) in
      (events ++ [SendResponse uuid responsePayload])%list
  | inl error =>
      let responsePayload := Some (onRejected cs command requestPayload error) in
      (events ++
       [LoggerError (logPrefix cs ++ " " ++ moduleName ++ ".requestHandler: Handle request error:")
                    (Some error);
        SendResponse uuid responsePayload])%list
  end.

Definition requestHandler (ch : WorkerBroadcastChannel) (cs : ChargingStation)
    (messageEvent : MessageEvent) : list Event :=
  match validateMessageEvent ch messageEvent with
  | None => []
  | Some validatedMessageEvent =>
      if isResponse ch (data validatedMessageEvent) then []
      else
        match data validatedMessageEvent with
        | ResponseData _ _ =>
            (* a two-element array leaves [requestPayload] undefined *)
            [ConsoleLog "requestHandler";
             Uncaught (TypeError cs "Cannot read properties of undefined (reading 'hashIds')")]
        | RequestData uuid command requestPayload =>
            ConsoleLog "requestHandler" ::
            let afterHashIds :=
              if negb (isNullish (requestPayload !! "hashId")) then
                [LoggerError (logPrefix cs ++ " " ++ moduleName ++
                   ".requestHandler: 'hashId' field usage in PDU is deprecated, use 'hashIds' array instead")
                   None]
              else dispatch ch cs uuid command requestPayload in
            match requestPayload !! "hashIds" with
            | None | Some JNull => afterHashIds
            | Some hashIds =>
                match stationInfo cs with
                | None =>
                    [Uncaught (TypeError cs "Cannot read properties of undefined (reading 'hashId')")]
                | Some info =>
                    match hashIdsIncludes hashIds (StationInfo.hashId info) with
                    | None => [Uncaught (TypeError cs "requestPayload.hashIds.includes is not a function")]
                    | Some false => []
                    | Some true => afterHashIds
                    end
                end
            end
        end
  end.

(** The response [dispatch] publishes, from how the handler settled. *)
Definition published (ch : WorkerBroadcastChannel) (cs : ChargingStation)
    (command : Command) (requestPayload : JsObject)
  : BroadcastChannelResponsePayload :=
  let '(requestPayload, (_, settled)) := commandHandler ch cs command requestPayload in
  match settled with
  | inr commandResponse => onFulfilled cs command requestPayload commandResponse
  | inl error => onRejected cs command requestPayload error
  end.

(** What an observer of one run of [requestHandler] counts. *)
Definition responses (events : list Event)
  : list (string * option BroadcastChannelResponsePayload) :=
  flat_map (fun e => match e with SendResponse u p => [(u, p)] | _ => [] end) events.

Definition invocations (events : list Event) : list (Command * JsObject) :=
  flat_map (fun e => match e with Invoke c p => [(c, p)] | _ => [] end) events.

Definition stationCalls (events : list Event) : list StationCall :=
  flat_map (fun e => match e with Call c => [c] | _ => [] end) events.

(** The targeting conditions, in the words of the design. *)

(** [hashIds] is an array that holds the identifier of this station. *)
Definition addressedTo (cs : ChargingStation) (hashIds : JsonValue) : Prop :=
  exists info items,
    stationInfo cs = Some info /\ hashIds = JArr items /\
    JStr (StationInfo.hashId info) ∈ items.

(** [hashIds] absent or naming this station, and no legacy [hashId];
    absent is what [== null] accepts, [undefined] or [null]. *)
Definition passesTargeting (cs : ChargingStation) (requestPayload : JsObject) : Prop :=
  (isNullish (requestPayload !! "hashIds") = true \/
   exists hashIds, requestPayload !! "hashIds" = Some hashIds /\ addressedTo cs hashIds) /\
  isNullish (requestPayload !! "hashId") = true.

(** The identifier of this station is not among [items]. *)
Definition notNamedIn (cs : ChargingStation) (items : list JsonValue) : Prop :=
  forall info, stationInfo cs = Some info -> JStr (StationInfo.hashId info) ∉ items.

(** The payload carries a legacy [hashId], a value that is not [null]. *)
Definition hasLegacyHashId (requestPayload : JsObject) : Prop :=
  isNullish (requestPayload !! "hashId") = false.

(** The verdict [idTagInfo.status == ACCEPTED] of the classifier table. *)
Definition idTagInfoAccepted (response : JsObject) : Prop :=
  exists info,
    response !! "idTagInfo" = Some (JObj info) /\
    info !! "status" = Some (JStr AuthorizationStatus.ACCEPTED).

(** [ev] is a request [(uuid, command, requestPayload)] that passes
    validation, is not taken for a response and passes both targeting
    checks. *)
Definition accepts (ch : WorkerBroadcastChannel) (cs : ChargingStation)
    (ev : MessageEvent) (uuid : string) (command : Command) (requestPayload : JsObject)
  : Prop :=
  exists v,
    validateMessageEvent ch ev = Some v /\
    isResponse ch (data v) = false /\
    data v = RequestData uuid command requestPayload /\
    passesTargeting cs requestPayload.

(** The procedures whose handler calls a method of the station and hands
    nothing back. *)
Definition lifecycleProcedures : list BroadcastChannelProcedureName :=
  [START_CHARGING_STATION; STOP_CHARGING_STATION; DELETE_CHARGING_STATIONS;
   OPEN_CONNECTION; CLOSE_CONNECTION; START_AUTOMATIC_TRANSACTION_GENERATOR;
   STOP_AUTOMATIC_TRANSACTION_GENERATOR; SET_SUPERVISION_URL].

(** The procedures whose handler hands the payload on as it is, with the
    OCPP request each one sends. *)
Definition forwardingProcedures : list (BroadcastChannelProcedureName * RequestCommand) :=
  [(START_TRANSACTION, RC_START_TRANSACTION); (AUTHORIZE, RC_AUTHORIZE);
   (STATUS_NOTIFICATION, RC_STATUS_NOTIFICATION); (HEARTBEAT, RC_HEARTBEAT);
   (DATA_TRANSFER, RC_DATA_TRANSFER);
   (DIAGNOSTICS_STATUS_NOTIFICATION, RC_DIAGNOSTICS_STATUS_NOTIFICATION);
   (FIRMWARE_STATUS_NOTIFICATION, RC_FIRMWARE_STATUS_NOTIFICATION)].

(** The payload of the OCPP requests among the station calls. *)
Definition sentPayloads (calls : list StationCall) : list JsObject :=
  flat_map (fun c => match c with CS_ocppRequest _ payload _ => [payload] | _ => [] end) calls.

End Channel.


(** ** The automatic transaction generator
    [AutomaticTransactionGenerator.ts] *)

Module ATG.

(** A [Date]: its time value in milliseconds, or [None] for an invalid date
    (time value [NaN]). *)
Definition Date : Type := option Z.

(** A number is an IEEE 754 double.  A finite double is the rational it
    stands for; an arithmetic operation gives the double nearest to the exact
    result, the even one of two that are equally near.

    [roundHalfEven n d]: the whole number nearest to [n / d], for [0 <= n]
    and [0 < d]. *)
Definition roundHalfEven (n d : Z) : Z :=
  let f := n / d in
  match 2 * (n mod d) ?= d with
  | Lt => f
  | Gt => f + 1
  | Eq => if Z.even f then f else f + 1
  end.

(** The [e] with [2 ^ e <= n / d < 2 ^ (e + 1)], for [0 < n] and [0 < d]. *)
Definition exponent (n d : Z) : Z :=
  let e := Z.log2 n - Z.log2 d in
  if (n * 2 ^ Z.max 0 (- e) <? d * 2 ^ Z.max 0 e)%Z then e - 1 else e.

(** The multiple of [2 ^ u] nearest to [n / d]. *)
Definition roundTo (u n d : Z) : Q :=
  let m := roundHalfEven (n * 2 ^ Z.max 0 (- u)) (d * 2 ^ Z.max 0 u) in
  Qmake (m * 2 ^ Z.max 0 u) (Z.to_pos (2 ^ Z.max 0 (- u))).

(** The double nearest to [q]: 53 significant bits, the spacing [2 ^ -1074]
    below [2 ^ -1022].  Overflow to [Infinity] is not represented: it takes
    a magnitude of [2 ^ 1024], which [new Date] turns down as it does
    [Infinity]. *)
Definition double (q : Q) : Q :=
  let q := Qred q in
  let n := Z.abs (Qnum q) in
  let d := Zpos (Qden q) in
  if (n =? 0)%Z then 0%Q
  else
    let r := roundTo (Z.max (exponent n d - 52) (-1074)) n d in
    if (Qnum q <? 0)%Z then Qopp r else r.

(** [a + b], [a - b] and [a * b] on numbers. *)
Definition fadd (a b : Q) : Q := double (a + b).
Definition fsub (a b : Q) : Q := double (a - b).
Definition fmul (a b : Q) : Q := double (a * b).

(** The same arithmetic on the binary64 numbers of the kernel, to compare
    with: the rational a machine double stands for, and
    [now + n / d * 3600 * 1000 - previous] computed on machine doubles and
    on rounded rationals. *)
Definition ofDouble (x : PrimFloat.float) : option Q :=
  match FloatOps.Prim2SF x with
  | SpecFloat.S754_zero _ => Some 0%Q
  | SpecFloat.S754_finite s m e =>
      let v := if (0 <=? e)%Z then inject_Z (Zpos m * 2 ^ e)
               else Qmake (Zpos m) (Z.to_pos (2 ^ (- e))) in
      Some (if s then Qopp v else v)
  | _ => None
  end.

Definition toDouble (z : Z) : PrimFloat.float := PrimFloat.of_uint63 (Uint63.of_Z z).

Definition deadlineOnDoubles (n d now previous : Z) : PrimFloat.float :=
  PrimFloat.sub
    (PrimFloat.add (toDouble now)
       (PrimFloat.mul (PrimFloat.mul (PrimFloat.div (toDouble n) (toDouble d)) (toDouble 3600))
          (toDouble 1000)))
    (toDouble previous).

Definition deadlineOnRationals (n d now previous : Z) : Q :=
  fsub (fadd (inject_Z now)
          (fmul (fmul (double (Qmake n (Z.to_pos d))) (inject_Z 3600)) (inject_Z 1000)))
       (inject_Z previous).

Definition sameDeadline (n d now previous : Z) : bool :=
  match ofDouble (deadlineOnDoubles n d now previous) with
  | Some q => Qeq_bool q (deadlineOnRationals n d now previous)
  | None => false
  end.

(** [TimeClip]: the time value kept by [new Date(t)], [t] cut to a whole
    number of milliseconds, and no date beyond 8.64e15 of them. *)
Definition truncate (t : Q) : Z := Z.quot (Qnum t) (Zpos (Qden t)).

Definition newDate (t : Q) : Date :=
  if Qle_bool (Qabs t) (inject_Z 8640000000000000) then Some (truncate t) else None.

Inductive StopTransactionReason : Type :=
| NONE
| Reason (name : string).

Inductive Level : Type := INFO | WARN | ERROR.

(** What the generator does to the outside.  A log entry keeps the level,
    the connector of its prefix and the fixed words of the message. *)
Inductive Event : Type :=
| Log (level : Level) (connectorId : option Z) (text : string)
| SetImmediate (connectorId : Z)
| Sleep (milliseconds : Z)
| BeginMeasure (id : string)
| EndMeasure (id : string) (beginId : string)
| SendAuthorize (connectorId : Z) (idTag : string)
| SendStartTransaction (connectorId : Z) (idTag : option string)
| SendStopTransaction (transactionId : Z) (meterStop : Z) (idTag : option string)
                      (reason : StopTransactionReason).

(** A settled request: the error thrown, or the (possibly absent) response. *)
Definition Settled : Type := (Error + option JsObject)%type.

Record OCPPRequestService : Type := {
  sendAuthorize : Z -> string -> Settled;
  sendStartTransaction : Z -> option string -> Settled;
  sendStopTransaction : Z -> Z -> option string -> StopTransactionReason -> Settled
}.

Record Connector : Type := {
  transactionStarted : bool;
  transactionId : Z
}.

(** [stationInfo.AutomaticTransactionGenerator].  [stopAfterHours] holds
    the number as the template writes it. *)
Record Configuration : Type := {
  stopAfterHours : option Q;
  minDelayBetweenTwoTransactions : Z;
  maxDelayBetweenTwoTransactions : Z;
  minDuration : Z;
  maxDuration : Z;
  probabilityOfStart : Q
}.

(** The station as the generator sees it at one moment.  [connectors] lists
    the table in the order [for ... in] walks it. *)
Record ChargingStation : Type := {
  connectors : list (Z * Connector);
  AutomaticTransactionGenerator : option Configuration;
  ocppRequestService : option OCPPRequestService;
  isRegistered : bool;
  isChargingStationAvailable : bool;
  isConnectorAvailable : Z -> bool;
  hasAuthorizedTags : bool;
  getRandomIdTag : string;
  getAutomaticTransactionGeneratorRequireAuthorize : bool;
  getEnergyActiveImportRegisterByTransactionId : Z -> Z;
  getTransactionIdTag : Z -> option string
}.

(** [PerformanceStatistics.beginMeasure] hands back the mark it set. *)
Record PerformanceStatistics : Type := {
  beginMeasure : string -> string
}.

(** Modelled from the spec: [Constants.CHARGING_STATION_ATG_DEFAULT_STOP_AFTER_HOURS];
    [utils/Constants] is not among the sources. *)
Definition CHARGING_STATION_ATG_DEFAULT_STOP_AFTER_HOURS : Q := 1 # 4.

(** Modelled from the spec: [AuthorizationStatus.ACCEPTED], declared in the
    missing [types/ocpp/Transaction], with its OCPP 1.6 wire value. *)
Definition ACCEPTED : string := "Accepted".

Fixpoint getConnector' (table : list (Z * Connector)) (id : Z) : option Connector :=
  match table with
  | [] => None
  | (k, c) :: rest => if decide (k = id) then Some c else getConnector' rest id
  end.

(** [chargingStation.getConnector (id)] *)
Definition getConnector (cs : ChargingStation) (id : Z) : option Connector :=
  getConnector' (connectors cs) id.

(** The fields of an [AutomaticTransactionGenerator] object. *)
Record Generator : Type := {
  started : bool;
  connectorsStartStatus : gmap Z bool;
  startDate : option Z;
  lastRunDate : option Z;
  stopDate : option Date
}.

(** [connectorsStartStatus[connectorId]] as a condition reads it. *)
Definition startStatus (atg : Generator) (connectorId : Z) : bool :=
  default false (connectorsStartStatus atg !! connectorId).

Definition stopConnector (connectorId : Z) (atg : Generator) : Generator :=
  {| started := started atg;
     connectorsStartStatus := <[connectorId := false]> (connectorsStartStatus atg);
     startDate := startDate atg; lastRunDate := lastRunDate atg; stopDate := stopDate atg |}.

Definition stopConnectors (cs : ChargingStation) (atg : Generator) : Generator :=
  fold_left
    (fun atg entry => if decide (fst entry > 0) then stopConnector (fst entry) atg else atg)
    (connectors cs) atg.

(** One [setImmediate] per connector id above 0, in table order. *)
Definition startConnectors (cs : ChargingStation) : list Event :=
  flat_map
    (fun entry => if decide (fst entry > 0) then [SetImmediate (fst entry)] else [])
    (connectors cs).

Definition constructor (cs : ChargingStation) : Generator :=
  let atg := {| started := false; connectorsStartStatus := ∅;
                startDate := None; lastRunDate := None; stopDate := None |} in
  let atg := stopConnectors cs atg in
  {| started := false; connectorsStartStatus := connectorsStartStatus atg;
     startDate := startDate atg; lastRunDate := lastRunDate atg; stopDate := stopDate atg |}.

Definition previousRunDuration (atg : Generator) : Q :=
  match startDate atg, lastRunDate atg with
  | Some s, Some l => fsub (inject_Z l) (inject_Z s)
  | _, _ => 0%Q
  end.

(** [stationInfo?.AutomaticTransactionGenerator?.stopAfterHours ?? DEFAULT] *)
Definition stopAfterHoursOrDefault (cs : ChargingStation) : Q :=
  match AutomaticTransactionGenerator cs with
  | Some cfg => default CHARGING_STATION_ATG_DEFAULT_STOP_AFTER_HOURS (stopAfterHours cfg)
  | None => CHARGING_STATION_ATG_DEFAULT_STOP_AFTER_HOURS
  end.

(** [h * 3600 * 1000], [h] being read from the template as the double
    nearest to what is written there. *)
Definition hoursToMilliseconds (h : Q) : Q :=
  fmul (fmul (double h) (inject_Z 3600)) (inject_Z 1000).

(** [start ()] at the instant [now] read by [new Date ()]. *)
Definition start (cs : ChargingStation) (now : Z) (atg : Generator) : Generator * list Event :=
  if started atg then
    (atg, [Log ERROR None "trying to start while already started"])
  else
    let previousRunDuration := previousRunDuration atg in
    let stopDate :=
      newDate (fsub (fadd (inject_Z now) (hoursToMilliseconds (stopAfterHoursOrDefault cs)))
                    previousRunDuration) in
    ({| started := true;
        connectorsStartStatus := connectorsStartStatus atg;
        startDate := Some now;
        lastRunDate := Some now;
        stopDate := Some stopDate |},
     (startConnectors cs ++ [Log INFO None "started and will run for"])%list).

Definition stop (cs : ChargingStation) (atg : Generator) : Generator * list Event :=
  if negb (started atg) then
    (atg, [Log ERROR None "trying to stop while not started"])
  else
    let atg := stopConnectors cs atg in
    ({| started := false;
        connectorsStartStatus := connectorsStartStatus atg;
        startDate := startDate atg; lastRunDate := lastRunDate atg;
        stopDate := stopDate atg |},
     [Log INFO None "over and lasted for. Stopping all transactions"]).

Definition TypeError (msg : string) : Error :=
  {| message := msg; stack := None; details := None |}.

(** A call through [chargingStation.ocppRequestService]. *)
Definition request (cs : ChargingStation) (sent : Event)
    (f : OCPPRequestService -> Settled) : M Event (option JsObject) :=
  match ocppRequestService cs with
  | None => throw (TypeError "Cannot read properties of undefined")
  | Some service => ([sent], f service)
  end.

(** [response?.idTagInfo?.status === AuthorizationStatus.ACCEPTED] *)
Definition isAccepted (response : option JsObject) : bool :=
  match response with
  | None => false
  | Some r => strictEqStr (optProp (r !! "idTagInfo") "status") ACCEPTED
  end.

Definition startTransaction (ps : PerformanceStatistics) (cs : ChargingStation)
    (connectorId : Z) : M Event (option JsObject) :=
  let measureId := "StartTransaction with ATG" in
  let beginId := beginMeasure ps measureId in
  emit (BeginMeasure measureId) ;;
  if hasAuthorizedTags cs then
    let idTag := getRandomIdTag cs in
    if getAutomaticTransactionGeneratorRequireAuthorize cs then
      authorizeResponse ←
        request cs (SendAuthorize connectorId idTag)
                (fun service => sendAuthorize service connectorId idTag);
      if isAccepted authorizeResponse then
        emit (Log INFO (Some connectorId) "start transaction for idTag") ;;
        startResponse ←
          request cs (SendStartTransaction connectorId (Some idTag))
                  (fun service => sendStartTransaction service connectorId (Some idTag));
        emit (EndMeasure measureId beginId) ;;
        mret startResponse
      else
        emit (EndMeasure measureId beginId) ;;
        mret authorizeResponse
    else
      emit (Log INFO (Some connectorId) "start transaction for idTag") ;;
      startResponse ←
        request cs (SendStartTransaction connectorId (Some idTag))
                (fun service => sendStartTransaction service connectorId (Some idTag));
      emit (EndMeasure measureId beginId) ;;
      mret startResponse
  else
    emit (Log INFO (Some connectorId) "start transaction without an idTag") ;;
    startResponse ←
      request cs (SendStartTransaction connectorId None)
              (fun service => sendStartTransaction service connectorId None);
    emit (EndMeasure measureId beginId) ;;
    mret startResponse.

Definition stopTransaction (ps : PerformanceStatistics) (cs : ChargingStation)
    (connectorId : Z) (reason : StopTransactionReason) : M Event (option JsObject) :=
  let measureId := "StopTransaction with ATG" in
  let beginId := beginMeasure ps measureId in
  emit (BeginMeasure measureId) ;;
  stopResponse ←
    match getConnector cs connectorId with
    | Some connector =>
        if transactionStarted connector then
          let transactionId := transactionId connector in
          request cs
            (SendStopTransaction transactionId
               (getEnergyActiveImportRegisterByTransactionId cs transactionId)
               (getTransactionIdTag cs transactionId) reason)
            (fun service =>
               sendStopTransaction service transactionId
                 (getEnergyActiveImportRegisterByTransactionId cs transactionId)
                 (getTransactionIdTag cs transactionId) reason)
        else
          emit (Log WARN (Some connectorId) "trying to stop a not started transaction") ;;
          mret None
    | None =>
        emit (Log WARN (Some connectorId) "trying to stop a not started transaction") ;;
        mret None
    end;
  emit (EndMeasure measureId beginId) ;;
  mret stopResponse.

(** Modelled from the spec: [Constants.CHARGING_STATION_ATG_INITIALIZATION_TIME]
    and [Constants.CHARGING_STATION_ATG_WAIT_TIME], in milliseconds. *)
Definition CHARGING_STATION_ATG_INITIALIZATION_TIME : Z := 1000.
Definition CHARGING_STATION_ATG_WAIT_TIME : Z := 5000.

(** *** The connector loop

    [startConnector] is an asynchronous function: it runs until its next
    [await] and is resumed when what it awaits has settled.  A [Point] is
    the [await] a loop is suspended at; the requests it awaits have been
    sent already and carry their outcome. *)
Inductive Point : Type :=
| Scheduled
| InitSleep
| DelaySleep
| StartingTransaction (settled : Settled)
| RejectSleep
| DurationSleep
| StoppingTransaction (settled : Settled)
| FinalStop (settled : Settled)
| Finished
| Failed (error : Error).

Record Task : Type := {
  connectorId : Z;
  point : Point;
  skippedTransactions : Z;
  skippedTransactionsTotal : Z
}.

(** What a loop finds when it runs: the clock, the station, and the draws
    of [Utils.getRandomInteger] and [Utils.secureRandom]. *)
Record Tick : Type := {
  now : Z;
  station : ChargingStation;
  randomInteger : Z;
  secureRandom : Q
}.

Definition at_ (task : Task) (p : Point) : Task :=
  {| connectorId := connectorId task; point := p;
     skippedTransactions := skippedTransactions task;
     skippedTransactionsTotal := skippedTransactionsTotal task |}.

Definition setLastRunDate (d : Z) (atg : Generator) : Generator :=
  {| started := started atg; connectorsStartStatus := connectorsStartStatus atg;
     startDate := startDate atg; lastRunDate := Some d; stopDate := stopDate atg |}.

Definition setStartStatus (connectorId : Z) (atg : Generator) : Generator :=
  {| started := started atg;
     connectorsStartStatus := <[connectorId := true]> (connectorsStartStatus atg);
     startDate := startDate atg; lastRunDate := lastRunDate atg; stopDate := stopDate atg |}.

(** [new Date () > this.stopDate]; a comparison with [NaN] is false. *)
Definition dateAfter (now : Z) (d : option Date) : bool :=
  match d with
  | Some (Some t) => bool_decide (now > t)
  | _ => false
  end.

Definition Qlt_bool (a b : Q) : bool := negb (Qle_bool b a).

(** After the loop: [await this.stopTransaction (connectorId)]. *)
Definition exitLoop (ps : PerformanceStatistics) (tk : Tick) (task : Task)
    (atg : Generator) (events : list Event) : Generator * list Event * Task :=
  let '(sent, settled) := stopTransaction ps (station tk) (connectorId task) NONE in
  (atg, (events ++ sent)%list, at_ task (FinalStop settled)).

(** The draw of the delay and the sleep that follows it. *)
Definition delay (tk : Tick) (task : Task) (atg : Generator) (events : list Event)
  : Generator * list Event * Task :=
  match AutomaticTransactionGenerator (station tk) with
  | None => (atg, events, at_ task (Failed (TypeError "Cannot read properties of undefined")))
  | Some _ =>
      (atg,
       (events ++ [Log INFO (Some (connectorId task)) "waiting for";
                   Sleep (randomInteger tk * 1000)])%list,
       at_ task DelaySleep)
  end.

(** From the [while] condition to the first [await] behind it. *)
Definition loopTop (ps : PerformanceStatistics) (tk : Tick) (task : Task)
    (atg : Generator) (events : list Event) : Generator * list Event * Task :=
  let c := connectorId task in
  let cs := station tk in
  if startStatus atg c then
    if dateAfter (now tk) (stopDate atg) then
      let '(atg, logged) := stop cs atg in
      exitLoop ps tk task atg (events ++ logged)%list
    else if negb (isRegistered cs) then
      exitLoop ps tk task atg
        (events ++ [Log ERROR (Some c)
           "Entered in transaction loop while the charging station is not registered"])%list
    else if negb (isChargingStationAvailable cs) then
      let '(atg, logged) := stop cs atg in
      exitLoop ps tk task atg
        (events ++ Log INFO (Some c)
           "Entered in transaction loop while the charging station is unavailable" :: logged)%list
    else if negb (isConnectorAvailable cs c) then
      exitLoop ps tk task atg
        (events ++ [Log INFO (Some c)
           "Entered in transaction loop while the connector is unavailable, stop it"])%list
    else
      match ocppRequestService cs with
      | None =>
          (atg,
           (events ++ [Log INFO (Some c)
              "Transaction loop waiting for charging station service to be initialized";
              Sleep CHARGING_STATION_ATG_INITIALIZATION_TIME])%list,
           at_ task InitSleep)
      | Some _ => delay tk task atg events
      end
  else exitLoop ps tk task atg events.

(** The end of the loop body, [this.lastRunDate = new Date ()], and round
    again. *)
Definition endOfIteration (ps : PerformanceStatistics) (tk : Tick) (task : Task)
    (atg : Generator) (events : list Event) : Generator * list Event * Task :=
  loopTop ps tk task (setLastRunDate (now tk) atg) events.

(** [startConnector], from where [task] is suspended to its next [await]. *)
Definition resume (ps : PerformanceStatistics) (tk : Tick) (task : Task)
    (atg : Generator) : Generator * list Event * Task :=
  let c := connectorId task in
  let cs := station tk in
  let failed := at_ task (Failed (TypeError "Cannot read properties of undefined")) in
  match point task with
  | Scheduled =>
      let task := {| connectorId := c; point := Scheduled;
                     skippedTransactions := 0; skippedTransactionsTotal := 0 |} in
      loopTop ps tk task (setStartStatus c atg) [Log INFO (Some c) "started on connector"]
  | InitSleep =>
      match ocppRequestService cs with
      | None => (atg, [Sleep CHARGING_STATION_ATG_INITIALIZATION_TIME], task)
      | Some _ => delay tk task atg []
      end
  | DelaySleep =>
      match AutomaticTransactionGenerator cs with
      | None => (atg, [], failed)
      | Some cfg =>
          if Qlt_bool (secureRandom tk) (probabilityOfStart cfg) then
            let '(sent, settled) := startTransaction ps cs c in
            (atg, sent,
             {| connectorId := c; point := StartingTransaction settled;
                skippedTransactions := 0;
                skippedTransactionsTotal := skippedTransactionsTotal task |})
          else
            endOfIteration ps tk
              {| connectorId := c; point := DelaySleep;
                 skippedTransactions := skippedTransactions task + 1;
                 skippedTransactionsTotal := skippedTransactionsTotal task + 1 |}
              atg [Log INFO (Some c) "skipped transaction"]
      end
  | StartingTransaction (inl error) => (atg, [], at_ task (Failed error))
  | StartingTransaction (inr startResponse) =>
      if negb (isAccepted startResponse) then
        (atg, [Log WARN (Some c) "transaction rejected"; Sleep CHARGING_STATION_ATG_WAIT_TIME],
         at_ task RejectSleep)
      else
        match AutomaticTransactionGenerator cs, getConnector cs c with
        | Some _, Some _ =>
            (atg, [Log INFO (Some c) "transaction will stop in"; Sleep (randomInteger tk * 1000)],
             at_ task DurationSleep)
        | _, _ => (atg, [], failed)
        end
  | RejectSleep => endOfIteration ps tk task atg []
  | DurationSleep =>
      match getConnector cs c with
      | None => (atg, [], failed)
      | Some _ =>
          let '(sent, settled) := stopTransaction ps cs c NONE in
          (atg, Log INFO (Some c) "stop transaction" :: sent,
           at_ task (StoppingTransaction settled))
      end
  | StoppingTransaction (inl error) => (atg, [], at_ task (Failed error))
  | StoppingTransaction (inr _) => endOfIteration ps tk task atg []
  | FinalStop (inl error) => (atg, [], at_ task (Failed error))
  | FinalStop (inr _) => (atg, [Log INFO (Some c) "stopped on connector"], at_ task Finished)
  | Finished | Failed _ => (atg, [], task)
  end.

(** *** The generator and its loops together *)

Record System : Type := {
  atg : Generator;
  immediates : list Z;
  tasks : list Task;
  output : list Event
}.

(** What can happen next: a caller runs [start ()] or [stop ()], the event
    loop runs the oldest [setImmediate] callback, or the [await] of a loop
    settles. *)
Inductive Label : Type :=
| CallStart (cs : ChargingStation) (now : Z)
| CallStop (cs : ChargingStation)
| RunImmediate (tk : Tick)
| Resume (i : nat) (tk : Tick).

Definition scheduled (events : list Event) : list Z :=
  flat_map (fun e => match e with SetImmediate c => [c] | _ => [] end) events.

Definition step (ps : PerformanceStatistics) (l : Label) (s : System) : System :=
  match l with
  | CallStart cs now =>
      let '(atg', events) := start cs now (atg s) in
      {| atg := atg'; immediates := (immediates s ++ scheduled events)%list;
         tasks := tasks s; output := (output s ++ events)%list |}
  | CallStop cs =>
      let '(atg', events) := stop cs (atg s) in
      {| atg := atg'; immediates := immediates s;
         tasks := tasks s; output := (output s ++ events)%list |}
  | RunImmediate tk =>
      match immediates s with
      | [] => s
      | c :: rest =>
          let task := {| connectorId := c; point := Scheduled;
                         skippedTransactions := 0; skippedTransactionsTotal := 0 |} in
          let '(atg', events, task') := resume ps tk task (atg s) in
          {| atg := atg'; immediates := rest;
             tasks := (tasks s ++ [task'])%list; output := (output s ++ events)%list |}
      end
  | Resume i tk =>
      match tasks s !! i with
      | None => s
      | Some task =>
          let '(atg', events, task') := resume ps tk task (atg s) in
          {| atg := atg'; immediates := immediates s;
             tasks := <[i := task']> (tasks s); output := (output s ++ events)%list |}
      end
  end.

Definition run (ps : PerformanceStatistics) (ls : list Label) (s : System) : System :=
  fold_left (fun s l => step ps l s) ls s.

(** The system right after [new AutomaticTransactionGenerator (cs)]. *)
Definition boot (cs : ChargingStation) : System :=
  {| atg := constructor cs; immediates := []; tasks := []; output := [] |}.

(** The invariant the design states for the run-time state. *)
Definition stoppedMeansNoneStarted (g : Generator) : Prop :=
  started g = false -> forall c : Z, startStatus g c = false.

(** Every raised flag belongs to a connector above 0 of the table of [cs]. *)
Definition flagsWithin (cs : ChargingStation) (g : Generator) : Prop :=
  forall c : Z, startStatus g c = true -> c > 0 /\ c ∈ (connectors cs).*1.

(** [cs] has the connector identifiers of [cs0], in the same order. *)
Definition sameTable (cs0 cs : ChargingStation) : Prop :=
  (connectors cs).*1 = (connectors cs0).*1.

Definition labelStation (l : Label) : ChargingStation :=
  match l with
  | CallStart cs _ | CallStop cs => cs
  | RunImmediate tk | Resume _ tk => station tk
  end.

(** Along [ls], from [s] on, no deferred loop gets to run while the
    generator is stopped. *)
Fixpoint noLateStart (ps : PerformanceStatistics) (ls : list Label) (s : System) : Prop :=
  match ls with
  | [] => True
  | l :: rest =>
      match l with
      | RunImmediate _ => started (atg s) = true
      | _ => True
      end /\ noLateStart ps rest (step ps l s)
  end.

(** What every step keeps when no deferred loop starts late: the invariant
    of the design, flags and pending loops on connectors of the table of
    [cs] only, and no running loop still waiting for its first turn. *)
Definition consistent (cs : ChargingStation) (s : System) : Prop :=
  stoppedMeansNoneStarted (atg s) /\
  flagsWithin cs (atg s) /\
  Forall (fun c => c > 0 /\ c ∈ (connectors cs).*1) (immediates s) /\
  Forall (fun task => point task ≠ Scheduled) (tasks s).

(** The connector identifiers above 0, in table order. *)
Definition positiveIds (cs : ChargingStation) : list Z :=
  filter (fun c => c > 0) (connectors cs).*1.

(** The Authorize and StartTransaction requests among the events of a run. *)
Definition startRequests (events : list Event) : list Event :=
  List.filter (fun e => match e with
                        | SendAuthorize _ _ | SendStartTransaction _ _ => true
                        | _ => false
                        end) events.

(** An event that is neither an Authorize nor a StartTransaction request. *)
Definition notStartRequest (e : Event) : Prop :=
  match e with
  | SendAuthorize _ _ | SendStartTransaction _ _ => False
  | _ => True
  end.

(** The measurements closed among the events of a run. *)
Definition closedMeasures (events : list Event) : list (string * string) :=
  flat_map (fun e => match e with EndMeasure id beginId => [(id, beginId)] | _ => [] end)
           events.

(** The requests among the events of a run. *)
Definition requests (events : list Event) : list Event :=
  List.filter (fun e => match e with
                        | SendAuthorize _ _ | SendStartTransaction _ _
                        | SendStopTransaction _ _ _ _ => true
                        | _ => false
                        end) events.

(** A reply whose [idTagInfo.status] is [ACCEPTED]. *)
Definition acceptedReply (response : option JsObject) : Prop :=
  exists r info,
    response = Some r /\ r !! "idTagInfo" = Some (JObj info) /\
    info !! "status" = Some (JStr ACCEPTED).

End ATG.

(** ** The JSON file storage of the performance statistics
    [performance/storage/JsonFileStorage.ts] *)

Module JsonFileStorage.

(** What the storage does to the outside: the calls of [node:fs] and of
    the exception handler of [utils]. *)
Inductive Event : Type :=
| ExistsSync (path : string)
| MkdirSync (path : string) (recursive : bool)
| OpenSync (path : string) (flags : string)
| CloseSync (fd : Z)
| WriteSync (fd : option Z) (text : string) (position : Z) (encoding : string)
| HandleFileException (file : string) (error : Error) (logPrefix : string).

(** What the class takes from outside, taken as given: [node:fs] and
    [node:path] ([None] is a call that returns, [Some e] one that throws
    [e]), the serializer and the exception handler of [utils] (which may
    throw in turn), the stack the runtime gives an error, and the three
    methods inherited from [Storage] over its store [S] of statistics. *)
Record Environment (S : Type) : Type := {
  existsSync : string -> bool;
  mkdirSync : string -> option Error;
  openSync : string -> string -> Error + Z;
  closeSync : Z -> option Error;
  writeSync : option Z -> string -> Z -> string -> option Error;
  dirname : string -> string;
  JSONStringifyWithMapSupport : list JsObject -> Z -> string;
  handleFileException : string -> Error -> string -> option Error;
  captureStack : string -> option string;
  setPerformanceStatistics : JsObject -> S -> S;
  getPerformanceStatistics : S -> list JsObject;
  clearPerformanceStatistics : S -> S
}.

Arguments existsSync {S}.
Arguments mkdirSync {S}.
Arguments openSync {S}.
Arguments closeSync {S}.
Arguments writeSync {S}.
Arguments dirname {S}.
Arguments JSONStringifyWithMapSupport {S}.
Arguments handleFileException {S}.
Arguments captureStack {S}.
Arguments setPerformanceStatistics {S}.
Arguments getPerformanceStatistics {S}.
Arguments clearPerformanceStatistics {S}.

(** The fields of a [JsonFileStorage] object and the store it shares. *)
Record Storage (S : Type) : Type := {
  fd : option Z;
  dbName : string;
  logPrefix : string;
  performanceStatistics : S
}.

Arguments fd {S}.
Arguments dbName {S}.
Arguments logPrefix {S}.
Arguments performanceStatistics {S}.

(** How a method ends: the object after it, what it did, the error it
    threw if it threw, and whether it queued a write behind the lock. *)
Record Result (S : Type) : Type := {
  after : Storage S;
  events : list Event;
  thrown : option Error;
  queued : bool
}.

Arguments after {S}.
Arguments events {S}.
Arguments thrown {S}.
Arguments queued {S}.

Definition setFd {S : Type} (d : option Z) (st : Storage S) : Storage S :=
  {| fd := d; dbName := dbName st; logPrefix := logPrefix st;
     performanceStatistics := performanceStatistics st |}.

Definition setStatistics {S : Type} (stats : S) (st : Storage S) : Storage S :=
  {| fd := fd st; dbName := dbName st; logPrefix := logPrefix st;
     performanceStatistics := stats |}.

(** The [catch] block the three methods share. *)
Definition handled {S : Type} (env : Environment S) (st : Storage S)
    (done : list Event) (error : Error) (queued : bool) : Result S :=
  {| after := st;
     events := (done ++ [HandleFileException (dbName st) error (logPrefix st)])%list;
     thrown := handleFileException env (dbName st) error (logPrefix st);
     queued := queued |}.

Definition open {S : Type} (env : Environment S) (st : Storage S) : Result S :=
  match fd st with
  | Some _ => {| after := st; events := []; thrown := None; queued := false |}
  | None =>
      let dir := dirname env (dbName st) in
      let made :=
        if negb (existsSync env dir)
        then ([ExistsSync dir; MkdirSync dir true], mkdirSync env dir)
        else ([ExistsSync dir], None) in
      match made with
      | (done, Some error) => handled env st done error false
      | (done, None) =>
          let done := (done ++ [OpenSync (dbName st) "w"])%list in
          match openSync env (dbName st) "w" with
          | inl error => handled env st done error false
          | inr d =>
              {| after := setFd (Some d) st; events := done; thrown := None;
                 queued := false |}
          end
      end
  end.

Definition close {S : Type} (env : Environment S) (st : Storage S) : Result S :=
  let st := setStatistics (clearPerformanceStatistics env (performanceStatistics st)) st in
  match fd st with
  | Some d =>
      match closeSync env d with
      | Some error => handled env st [CloseSync d] error false
      | None =>
          {| after := setFd None st; events := [CloseSync d]; thrown := None;
             queued := false |}
      end
  | None => {| after := st; events := []; thrown := None; queued := false |}
  end.

Definition BaseError {S : Type} (env : Environment S) (msg : string) : Error :=
  {| message := msg; stack := captureStack env msg; details := None |}.

(** [checkPerformanceRecordsFile]: the error it throws, if it throws. *)
Definition checkPerformanceRecordsFile {S : Type} (env : Environment S) (st : Storage S)
  : option Error :=
  match fd st with
  | None =>
      Some (BaseError env
        (logPrefix st ++ " Performance records '" ++ dbName st ++
         "' file descriptor not found"))
  | Some _ => None
  end.

(** [storePerformanceStatistics], up to the call of [AsyncLock.runExclusive],
    which queues the write. *)
Definition storePerformanceStatistics {S : Type} (env : Environment S)
    (statistics : JsObject) (st : Storage S) : Result S :=
  let st :=
    setStatistics (setPerformanceStatistics env statistics (performanceStatistics st)) st in
  match checkPerformanceRecordsFile env st with
  | Some error => {| after := st; events := []; thrown := Some error; queued := false |}
  | None => {| after := st; events := []; thrown := None; queued := true |}
  end.

(** The queued write, run once the lock is held, on the object as it is
    by then; an error of [writeSync] goes to the exception handler. *)
Definition write {S : Type} (env : Environment S) (st : Storage S) : Result S :=
  let text :=
    JSONStringifyWithMapSupport env (getPerformanceStatistics env (performanceStatistics st)) 2 in
  let done := [WriteSync (fd st) text 0 "utf8"] in
  match writeSync env (fd st) text 0 "utf8" with
  | Some error => handled env st done error false
  | None => {| after := st; events := done; thrown := None; queued := false |}
  end.

End JsonFileStorage.

(** ** Sample stations and messages *)

Module Samples.

(** A channel that accepts every event and tells a response by its shape. *)
Definition channel : Channel.WorkerBroadcastChannel :=
  {| Channel.validateMessageEvent := Some;
     Channel.isResponse :=
       fun d => match d with Channel.ResponseData _ _ => true | _ => false end;
     Channel.procedureName := fun _ => "procedure" |}.

Definition rejectedBoot : JsObject :=
  {[ "status" := JStr "Rejected"; "interval" := JNum 60 ]}.

Definition timeout : Error :=
  {| message := "timeout"; stack := None;
     details := Some (JObj {[ "code" := JStr "NetworkError" ]}) |}.

(** Station "A": its heartbeat is answered, its boot notification is
    rejected, its authorize request times out. *)
Definition stationA : Channel.ChargingStation :=
  {| Channel.stationInfo := Some {| Channel.StationInfo.hashId := "A" |};
     Channel.logPrefix := "A |";
     Channel.bootNotificationRequest := ∅;
     Channel.getEnergyActiveImportRegisterByTransactionId := fun _ _ => JNum 0;
     Channel.getConnectorStatus := fun _ => None;
     Channel.configuredMeterValueSampleInterval := None;
     Channel.buildMeterValue := fun _ _ _ => JNull;
     Channel.perform :=
       fun c =>
         match c with
         | Channel.CS_ocppRequest Channel.RC_HEARTBEAT _ _ =>
             Channel.Returns (Some {[ "currentTime" := JStr "2024-06-01T00:00:00Z" ]})
         | Channel.CS_ocppRequest Channel.RC_BOOT_NOTIFICATION _ _ =>
             Channel.Returns (Some rejectedBoot)
         | Channel.CS_ocppRequest Channel.RC_AUTHORIZE _ _ => Channel.Throws timeout
         | _ => Channel.Returns None
         end;
     Channel.captureStack := fun _ => None |}.

Definition request (uuid : string) (command : Channel.Command) (payload : JsObject)
  : Channel.MessageEvent :=
  {| Channel.data := Channel.RequestData uuid command payload |}.

Definition perf : ATG.PerformanceStatistics :=
  {| ATG.beginMeasure := fun id => id ++ "~start" |}.

Definition accepted : JsObject :=
  {[ "idTagInfo" := JObj {[ "status" := JStr "Accepted" ]} ]}.

Definition blocked : JsObject :=
  {[ "idTagInfo" := JObj {[ "status" := JStr "Blocked" ]} ]}.

Definition service (authorizeReply : JsObject) : ATG.OCPPRequestService :=
  {| ATG.sendAuthorize := fun _ _ => inr (Some authorizeReply);
     ATG.sendStartTransaction := fun _ _ => inr (Some accepted);
     ATG.sendStopTransaction := fun _ _ _ _ => inr (Some accepted) |}.

Definition idle : ATG.Connector :=
  {| ATG.transactionStarted := false; ATG.transactionId := 0 |}.

Definition charging : ATG.Connector :=
  {| ATG.transactionStarted := true; ATG.transactionId := 7 |}.

Definition configuration (hours : option Q) : ATG.Configuration :=
  {| ATG.stopAfterHours := hours;
     ATG.minDelayBetweenTwoTransactions := 1; ATG.maxDelayBetweenTwoTransactions := 1;
     ATG.minDuration := 2; ATG.maxDuration := 2;
     ATG.probabilityOfStart := 1 |}.

(** A registered station with connectors 0, 1 and 2. *)
Definition station (hours : option Q) (available requireAuthorize : bool)
    (authorizeReply : JsObject) (second : ATG.Connector) : ATG.ChargingStation :=
  {| ATG.connectors := [(0, idle); (1, idle); (2, second)];
     ATG.AutomaticTransactionGenerator := Some (configuration hours);
     ATG.ocppRequestService := Some (service authorizeReply);
     ATG.isRegistered := true;
     ATG.isChargingStationAvailable := available;
     ATG.isConnectorAvailable := fun _ => true;
     ATG.hasAuthorizedTags := true;
     ATG.getRandomIdTag := "TAG";
     ATG.getAutomaticTransactionGeneratorRequireAuthorize := requireAuthorize;
     ATG.getEnergyActiveImportRegisterByTransactionId := fun _ => 1500;
     ATG.getTransactionIdTag := fun _ => Some "TAG" |}.

Definition tick (now : Z) (cs : ATG.ChargingStation) : ATG.Tick :=
  {| ATG.now := now; ATG.station := cs; ATG.randomInteger := 1; ATG.secureRandom := 0 |}.

(** Budget spent at once: [stopAfterHours = 0], started at instant 1000,
    the two deferred loops run one millisecond later. *)
Definition spent : ATG.ChargingStation := station (Some 0%Q) true false accepted idle.

Definition spentRun : list ATG.Label :=
  [ATG.CallStart spent 1000; ATG.RunImmediate (tick 1001 spent);
   ATG.RunImmediate (tick 1001 spent)].

(** Default budget, station unavailable when the deferred loops run. *)
Definition unavailable : ATG.ChargingStation := station None false false accepted idle.

Definition unavailableRun : list ATG.Label :=
  [ATG.CallStart unavailable 1000; ATG.RunImmediate (tick 1001 unavailable);
   ATG.RunImmediate (tick 1001 unavailable)].

(** [start ()] and [stop ()] called back to back, before the event loop
    runs the deferred loops. *)
Definition ready : ATG.ChargingStation := station None true false accepted idle.

Definition startStopRun : list ATG.Label :=
  [ATG.CallStart ready 1000; ATG.CallStop ready; ATG.RunImmediate (tick 1001 ready)].

(** A station started at instant 0 and last seen running at 600000. *)
Definition running : ATG.Generator :=
  ATG.setLastRunDate 600000 (ATG.start ready 0 (ATG.constructor ready)).1.

(** Templates with [stopAfterHours] 0.3 and 4.1. *)
Definition shortShift : ATG.ChargingStation := station (Some (3 # 10)) true false accepted idle.

Definition longShift : ATG.ChargingStation := station (Some (41 # 10)) true false accepted idle.

(** The station of 0.3 hours started at instant 0, last seen running at
    600000 and stopped. *)
Definition paused : ATG.Generator :=
  (ATG.stop shortShift
     (ATG.setLastRunDate 600000 (ATG.start shortShift 0 (ATG.constructor shortShift)).1)).1.

(** A heartbeat request addressed to station "A" by [hashIds], with a
    connector list and a field of its own. *)
Definition addressed : JsObject :=
  {[ "hashIds" := JArr [JStr "A"]; "connectorIds" := JArr [JNum 1]; "foo" := JNum 3 ]}.

(** The loop of connector 1, suspended at [p]. *)
Definition loop (p : ATG.Point) : ATG.Task :=
  {| ATG.connectorId := 1; ATG.point := p;
     ATG.skippedTransactions := 0; ATG.skippedTransactionsTotal := 0 |}.

(** A moment at which the draw, 1, is not below the probability of start. *)
Definition unlucky (now : Z) (cs : ATG.ChargingStation) : ATG.Tick :=
  {| ATG.now := now; ATG.station := cs; ATG.randomInteger := 1; ATG.secureRandom := 1 |}.

Definition quietRun : list ATG.Label :=
  [ATG.CallStart ready 1000; ATG.RunImmediate (tick 1001 ready);
   ATG.RunImmediate (tick 1001 ready); ATG.Resume 0%nat (unlucky 2001 ready);
   ATG.CallStop ready].

Definition refused : Error :=
  {| message := "EACCES"; stack := None; details := None |}.

(** A file system on which everything works, but [closeSync] when
    [closeFails], and a store of statistics kept as a list. *)
Definition fileSystem (closeFails : bool) : JsonFileStorage.Environment (list JsObject) :=
  {| JsonFileStorage.existsSync := fun _ => false;
     JsonFileStorage.mkdirSync := fun _ => None;
     JsonFileStorage.openSync := fun _ _ => inr 3;
     JsonFileStorage.closeSync := fun _ => if closeFails then Some refused else None;
     JsonFileStorage.writeSync := fun _ _ _ _ => None;
     JsonFileStorage.dirname := fun _ => "/var/log";
     JsonFileStorage.JSONStringifyWithMapSupport := fun l _ => match l with [] => "[]" | _ => "[...]" end;
     JsonFileStorage.handleFileException := fun _ e _ => Some e;
     JsonFileStorage.captureStack := fun _ => None;
     JsonFileStorage.setPerformanceStatistics := cons;
     JsonFileStorage.getPerformanceStatistics := fun l => l;
     JsonFileStorage.clearPerformanceStatistics := fun _ => [] |}.

Definition storage (descriptor : option Z) : JsonFileStorage.Storage (list JsObject) :=
  {| JsonFileStorage.fd := descriptor;
     JsonFileStorage.dbName := "/var/log/performance.json";
     JsonFileStorage.logPrefix := "JSON |";
     JsonFileStorage.performanceStatistics := [] |}.

End Samples.


(** * Properties *)

(** Unfolds the operations of the trace-and-exception monad. *)
Ltac unfold_monad :=
  unfold mbind, M_bind, bind, mret, M_ret, ret, emit, throw, trace, outcome in *.

(** ** JSON helpers *)

Lemma strictEqStr_true (v : option JsonValue) (s : string) :
  strictEqStr v s = true <-> v = Some (JStr s).
Proof.
  unfold strictEqStr.
  destruct v as [[| | |t| |]|]; try (split; [discriminate|congruence]).
  rewrite bool_decide_eq_true. split; congruence.
Qed.

Lemma existsb_strictEqStr (items : list JsonValue) (h : string) :
  existsb (fun item => strictEqStr (Some item) h) items = true <-> JStr h ∈ items.
Proof.
  induction items as [|x xs IH]; cbn [existsb].
  - split; [discriminate | intros H; inversion H].
  - rewrite orb_true_iff, IH, strictEqStr_true, elem_of_cons.
    split; intros [H|H]; auto; left; congruence.
Qed.

Lemma isEmpty_true (o : JsObject) : isEmpty o = true <-> o = ∅.
Proof. unfold isEmpty. apply bool_decide_eq_true. Qed.

Lemma optProp_status (v : option JsonValue) (s : string) :
  optProp v "status" = Some (JStr s) <->
  exists info, v = Some (JObj info) /\ info !! "status" = Some (JStr s).
Proof.
  split.
  - destruct v as [[| | | | |info]|]; simpl; try discriminate. eauto.
  - intros (info & -> & H). exact H.
Qed.

(** ** The worker command channel *)

Section ChannelProperties.
Import Channel.

Variable ch : WorkerBroadcastChannel.
Variable cs : ChargingStation.

(** No handler of the table publishes a response or enters another handler. *)
Lemma handler_events (p : BroadcastChannelProcedureName) (h : CommandHandler)
    (requestPayload : JsObject) :
  mapGet (commandHandlers cs) p = Some h ->
  responses (trace (run h requestPayload)) = [] /\
  invocations (trace (run h requestPayload)) = [].
Proof.
  intros H.
  destruct p; cbn in H; injection H as <-; cbn;
    unfold call; unfold_monad;
    repeat case_match; simplify_eq/=; auto.
Qed.

Lemma responses_app (a b : list Event) :
  responses (a ++ b) = (responses a ++ responses b)%list.
Proof. apply flat_map_app. Qed.

Lemma invocations_app (a b : list Event) :
  invocations (a ++ b) = (invocations a ++ invocations b)%list.
Proof. apply flat_map_app. Qed.

Lemma stationCalls_app (a b : list Event) :
  stationCalls (a ++ b) = (stationCalls a ++ stationCalls b)%list.
Proof. apply flat_map_app. Qed.

(** The table has one entry for each procedure, and no other. *)
Lemma commandHandlers_exhaustive (p : BroadcastChannelProcedureName) :
  is_Some (getHandler cs (Proc p)).
Proof. destruct p; cbn; eauto. Qed.

Lemma commandHandlers_keys :
  (commandHandlers cs).*1 =
    [START_CHARGING_STATION; STOP_CHARGING_STATION; DELETE_CHARGING_STATIONS;
     OPEN_CONNECTION; CLOSE_CONNECTION; START_AUTOMATIC_TRANSACTION_GENERATOR;
     STOP_AUTOMATIC_TRANSACTION_GENERATOR; SET_SUPERVISION_URL; START_TRANSACTION;
     STOP_TRANSACTION; AUTHORIZE; BOOT_NOTIFICATION; STATUS_NOTIFICATION; HEARTBEAT;
     METER_VALUES; DATA_TRANSFER; DIAGNOSTICS_STATUS_NOTIFICATION;
     FIRMWARE_STATUS_NOTIFICATION] /\
  NoDup (commandHandlers cs).*1.
Proof.
  split; [reflexivity|]. cbn.
  repeat (apply NoDup_cons; split;
          [intros Hin;
           repeat (apply elem_of_cons in Hin as [Hin | Hin]; [discriminate|]);
           inversion Hin|]).
  apply NoDup_nil_2.
Qed.

Lemma commandHandler_known (command : Command) (requestPayload : JsObject)
    (h : CommandHandler) :
  getHandler cs command = Some h ->
  commandHandler ch cs command requestPayload =
    let cleaned := cleanRequestPayload command requestPayload in
    (cleaned,
     (ConsoleLog "commandHandler" :: Invoke command cleaned :: trace (run h cleaned),
      outcome (run h cleaned))).
Proof.
  intros H. unfold commandHandler. rewrite H. cbn zeta.
  destruct (isAsyncFunction h); unfold_monad;
    destruct (run h (cleanRequestPayload command requestPayload)) as [t [e|r]];
    reflexivity.
Qed.

Lemma commandHandler_unknown (command : Command) (requestPayload : JsObject) :
  getHandler cs command = None ->
  commandHandler ch cs command requestPayload =
    (requestPayload,
     ([ConsoleLog "commandHandler"],
      inl (BaseError cs ("Unknown worker broadcast channel command: '"
                         ++ commandText ch command ++ "'")))).
Proof. intros H. unfold commandHandler. rewrite H. reflexivity. Qed.

Lemma commandHandler_no_response (command : Command) (requestPayload : JsObject) :
  responses (trace (commandHandler ch cs command requestPayload).2) = [].
Proof.
  destruct (getHandler cs command) as [h|] eqn:H.
  - rewrite (commandHandler_known _ _ _ H). cbn.
    destruct command as [p|name]; [|discriminate].
    apply (handler_events p h _ H).
  - rewrite (commandHandler_unknown _ _ H). reflexivity.
Qed.

Lemma dispatch_responses (uuid : string) (command : Command) (requestPayload : JsObject) :
  responses (dispatch ch cs uuid command requestPayload) =
    [(uuid, Some (published ch cs command requestPayload))].
Proof.
  unfold dispatch, published.
  pose proof (commandHandler_no_response command requestPayload) as H.
  destruct (commandHandler ch cs command requestPayload) as [p' [events [e|r]]];
    unfold trace in H; cbn [fst snd] in H; rewrite responses_app, H; reflexivity.
Qed.

(** A request that passes validation and targeting reaches [dispatch]. *)
Lemma requestHandler_accepted (ev v : MessageEvent) (uuid : string) (command : Command)
    (requestPayload : JsObject) :
  validateMessageEvent ch ev = Some v ->
  isResponse ch (data v) = false ->
  data v = RequestData uuid command requestPayload ->
  passesTargeting cs requestPayload ->
  requestHandler ch cs ev =
    ConsoleLog "requestHandler" :: dispatch ch cs uuid command requestPayload.
Proof.
  intros Hv Hr Hd [Hids Hid]. unfold requestHandler.
  rewrite Hv, Hr, Hd, Hid. cbn [negb].
  destruct Hids as [Hnull | (hashIds & Hsome & info & items & Hinfo & -> & Hin)].
  - destruct (requestPayload !! "hashIds") as [[]|]; try discriminate; reflexivity.
  - rewrite Hsome, Hinfo. cbn [hashIdsIncludes].
    apply existsb_strictEqStr in Hin. rewrite Hin. reflexivity.
Qed.

(** A request whose [hashIds] array does not name this station is dropped
    at the first targeting check. *)
Lemma requestHandler_not_named (ev : MessageEvent) (uuid : string) (command : Command)
    (requestPayload : JsObject) (items : list JsonValue) :
  (forall v, validateMessageEvent ch ev = Some v ->
             data v = RequestData uuid command requestPayload) ->
  requestPayload !! "hashIds" = Some (JArr items) ->
  notNamedIn cs items ->
  invocations (requestHandler ch cs ev) = [] /\
  stationCalls (requestHandler ch cs ev) = [] /\
  responses (requestHandler ch cs ev) = [].
Proof.
  intros Hd Hids Hnot. unfold requestHandler.
  destruct (validateMessageEvent ch ev) as [v|] eqn:Hv; [|done].
  rewrite (Hd v eq_refl).
  destruct (isResponse ch _); [done|].
  rewrite Hids.
  destruct (stationInfo cs) as [info|] eqn:Hinfo; [|done].
  cbn [hashIdsIncludes].
  destruct (existsb _ items) eqn:Hex; [|done].
  apply existsb_strictEqStr in Hex. destruct (Hnot info Hinfo Hex).
Qed.

(** A request that carries the legacy [hashId] never reaches [dispatch]. *)
Lemma requestHandler_legacy (ev : MessageEvent) (uuid : string) (command : Command)
    (requestPayload : JsObject) :
  (forall v, validateMessageEvent ch ev = Some v ->
             data v = RequestData uuid command requestPayload) ->
  hasLegacyHashId requestPayload ->
  invocations (requestHandler ch cs ev) = [] /\
  stationCalls (requestHandler ch cs ev) = [] /\
  responses (requestHandler ch cs ev) = [].
Proof.
  intros Hd Hid. unfold requestHandler, hasLegacyHashId in *.
  destruct (validateMessageEvent ch ev) as [v|] eqn:Hv; [|done].
  rewrite (Hd v eq_refl).
  destruct (isResponse ch _); [done|].
  rewrite Hid. cbn [negb].
  destruct (requestPayload !! "hashIds") as [hashIds|]; [|done].
  destruct hashIds; try done;
    destruct (stationInfo cs) as [info|]; try done;
    cbn [hashIdsIncludes]; by case_match.
Qed.

Lemma cleanRequestPayload_frame (command : Command) (requestPayload : JsObject) (k : string) :
  k ∉ ["hashId"; "hashIds"; "connectorIds"] ->
  cleanRequestPayload command requestPayload !! k = requestPayload !! k.
Proof.
  intros Hk. unfold cleanRequestPayload.
  assert (k ≠ "hashId" /\ k ≠ "hashIds" /\ k ≠ "connectorIds") as (H1 & H2 & H3).
  { repeat split; intros ->; apply Hk; set_solver. }
  destruct (negb _); by rewrite ?lookup_delete_ne.
Qed.

(** C1. Every request envelope that passes validation and the targeting
    checks (not a response, [hashIds] absent or naming this station, no
    legacy [hashId]) gets exactly one response envelope, tagged with its
    uuid: [SUCCESS] alone when the handler returns nothing, an empty
    response or a response the classifier accepts; [FAILURE] with the
    command response when the classifier rejects it; [FAILURE] with the
    error when the handler throws. *)
Theorem accepted_request_one_response (ev v : MessageEvent) (uuid : string)
    (command : Command) (requestPayload : JsObject) :
  validateMessageEvent ch ev = Some v ->
  isResponse ch (data v) = false ->
  data v = RequestData uuid command requestPayload ->
  passesTargeting cs requestPayload ->
  let seen := (commandHandler ch cs command requestPayload).1 in
  let settled := outcome (commandHandler ch cs command requestPayload).2 in
  exists p,
    responses (requestHandler ch cs ev) = [(uuid, Some p)] /\
    (forall r, settled = inr r ->
       r = None \/ r = Some ∅ \/
       (exists o, r = Some o /\ commandResponseToResponseStatus command o = SUCCESS) ->
       p = statusOnly cs SUCCESS) /\
    (forall o, settled = inr (Some o) -> o ≠ ∅ ->
       commandResponseToResponseStatus command o = FAILURE ->
       p = {| hashId := stationHashId cs; status := FAILURE;
              command := Some command; requestPayload := Some seen;
              commandResponse := Some o;
              errorMessage := None; errorStack := None; errorDetails := None |}) /\
    (forall e, settled = inl e ->
       p = {| hashId := stationHashId cs; status := FAILURE;
              command := Some command; requestPayload := Some seen;
              commandResponse := None;
              errorMessage := Some (message e); errorStack := stack e;
              errorDetails := details e |}).
Proof.
  intros Hv Hr Hd Ht seen settled.
  exists (published ch cs command requestPayload). split.
  - rewrite (requestHandler_accepted _ _ _ _ _ Hv Hr Hd Ht).
    cbn [responses flat_map app]. apply dispatch_responses.
  - subst seen settled. unfold published, outcome.
    destruct (commandHandler ch cs command requestPayload) as [p' [events s']].
    cbn [fst snd]. repeat split.
    + intros r -> [-> | [-> | (o & -> & Ho)]]; cbn; [done|done|].
      unfold commandResponseToResponsePayload. rewrite Ho.
      destruct (isEmpty o); [done|]. by rewrite decide_True.
    + intros o -> Hne Ho. cbn.
      destruct (isEmpty o) eqn:He; [by apply isEmpty_true in He|].
      unfold commandResponseToResponsePayload. rewrite Ho. by rewrite decide_False.
    + by intros e ->.
Qed.

(** C4. The classifier follows its table: for start, stop and authorize,
    [SUCCESS] exactly when [idTagInfo.status] is [ACCEPTED]; for the boot
    notification and the data transfer, exactly when [status] is the
    [ACCEPTED] of the matching enumeration; for the status notification and
    the meter values, exactly when the response is empty; for the
    heartbeat, exactly when the response has a [currentTime]; for every
    other command, [FAILURE]. *)
Theorem classifier_table (command : Command) (response : JsObject) :
  (command ∈ [Proc START_TRANSACTION; Proc STOP_TRANSACTION; Proc AUTHORIZE] ->
     (commandResponseToResponseStatus command response = SUCCESS <->
      idTagInfoAccepted response)) /\
  (command = Proc BOOT_NOTIFICATION ->
     (commandResponseToResponseStatus command response = SUCCESS <->
      response !! "status" = Some (JStr RegistrationStatusEnumType.ACCEPTED))) /\
  (command = Proc DATA_TRANSFER ->
     (commandResponseToResponseStatus command response = SUCCESS <->
      response !! "status" = Some (JStr DataTransferStatus.ACCEPTED))) /\
  (command ∈ [Proc STATUS_NOTIFICATION; Proc METER_VALUES] ->
     (commandResponseToResponseStatus command response = SUCCESS <-> response = ∅)) /\
  (command = Proc HEARTBEAT ->
     (commandResponseToResponseStatus command response = SUCCESS <->
      is_Some (response !! "currentTime"))) /\
  (command ∉ [Proc START_TRANSACTION; Proc STOP_TRANSACTION; Proc AUTHORIZE;
              Proc BOOT_NOTIFICATION; Proc DATA_TRANSFER; Proc STATUS_NOTIFICATION;
              Proc METER_VALUES; Proc HEARTBEAT] ->
     commandResponseToResponseStatus command response = FAILURE).
Proof.
  assert (Hid : forall c, c ∈ [Proc START_TRANSACTION; Proc STOP_TRANSACTION; Proc AUTHORIZE] ->
            (commandResponseToResponseStatus c response = SUCCESS <->
             idTagInfoAccepted response)).
  { intros c Hc.
    assert (commandResponseToResponseStatus c response =
            if strictEqStr (optProp (response !! "idTagInfo") "status")
                           AuthorizationStatus.ACCEPTED
            then SUCCESS else FAILURE) as ->.
    { repeat (apply elem_of_cons in Hc as [-> | Hc]; [reflexivity|]). inversion Hc. }
    unfold idTagInfoAccepted. rewrite <- optProp_status, <- strictEqStr_true.
    destruct (strictEqStr _ _); split; congruence. }
  repeat split.
  - apply Hid; assumption.
  - apply Hid; assumption.
  - subst. cbn. rewrite <- strictEqStr_true. destruct (strictEqStr _ _); congruence.
  - subst. cbn. rewrite <- strictEqStr_true. destruct (strictEqStr _ _); congruence.
  - subst. cbn. rewrite <- strictEqStr_true. destruct (strictEqStr _ _); congruence.
  - subst. cbn. rewrite <- strictEqStr_true. destruct (strictEqStr _ _); congruence.
  - rewrite <- isEmpty_true.
    repeat (apply elem_of_cons in H as [-> | H]; [cbn; destruct (isEmpty _); congruence|]).
    inversion H.
  - rewrite <- isEmpty_true.
    repeat (apply elem_of_cons in H as [-> | H]; [cbn; destruct (isEmpty _); congruence|]).
    inversion H.
  - subst. cbn. case_bool_decide; [done | congruence].
  - subst. cbn. case_bool_decide; [congruence | done].
  - intros Hc. destruct command as [[]|]; try reflexivity; exfalso; apply Hc;
      repeat constructor.
Qed.

(** C5. A request whose [hashIds] is a non-empty array that does not hold
    this station's identifier, and a request that carries the legacy
    [hashId], enter no handler, make no call on the station and get no
    response envelope. *)
Theorem untargeted_request_dropped (ev : MessageEvent) (uuid : string)
    (command : Command) (requestPayload : JsObject) :
  (forall v, validateMessageEvent ch ev = Some v ->
             data v = RequestData uuid command requestPayload) ->
  (exists items, requestPayload !! "hashIds" = Some (JArr items) /\
                 items ≠ [] /\ notNamedIn cs items) \/
  hasLegacyHashId requestPayload ->
  invocations (requestHandler ch cs ev) = [] /\
  stationCalls (requestHandler ch cs ev) = [] /\
  responses (requestHandler ch cs ev) = [].
Proof.
  intros Hd [(items & Hids & _ & Hnot) | Hlegacy].
  - exact (requestHandler_not_named _ _ _ _ _ Hd Hids Hnot).
  - exact (requestHandler_legacy _ _ _ _ Hd Hlegacy).
Qed.

(** C8. An accepted request whose command has no entry in the handler
    table gets a [FAILURE] response with its uuid, the command, the request
    payload as it came and the error message
    "Unknown worker broadcast channel command: '<command>'"; no handler is
    entered and no call reaches the station. *)
Theorem unknown_command_failure (ev v : MessageEvent) (uuid : string)
    (command : Command) (requestPayload : JsObject) :
  validateMessageEvent ch ev = Some v ->
  isResponse ch (data v) = false ->
  data v = RequestData uuid command requestPayload ->
  passesTargeting cs requestPayload ->
  getHandler cs command = None ->
  let text := "Unknown worker broadcast channel command: '" ++ commandText ch command ++ "'" in
  responses (requestHandler ch cs ev) =
    [(uuid,
      Some {| hashId := stationHashId cs; status := FAILURE;
              command := Some command; requestPayload := Some requestPayload;
              commandResponse := None;
              errorMessage := Some text; errorStack := captureStack cs text;
              errorDetails := None |})] /\
  invocations (requestHandler ch cs ev) = [] /\
  stationCalls (requestHandler ch cs ev) = [].
Proof.
  intros Hv Hr Hd Ht Hnone text.
  rewrite (requestHandler_accepted _ _ _ _ _ Hv Hr Hd Ht).
  unfold dispatch. rewrite (commandHandler_unknown _ _ Hnone).
  repeat split.
Qed.

(** C9. A handler is entered with the payload cleaned: [hashId] and
    [hashIds] are gone for every command, [connectorIds] is gone unless the
    command starts or stops the transaction generator, and every other
    field is as it came. *)
Theorem handler_gets_cleaned_payload (command : Command) (requestPayload : JsObject)
    (h : CommandHandler) :
  getHandler cs command = Some h ->
  let cleaned := cleanRequestPayload command requestPayload in
  commandHandler ch cs command requestPayload =
    (cleaned,
     (ConsoleLog "commandHandler" :: Invoke command cleaned :: trace (run h cleaned),
      outcome (run h cleaned))) /\
  cleaned !! "hashId" = None /\
  cleaned !! "hashIds" = None /\
  (command ∉ [Proc START_AUTOMATIC_TRANSACTION_GENERATOR;
              Proc STOP_AUTOMATIC_TRANSACTION_GENERATOR] ->
     cleaned !! "connectorIds" = None) /\
  (command ∈ [Proc START_AUTOMATIC_TRANSACTION_GENERATOR;
              Proc STOP_AUTOMATIC_TRANSACTION_GENERATOR] ->
     cleaned !! "connectorIds" = requestPayload !! "connectorIds") /\
  (forall k, k ∉ ["hashId"; "hashIds"; "connectorIds"] ->
     cleaned !! k = requestPayload !! k).
Proof.
  intros Hh cleaned. split; [exact (commandHandler_known _ _ _ Hh)|].
  subst cleaned. unfold cleanRequestPayload.
  assert (Hin : procIncludes [START_AUTOMATIC_TRANSACTION_GENERATOR;
                              STOP_AUTOMATIC_TRANSACTION_GENERATOR] command = true <->
                command ∈ [Proc START_AUTOMATIC_TRANSACTION_GENERATOR;
                           Proc STOP_AUTOMATIC_TRANSACTION_GENERATOR]).
  { destruct command as [p|name]; cbn [procIncludes].
    - rewrite bool_decide_eq_true, !elem_of_cons, !elem_of_nil. split.
      + intros [->| [->|[]]]; auto.
      + intros [[= ->] | [[= ->] | []]]; auto.
    - rewrite !elem_of_cons, !elem_of_nil. split; [discriminate|].
      intros [|[|[]]]; discriminate. }
  destruct (procIncludes _ command) eqn:Hp; cbn [negb].
  - repeat split.
    + rewrite lookup_delete_ne by done. apply lookup_delete_eq.
    + apply lookup_delete_eq.
    + intros Hn. destruct Hn. by apply Hin.
    + intros _. by rewrite !lookup_delete_ne by done.
    + intros k Hk. pose proof (cleanRequestPayload_frame command requestPayload k Hk) as Hf.
      unfold cleanRequestPayload in Hf. by rewrite Hp in Hf.
  - repeat split.
    + rewrite !lookup_delete_ne by done. apply lookup_delete_eq.
    + rewrite lookup_delete_ne by done. apply lookup_delete_eq.
    + intros _. apply lookup_delete_eq.
    + intros Hn. apply Hin in Hn. discriminate.
    + intros k Hk. pose proof (cleanRequestPayload_frame command requestPayload k Hk) as Hf.
      unfold cleanRequestPayload in Hf. by rewrite Hp in Hf.
Qed.

(** C10. A request whose [hashIds] is the empty array is dropped: no
    handler is entered, no call reaches the station and no response
    envelope is published. *)
Theorem empty_hashIds_dropped (ev : MessageEvent) (uuid : string)
    (command : Command) (requestPayload : JsObject) :
  (forall v, validateMessageEvent ch ev = Some v ->
             data v = RequestData uuid command requestPayload) ->
  requestPayload !! "hashIds" = Some (JArr []) ->
  invocations (requestHandler ch cs ev) = [] /\
  stationCalls (requestHandler ch cs ev) = [] /\
  responses (requestHandler ch cs ev) = [].
Proof.
  intros Hd Hids.
  apply (requestHandler_not_named _ _ _ _ _ Hd Hids).
  intros info _ Hin. inversion Hin.
Qed.

End ChannelProperties.

(** ** The automatic transaction generator *)

Section ATGProperties.
Import ATG.

Variable ps : PerformanceStatistics.

Lemma isAccepted_true (response : option JsObject) :
  isAccepted response = true <-> acceptedReply response.
Proof.
  unfold isAccepted, acceptedReply. destruct response as [r|].
  - rewrite strictEqStr_true, optProp_status. split.
    + intros (info & H1 & H2). eauto.
    + intros (r' & info & [= <-] & H1 & H2). eauto.
  - split; [discriminate | intros (r & info & [=] & _)].
Qed.

Lemma truncate_whole (q : Q) (k : Z) : (q == inject_Z k)%Q -> truncate q = k.
Proof.
  unfold Qeq, truncate. cbn. intros H.
  rewrite Z.mul_1_r in H. rewrite H. apply Z.quot_mul. lia.
Qed.

(** A whole number of milliseconds within the range of [Date] is kept as
    it is. *)
Lemma newDate_whole (q : Q) (k : Z) :
  (q == inject_Z k)%Q -> Z.abs k <= 8640000000000000 -> newDate q = Some k.
Proof.
  intros Hq Hk. unfold newDate.
  assert (Qle_bool (Qabs q) (inject_Z 8640000000000000) = true) as ->.
  { apply Qle_bool_iff. rewrite Hq. change (Qabs (inject_Z k)) with (inject_Z (Z.abs k)).
    by rewrite <- Zle_Qle. }
  by rewrite (truncate_whole q k Hq).
Qed.

(** Rounding looks at the number, not at the fraction that writes it. *)
Lemma double_ext (p q : Q) : (p == q)%Q -> double p = double q.
Proof. intros H. unfold double. by rewrite (Qred_complete p q H). Qed.

Lemma Qred_whole (k : Z) : Qred (inject_Z k) = inject_Z k.
Proof.
  unfold Qred, inject_Z.
  pose proof (Z.ggcd_gcd k 1) as Hg. pose proof (Z.ggcd_correct_divisors k 1) as Hd.
  destruct (Z.ggcd k 1) as [g [a b]]. cbn [fst snd] in *.
  rewrite Z.gcd_1_r in Hg. subst g. destruct Hd as [-> Hb].
  assert (b = 1) as -> by lia. f_equal. lia.
Qed.

Lemma roundHalfEven_whole (n : Z) : roundHalfEven n 1 = n.
Proof. unfold roundHalfEven. by rewrite Z.mod_1_r, Z.div_1_r. Qed.

Lemma exponent_whole (n : Z) : exponent n 1 <= Z.log2 n.
Proof.
  unfold exponent. change (Z.log2 1) with 0. rewrite Z.sub_0_r.
  destruct (_ <? _)%Z; lia.
Qed.

Lemma roundTo_whole (u n : Z) : u <= 0 -> (roundTo u n 1 == inject_Z n)%Q.
Proof.
  intros Hu. unfold roundTo.
  replace (Z.max 0 u) with 0 by lia. replace (Z.max 0 (- u)) with (- u) by lia.
  change (2 ^ 0) with 1. rewrite !Z.mul_1_r, roundHalfEven_whole.
  assert (0 < 2 ^ (- u)) as Hp by (apply Z.pow_pos_nonneg; lia).
  unfold Qeq. cbn [Qnum Qden inject_Z]. rewrite Z2Pos.id by exact Hp. lia.
Qed.

(** A whole number below [2 ^ 53] is a double. *)
Lemma double_inject_Z (k : Z) :
  Z.abs k < 2 ^ 53 -> (double (inject_Z k) == inject_Z k)%Q.
Proof.
  intros Hk. unfold double. rewrite Qred_whole. cbn [Qnum Qden inject_Z].
  destruct (Z.eqb_spec (Z.abs k) 0) as [H0|H0].
  { by assert (k = 0) as -> by lia. }
  assert (Z.log2 (Z.abs k) < 53) as Hl by (apply Z.log2_lt_pow2; lia).
  pose proof (exponent_whole (Z.abs k)) as He.
  assert (roundTo (Z.max (exponent (Z.abs k) 1 - 52) (-1074)) (Z.abs k) 1
          == inject_Z (Z.abs k))%Q as Hr by (apply roundTo_whole; lia).
  destruct (Z.ltb_spec k 0); rewrite Hr; unfold Qeq; cbn [Qnum Qden Qopp inject_Z]; lia.
Qed.

(** An operation whose exact result is a whole number within the range of
    [Date] gives that number. *)
Lemma double_whole (q : Q) (k : Z) :
  (q == inject_Z k)%Q -> Z.abs k <= 8640000000000000 -> (double q == inject_Z k)%Q.
Proof.
  intros Hq Hk. rewrite (double_ext q (inject_Z k) Hq).
  apply double_inject_Z. change (2 ^ 53) with 9007199254740992. lia.
Qed.

(** On the hours 0.01, 0.02, ... up to 20, at an instant of the year 2023
    and after a run of 12345 ms, the rounded rationals give the number the
    machine doubles give. *)
Example double_as_binary64 :
  forallb (fun n => sameDeadline n 100 1700000000000 12345) (Z.of_nat <$> seq 1 2000) = true.
Proof. by vm_compute. Qed.

Lemma default_budget :
  (hoursToMilliseconds CHARGING_STATION_ATG_DEFAULT_STOP_AFTER_HOURS == inject_Z 900000)%Q.
Proof. vm_compute. reflexivity. Qed.

(** The number of hours [start ()] reads: the one of the template, 0.25
    when it gives none. *)
Lemma stopAfterHoursOrDefault_read (cs : ChargingStation) (h : Q) :
  (exists cfg, AutomaticTransactionGenerator cs = Some cfg /\ stopAfterHours cfg = Some h) \/
  (h = 1 # 4 /\
   forall cfg, AutomaticTransactionGenerator cs = Some cfg -> stopAfterHours cfg = None) ->
  stopAfterHoursOrDefault cs = h.
Proof.
  unfold stopAfterHoursOrDefault. intros [(cfg & -> & ->) | (-> & H)]; [done|].
  destruct (AutomaticTransactionGenerator cs) as [cfg|]; [|done].
  by rewrite (H cfg eq_refl).
Qed.

Lemma previousRunDuration_first (g : Generator) :
  startDate g = None \/ lastRunDate g = None -> previousRunDuration g = 0%Q.
Proof.
  unfold previousRunDuration. intros [H | H]; rewrite H; [done|]. by destruct (startDate g).
Qed.

Lemma previousRunDuration_whole (g : Generator) (s l : Z) :
  startDate g = Some s -> lastRunDate g = Some l ->
  Z.abs (l - s) <= 8640000000000000 ->
  (previousRunDuration g == inject_Z (l - s))%Q.
Proof.
  intros Hd Hl H. unfold previousRunDuration. rewrite Hd, Hl. unfold fsub.
  apply double_whole; [|done].
  unfold Qeq. cbn. lia.
Qed.

(** What [start ()] writes on a generator that is not started. *)
Lemma start_not_started (cs : ChargingStation) (now : Z) (g : Generator) :
  started g = false ->
  (start cs now g).1 =
    {| started := true;
       connectorsStartStatus := connectorsStartStatus g;
       startDate := Some now;
       lastRunDate := Some now;
       stopDate :=
         Some (newDate (fsub (fadd (inject_Z now)
                                   (hoursToMilliseconds (stopAfterHoursOrDefault cs)))
                             (previousRunDuration g))) |}.
Proof. intros Hs. unfold start. by rewrite Hs. Qed.

(** With a budget of a whole number [m] of milliseconds, a previous run of
    a whole number [p] of them and dates within range, the new [stopDate] is
    [now + m - p] to the millisecond. *)
Lemma start_stopDate_whole (cs : ChargingStation) (now m p : Z) (g : Generator) :
  started g = false ->
  (hoursToMilliseconds (stopAfterHoursOrDefault cs) == inject_Z m)%Q ->
  (previousRunDuration g == inject_Z p)%Q ->
  Z.abs (now + m) <= 8640000000000000 ->
  Z.abs (now + m - p) <= 8640000000000000 ->
  stopDate (start cs now g).1 = Some (Some (now + m - p)).
Proof.
  intros Hs Hm Hp Hr1 Hr2. rewrite (start_not_started cs now g Hs). cbn [stopDate].
  f_equal. apply newDate_whole; [|exact Hr2].
  assert (fadd (inject_Z now) (hoursToMilliseconds (stopAfterHoursOrDefault cs))
          == inject_Z (now + m))%Q as Ha.
  { apply double_whole; [|exact Hr1]. rewrite Hm. unfold Qeq. cbn. lia. }
  apply double_whole; [|exact Hr2]. rewrite Ha, Hp. unfold Qeq. cbn. lia.
Qed.

(** C2, as amended. [start ()] on a generator that is not started, the
    template giving [h] hours (0.25 when it gives none), sets [startDate] to
    the present instant and [stopDate] to
    [new Date (startDate + h * 3600 * 1000 - previous run duration)], the
    arithmetic being that of doubles and the date cut to a whole number of
    milliseconds; the duration is [lastRunDate - startDate] of the fields as
    they were, zero when one of them is missing.  When the product is a
    whole number [m] of milliseconds, as the 900000 of the default, and the
    dates are within range, [stopDate] is [startDate + m - duration] to the
    millisecond; and when the run before had the whole budget
    ([stopDate = startDate + m] in the fields as they were) the new run is
    given what that run left, from its [lastRunDate] to its [stopDate]. *)
Theorem start_sets_stopDate (cs : ChargingStation) (now : Z) (g : Generator) (h : Q) :
  started g = false ->
  (exists cfg, AutomaticTransactionGenerator cs = Some cfg /\ stopAfterHours cfg = Some h) \/
  (h = 1 # 4 /\
   forall cfg, AutomaticTransactionGenerator cs = Some cfg -> stopAfterHours cfg = None) ->
  let g' := (start cs now g).1 in
  let budget := fmul (fmul (double h) (inject_Z 3600)) (inject_Z 1000) in
  started g' = true /\
  startDate g' = Some now /\
  (forall s l, startDate g = Some s -> lastRunDate g = Some l ->
     stopDate g' = Some (newDate (fsub (fadd (inject_Z now) budget)
                                       (fsub (inject_Z l) (inject_Z s))))) /\
  (startDate g = None \/ lastRunDate g = None ->
     stopDate g' = Some (newDate (fsub (fadd (inject_Z now) budget) 0))) /\
  (h = 1 # 4 -> (budget == inject_Z 900000)%Q) /\
  (forall m, (budget == inject_Z m)%Q -> Z.abs (now + m) <= 8640000000000000 ->
     (startDate g = None \/ lastRunDate g = None ->
        stopDate g' = Some (Some (now + m))) /\
     (forall s l, startDate g = Some s -> lastRunDate g = Some l ->
        Z.abs (l - s) <= 8640000000000000 ->
        Z.abs (now + m - (l - s)) <= 8640000000000000 ->
        stopDate g' = Some (Some (now + m - (l - s))) /\
        (stopDate g = Some (Some (s + m)) ->
           exists d d', stopDate g = Some (Some d) /\ stopDate g' = Some (Some d') /\
                        d' - now = d - l))).
Proof.
  intros Hs Hh g' budget.
  assert (hoursToMilliseconds (stopAfterHoursOrDefault cs) = budget) as Hb
    by (by rewrite (stopAfterHoursOrDefault_read cs h Hh)).
  assert (started g' = true /\ startDate g' = Some now /\
          stopDate g' = Some (newDate (fsub (fadd (inject_Z now) budget)
                                            (previousRunDuration g)))) as (H1 & H2 & H3).
  { subst g'. rewrite (start_not_started cs now g Hs). cbn [started startDate stopDate].
    by rewrite Hb. }
  split_and!; [done | done | | | | ].
  - intros s l Hd Hl. rewrite H3. unfold previousRunDuration. by rewrite Hd, Hl.
  - intros H. rewrite H3. by rewrite (previousRunDuration_first g H).
  - intros ->. apply default_budget.
  - intros m Hm Hr. rewrite <- Hb in Hm. split.
    + intros H. replace (now + m) with (now + m - 0) by lia.
      apply start_stopDate_whole; [done | done | | done | ].
      * by rewrite (previousRunDuration_first g H).
      * by rewrite Z.sub_0_r.
    + intros s l Hd Hl Hr1 Hr2.
      assert (stopDate g' = Some (Some (now + m - (l - s)))) as Hstop.
      { apply start_stopDate_whole; [done | done | | done | done].
        by apply previousRunDuration_whole. }
      split; [exact Hstop|].
      intros Hold. exists (s + m), (now + m - (l - s)). split_and!; [done | done | lia].
Qed.

(** X18. A first run started at [t1] and last seen running at [l], then
    a restart at [t2]: the second run is given what the first one left, the
    time from [l] to its deadline. *)
Lemma restart_runs_for_the_remainder (cs : ChargingStation) (t1 l t2 m : Z)
    (g0 g2 : Generator) :
  started g0 = false -> startDate g0 = None ->
  started g2 = false -> startDate g2 = Some t1 -> lastRunDate g2 = Some l ->
  (hoursToMilliseconds (stopAfterHoursOrDefault cs) == inject_Z m)%Q ->
  Z.abs (t1 + m) <= 8640000000000000 ->
  Z.abs (l - t1) <= 8640000000000000 ->
  Z.abs (t2 + m) <= 8640000000000000 ->
  Z.abs (t2 + m - (l - t1)) <= 8640000000000000 ->
  exists d1 d2,
    stopDate (start cs t1 g0).1 = Some (Some d1) /\
    stopDate (start cs t2 g2).1 = Some (Some d2) /\
    d2 - t2 = d1 - l.
Proof.
  intros Hs0 Hd0 Hs2 Hd2 Hl2 Hm Hr1 Hp Hr2 Hr3.
  exists (t1 + m - 0), (t2 + m - (l - t1)). split_and!.
  - apply start_stopDate_whole; [done | done | | done | by rewrite Z.sub_0_r].
    by rewrite (previousRunDuration_first g0 (or_introl Hd0)).
  - apply start_stopDate_whole; [done | done | | done | done].
    by apply previousRunDuration_whole.
  - lia.
Qed.

(** C6. [startTransaction] follows its decision tree: without authorized
    tags it sends one StartTransaction with no id-tag and hands back what
    that call gives; with tags and [requireAuthorize] it sends Authorize
    first and, when the reply is not accepted, hands that reply back and
    sends nothing else; otherwise it sends StartTransaction with the chosen
    id-tag and hands back what that call gives. *)
Theorem startTransaction_decision_tree (cs : ChargingStation)
    (service : OCPPRequestService) (connectorId : Z) :
  ocppRequestService cs = Some service ->
  let idTag := getRandomIdTag cs in
  let result := startTransaction ps cs connectorId in
  (hasAuthorizedTags cs = false ->
     requests (trace result) = [SendStartTransaction connectorId None] /\
     outcome result = sendStartTransaction service connectorId None) /\
  (hasAuthorizedTags cs = true ->
   getAutomaticTransactionGeneratorRequireAuthorize cs = true ->
   forall reply, sendAuthorize service connectorId idTag = inr reply ->
     (~ acceptedReply reply ->
        requests (trace result) = [SendAuthorize connectorId idTag] /\
        outcome result = inr reply) /\
     (acceptedReply reply ->
        requests (trace result) =
          [SendAuthorize connectorId idTag; SendStartTransaction connectorId (Some idTag)] /\
        outcome result = sendStartTransaction service connectorId (Some idTag))) /\
  (hasAuthorizedTags cs = true ->
   getAutomaticTransactionGeneratorRequireAuthorize cs = false ->
     requests (trace result) = [SendStartTransaction connectorId (Some idTag)] /\
     outcome result = sendStartTransaction service connectorId (Some idTag)).
Proof.
  intros Hsvc idTag result. subst idTag result.
  unfold startTransaction, request. rewrite Hsvc.
  split; [|split].
  - intros ->. unfold_monad.
    destruct (sendStartTransaction service connectorId None); split; reflexivity.
  - intros -> -> reply Hreply. rewrite Hreply. split.
    + intros Hno. rewrite <- isAccepted_true in Hno.
      unfold_monad. cbn. destruct (isAccepted reply); [done|]. split; reflexivity.
    + intros Hyes. rewrite <- isAccepted_true in Hyes.
      unfold_monad. cbn. rewrite Hyes.
      destruct (sendStartTransaction service connectorId _); split; reflexivity.
  - intros -> ->. unfold_monad.
    destruct (sendStartTransaction service connectorId _); split; reflexivity.
Qed.

(** C7. For a connector without a started transaction [stopTransaction]
    sends nothing, logs a warning, closes its measurement and hands back an
    undefined response; for a connector with a started transaction it sends
    StopTransaction with the connector's transaction id, the energy
    register and the id-tag of that transaction and the given reason, and
    hands back what that call gives. *)
Theorem stopTransaction_cases (cs : ChargingStation) (connectorId : Z)
    (reason : StopTransactionReason) (connector : Connector) :
  getConnector cs connectorId = Some connector ->
  let measureId := "StopTransaction with ATG" in
  let result := stopTransaction ps cs connectorId reason in
  (transactionStarted connector = false ->
     trace result =
       [BeginMeasure measureId;
        Log WARN (Some connectorId) "trying to stop a not started transaction";
        EndMeasure measureId (beginMeasure ps measureId)] /\
     requests (trace result) = [] /\
     outcome result = inr None) /\
  (transactionStarted connector = true ->
   forall service, ocppRequestService cs = Some service ->
     let id := transactionId connector in
     requests (trace result) =
       [SendStopTransaction id (getEnergyActiveImportRegisterByTransactionId cs id)
                            (getTransactionIdTag cs id) reason] /\
     outcome result =
       sendStopTransaction service id (getEnergyActiveImportRegisterByTransactionId cs id)
                           (getTransactionIdTag cs id) reason).
Proof.
  intros Hc measureId result. subst measureId result.
  unfold stopTransaction. rewrite Hc. split.
  - intros ->. repeat split.
  - intros -> service Hsvc. cbv zeta. unfold request. rewrite Hsvc.
    unfold_monad.
    destruct (sendStopTransaction service _ _ _ _); split; reflexivity.
Qed.

(** [stop ()] on a started generator leaves it stopped with the flag of
    every connector of the table above 0 cleared. *)
Lemma stopConnectors_clears (cs : ChargingStation) (g : Generator) (c : Z) :
  c > 0 -> c ∈ (connectors cs).*1 ->
  connectorsStartStatus (stopConnectors cs g) !! c = Some false.
Proof.
  unfold stopConnectors. intros Hpos.
  generalize g. clear g.
  induction (connectors cs) as [|[k conn] rest IH] using rev_ind; intros g Hin.
  - inversion Hin.
  - rewrite fold_left_app. cbn [fold_left fst].
    rewrite fmap_app in Hin. apply elem_of_app in Hin as [Hin | Hin].
    + destruct (decide (k > 0)); [|by apply IH].
      cbn. destruct (decide (k = c)) as [->|Hne].
      * apply lookup_insert_eq.
      * rewrite lookup_insert_ne by done. by apply IH.
    + apply list_elem_of_singleton in Hin. cbn in Hin. subst k.
      rewrite decide_True by done. cbn. apply lookup_insert_eq.
Qed.

Lemma stop_clears (cs : ChargingStation) (g : Generator) (c : Z) :
  started g = true -> c > 0 -> c ∈ (connectors cs).*1 ->
  started (stop cs g).1 = false /\ startStatus (stop cs g).1 c = false.
Proof.
  intros Hs Hpos Hin. unfold stop. rewrite Hs. cbn. split; [done|].
  unfold startStatus. cbn. by rewrite stopConnectors_clears.
Qed.

(** *** Where the invariant does hold *)

Lemma stopConnector_flag (k : Z) (g : Generator) (c : Z) :
  startStatus (stopConnector k g) c = true -> c ≠ k /\ startStatus g c = true.
Proof.
  unfold startStatus, stopConnector. cbn.
  destruct (decide (k = c)) as [->|Hne].
  - rewrite lookup_insert_eq. discriminate.
  - rewrite lookup_insert_ne by done. auto.
Qed.

Lemma stopConnectors_flag (cs : ChargingStation) (g : Generator) (c : Z) :
  startStatus (stopConnectors cs g) c = true ->
  startStatus g c = true /\ ~ (c > 0 /\ c ∈ (connectors cs).*1).
Proof.
  unfold stopConnectors. generalize g. clear g.
  induction (connectors cs) as [|[k conn] rest IH]; intros g H.
  - split; [exact H|]. intros [_ Hin]. inversion Hin.
  - cbn [fold_left fst] in H. apply IH in H as [H Hrest].
    destruct (decide (k > 0)) as [Hk|Hk].
    + apply stopConnector_flag in H as [Hne H]. split; [exact H|].
      intros [Hpos Hin]. cbn in Hin. apply elem_of_cons in Hin as [->|Hin]; [done|].
      apply Hrest. auto.
    + split; [exact H|].
      intros [Hpos Hin]. cbn in Hin. apply elem_of_cons in Hin as [->|Hin]; [done|].
      apply Hrest. auto.
Qed.

Section FixedTable.
Variable cs0 : ChargingStation.

Lemma stop_keeps (cs : ChargingStation) (g : Generator) :
  sameTable cs0 cs -> stoppedMeansNoneStarted g -> flagsWithin cs0 g ->
  stoppedMeansNoneStarted (stop cs g).1 /\ flagsWithin cs0 (stop cs g).1.
Proof.
  intros Ht Hinv Hin. unfold stop. destruct (started g) eqn:Hs; cbn [negb fst]; [|done].
  assert (Hall : forall c, startStatus (stopConnectors cs g) c = false).
  { intros c. destruct (startStatus (stopConnectors cs g) c) eqn:Hc; [|done].
    apply stopConnectors_flag in Hc as [Hg Hout]. destruct Hout.
    rewrite Ht. by apply Hin. }
  split.
  - intros _ c. apply Hall.
  - intros c Hc. unfold startStatus in Hc. cbn in Hc.
    specialize (Hall c). unfold startStatus in Hall. congruence.
Qed.

Lemma setLastRunDate_keeps (d : Z) (g : Generator) :
  stoppedMeansNoneStarted g -> flagsWithin cs0 g ->
  stoppedMeansNoneStarted (setLastRunDate d g) /\ flagsWithin cs0 (setLastRunDate d g).
Proof. intros H1 H2. split; [exact H1 | exact H2]. Qed.

Lemma setStartStatus_keeps (c : Z) (g : Generator) :
  started g = true -> c > 0 -> c ∈ (connectors cs0).*1 ->
  flagsWithin cs0 g ->
  stoppedMeansNoneStarted (setStartStatus c g) /\ flagsWithin cs0 (setStartStatus c g).
Proof.
  intros Hs Hpos Hin Hw. split.
  - intros Hf. cbn in Hf. congruence.
  - intros k Hk. unfold startStatus, setStartStatus in Hk. cbn in Hk.
    destruct (decide (c = k)) as [<-|Hne]; [done|].
    rewrite lookup_insert_ne in Hk by done. by apply Hw.
Qed.

(** [loopTop] leaves the generator as it is or calls [stop ()] on it. *)
Lemma loopTop_generator (tk : Tick) (task : Task) (g : Generator) (events : list Event) :
  let '(g', _, task') := loopTop ps tk task g events in
  (g' = g \/ g' = (stop (station tk) g).1) /\ point task' ≠ Scheduled.
Proof.
  unfold loopTop, exitLoop, delay.
  repeat (case_match; simplify_eq/=); auto;
    match goal with
    | H : stop ?cs ?g = (?g', _) |- _ => (split; [right; by rewrite H | done])
    end.
Qed.

Lemma loopTop_keeps (tk : Tick) (task : Task) (g : Generator) (events : list Event) :
  sameTable cs0 (station tk) -> stoppedMeansNoneStarted g -> flagsWithin cs0 g ->
  let '(g', _, task') := loopTop ps tk task g events in
  stoppedMeansNoneStarted g' /\ flagsWithin cs0 g' /\ point task' ≠ Scheduled.
Proof.
  intros Ht H1 H2. pose proof (loopTop_generator tk task g events) as H.
  destruct (loopTop ps tk task g events) as [[g' out] task'].
  destruct H as [[-> | ->] Hp]; [done|].
  destruct (stop_keeps (station tk) g Ht H1 H2). done.
Qed.

(** A loop that has had its first turn never raises a flag. *)
Lemma resume_keeps (tk : Tick) (task : Task) (g : Generator) :
  sameTable cs0 (station tk) -> point task ≠ Scheduled ->
  stoppedMeansNoneStarted g -> flagsWithin cs0 g ->
  let '(g', _, task') := resume ps tk task g in
  stoppedMeansNoneStarted g' /\ flagsWithin cs0 g' /\ point task' ≠ Scheduled.
Proof.
  intros Ht Hp H1 H2. unfold resume, endOfIteration, delay.
  destruct (setLastRunDate_keeps (now tk) g H1 H2) as [L1 L2].
  destruct (point task) eqn:Hpt; try done;
    repeat (case_match; simplify_eq/=); auto;
    try (rewrite Hpt; auto; fail);
    match goal with
    | H : loopTop ?ps ?tk ?t ?g' ?e = _ |- _ =>
        let K := fresh in
        pose proof (loopTop_keeps tk t g' e Ht) as K; rewrite H in K; by apply K
    end.
Qed.

(** The first turn of a loop, on a started generator. *)
Lemma first_turn_keeps (tk : Tick) (c : Z) (g : Generator) :
  sameTable cs0 (station tk) -> started g = true ->
  c > 0 -> c ∈ (connectors cs0).*1 -> flagsWithin cs0 g ->
  let task := {| connectorId := c; point := Scheduled;
                 skippedTransactions := 0; skippedTransactionsTotal := 0 |} in
  let '(g', _, task') := resume ps tk task g in
  stoppedMeansNoneStarted g' /\ flagsWithin cs0 g' /\ point task' ≠ Scheduled.
Proof.
  intros Ht Hs Hpos Hin Hw task. subst task. unfold resume. cbn [point connectorId].
  destruct (setStartStatus_keeps c g Hs Hpos Hin Hw) as [K1 K2].
  match goal with
  | |- context [loopTop ?ps ?tk ?t ?g' ?e] =>
      pose proof (loopTop_keeps tk t g' e Ht K1 K2) as K
  end.
  exact K.
Qed.

Lemma startConnectors_scheduled (cs : ChargingStation) :
  sameTable cs0 cs ->
  Forall (fun c => c > 0 /\ c ∈ (connectors cs0).*1) (scheduled (startConnectors cs)).
Proof.
  intros Ht. unfold sameTable in Ht. rewrite <- Ht. clear Ht. unfold startConnectors.
  induction (connectors cs) as [|[k conn] rest IH]; [constructor|].
  cbn [flat_map fst]. destruct (decide (k > 0)) as [Hk|Hk]; cbn.
  - constructor; [split; [done | left]|].
    eapply Forall_impl; [exact IH|]. intros c [? ?]. split; [done | by right].
  - eapply Forall_impl; [exact IH|]. intros c [? ?]. split; [done | by right].
Qed.

Lemma step_keeps (l : Label) (s : System) :
  sameTable cs0 (labelStation l) ->
  match l with RunImmediate _ => started (atg s) = true | _ => True end ->
  consistent cs0 s -> consistent cs0 (step ps l s).
Proof.
  intros Ht Hguard (H1 & H2 & H3 & H4). destruct l as [cs now|cs|tk|i tk]; cbn in Ht.
  - unfold step, start, consistent.
    destruct (started (atg s)) eqn:Hs; cbn [atg immediates tasks scheduled flat_map].
    + rewrite app_nil_r. by split_and!.
    + split_and!; try done.
      apply Forall_app. split; [done|].
      unfold scheduled at 1. rewrite flat_map_app. cbn [flat_map]. rewrite app_nil_r.
      by apply startConnectors_scheduled.
  - unfold step, consistent. destruct (stop_keeps cs (atg s) Ht H1 H2) as [K1 K2].
    destruct (stop cs (atg s)) as [g' out]. by split_and!.
  - unfold step, consistent.
    destruct (immediates s) as [|c rest] eqn:Hq; [by rewrite Hq; split_and!|].
    apply Forall_cons in H3 as [[Hpos Hin] H3].
    pose proof (first_turn_keeps tk c (atg s) Ht Hguard Hpos Hin H2) as K.
    cbv zeta in K.
    destruct (resume ps tk _ (atg s)) as [[g' out] task'].
    destruct K as (K1 & K2 & K3). split_and!; try done.
    apply Forall_app. split; [done|]. by constructor.
  - unfold step, consistent.
    destruct (tasks s !! i) as [task|] eqn:Hi; [|by split_and!].
    assert (Hp : point task ≠ Scheduled).
    { eapply Forall_forall in H4; [exact H4|]. by eapply list_elem_of_lookup_2. }
    pose proof (resume_keeps tk task (atg s) Ht Hp H1 H2) as K.
    destruct (resume ps tk task (atg s)) as [[g' out] task'].
    destruct K as (K1 & K2 & K3). split_and!; try done.
    by apply Forall_insert.
Qed.

Lemma constructor_consistent : consistent cs0 (boot cs0).
Proof.
  assert (Hall : forall c, startStatus (constructor cs0) c = false).
  { intros c. destruct (startStatus (constructor cs0) c) eqn:Hc; [|done].
    unfold constructor, startStatus in Hc. cbn in Hc.
    match type of Hc with
    | context [stopConnectors cs0 ?g] =>
        destruct (stopConnectors_flag cs0 g c Hc) as [Hg _]
    end.
    unfold startStatus in Hg. cbn in Hg. by rewrite lookup_empty in Hg. }
  unfold consistent. split_and!.
  - intros _. exact Hall.
  - intros c Hc. cbn in Hc. rewrite Hall in Hc. discriminate.
  - constructor.
  - constructor.
Qed.

(** X17. As long as the connector table stays the same and no deferred
    loop takes its first turn on a stopped generator, [started = false] does
    imply that no connector flag is set. *)
Lemma invariant_without_late_start (ls : list Label) :
  Forall (fun l => sameTable cs0 (labelStation l)) ls ->
  noLateStart ps ls (boot cs0) ->
  stoppedMeansNoneStarted (atg (run ps ls (boot cs0))).
Proof.
  intros Ht Hg.
  enough (H : consistent cs0 (run ps ls (boot cs0))) by apply H.
  pose proof constructor_consistent as Hc.
  generalize dependent (boot cs0). induction ls as [|l rest IH]; intros s Hg Hc; [done|].
  apply Forall_cons in Ht as [Hl Ht]. destruct Hg as [Hguard Hg].
  cbn. apply IH; [done..|]. by apply step_keeps.
Qed.

End FixedTable.

End ATGProperties.

(** ** The generator and its deferred loops *)

Section DeferredStart.
Import ATG Samples.

(** C3. The invariant "not started implies no connector flag set" does not
    hold in every reachable state: with the budget already spent, [start ()]
    defers the two loops; the first one to run raises its flag, sees the
    deadline passed and calls [stop ()], which clears every flag and the
    [started] mark; the second one then raises its own flag, and its call
    of [stop ()] does nothing, the generator being stopped already. *)
Theorem deferred_start_after_stop :
  let s := run perf spentRun (boot spent) in
  started (atg s) = false /\
  startStatus (atg s) 1 = false /\
  startStatus (atg s) 2 = true /\
  ~ stoppedMeansNoneStarted (atg s).
Proof.
  assert (H : let s := run perf spentRun (boot spent) in
              started (atg s) = false /\ startStatus (atg s) 1 = false /\
              startStatus (atg s) 2 = true).
  { vm_compute. repeat split. }
  cbv zeta in *. destruct H as (H0 & H1 & H2). repeat split; try assumption.
  intros Hinv. specialize (Hinv H0 2). congruence.
Qed.

(** On a later restart it is the run just before that is subtracted: a
    first run of 600 s, a second of 100 s, and the third is given 800 s. *)
Example later_restart :
  let g1 := (start ready 0 (constructor ready)).1 in
  let g2 := (stop ready (setLastRunDate 600000 g1)).1 in
  let g3 := (start ready 1000000 g2).1 in
  let g4 := (stop ready (setLastRunDate 1100000 g3)).1 in
  let g5 := (start ready 2000000 g4).1 in
  (stopDate g1, stopDate g3, stopDate g5)
  = (Some (Some 900000), Some (Some 1300000), Some (Some 2800000)).
Proof. vm_compute. reflexivity. Qed.

(** The deadline as the doubles give it: 0.3 hours from instant 1000 end
    at 1081000, 4.1 hours at 14760999 since [4.1 * 3600 * 1000] comes out
    as 14759999.999999998; the 0.25 of the default is exact. *)
Example stopDate_of_doubles :
  stopDate (start shortShift 1000 (constructor shortShift)).1 = Some (Some 1081000) /\
  stopDate (start longShift 1000 (constructor longShift)).1 = Some (Some 14760999) /\
  stopDate (start ready 1000 (constructor ready)).1 = Some (Some 901000).
Proof. vm_compute. repeat split. Qed.

(** C2, as worded, does not hold.  With 4.1 hours the first start at
    instant 1000 sets a [stopDate] that is not [startDate] plus the hours in
    milliseconds, be they the 4.1 of the template or the double read from
    it.  And with the default of 900 s, after runs of 600 s and of 100 s the
    third start gives a run of 800 s where 200 s were left: only the run
    just before is subtracted. *)
Lemma stopDate_not_as_claimed :
  (exists d,
     stopDate (start longShift 1000 (constructor longShift)).1 = Some (Some d) /\
     ~ (inject_Z d == inject_Z 1000 + (41 # 10) * inject_Z 3600 * inject_Z 1000 - 0)%Q /\
     ~ (inject_Z d
        == inject_Z 1000 + double (41 # 10) * inject_Z 3600 * inject_Z 1000 - 0)%Q) /\
  (let g1 := (start ready 0 (constructor ready)).1 in
   let g2 := (stop ready (setLastRunDate 600000 g1)).1 in
   let g3 := (start ready 1000000 g2).1 in
   let g4 := (stop ready (setLastRunDate 1100000 g3)).1 in
   let g5 := (start ready 2000000 g4).1 in
   exists d l d',
     stopDate g4 = Some (Some d) /\ lastRunDate g4 = Some l /\
     stopDate g5 = Some (Some d') /\ startDate g5 = Some 2000000 /\
     d - l = 200000 /\ d' - 2000000 = 800000).
Proof.
  split.
  - exists 14760999. split_and!; [by vm_compute | |]; intros H; vm_compute in H; discriminate.
  - exists 1300000, 1100000, 2800000. vm_compute. repeat split.
Qed.

(** The same with the default budget, when the station is unavailable. *)
Example unavailable_station_run :
  let s := run perf unavailableRun (boot unavailable) in
  started (atg s) = false /\ startStatus (atg s) 2 = true.
Proof. vm_compute. split; reflexivity. Qed.

(** The same when [stop ()] follows [start ()] at once: the loop of
    connector 1 then runs on, the generator being stopped. *)
Example start_stop_run :
  let s := run perf startStopRun (boot ready) in
  started (atg s) = false /\ startStatus (atg s) 1 = true /\
  point <$> tasks s = [DelaySleep].
Proof. vm_compute. repeat split. Qed.

End DeferredStart.

(** ** The properties on the sample stations *)

Section Witnesses.
Import Samples.

Lemma accepted_request_one_response_witness :
  exists p,
    Channel.responses
      (Channel.requestHandler channel stationA
         (request "u-1" (Channel.Proc Channel.HEARTBEAT) {[ "hashIds" := JArr [JStr "A"] ]}))
    = [("u-1", Some p)].
Proof.
  destruct (accepted_request_one_response channel stationA
              (request "u-1" (Channel.Proc Channel.HEARTBEAT) {[ "hashIds" := JArr [JStr "A"] ]})
              _ "u-1" (Channel.Proc Channel.HEARTBEAT) {[ "hashIds" := JArr [JStr "A"] ]}
              eq_refl eq_refl eq_refl) as (p & Hp & _).
  - split; [right | reflexivity].
    exists (JArr [JStr "A"]). split; [reflexivity|].
    exists {| Channel.StationInfo.hashId := "A" |}, [JStr "A"].
    repeat split. apply list_elem_of_here.
  - exists p. exact Hp.
Defined.

Lemma classifier_table_witness :
  Channel.commandResponseToResponseStatus (Channel.Other "reset")
    {[ "status" := JStr "Accepted" ]} = Channel.FAILURE.
Proof.
  destruct (classifier_table (Channel.Other "reset") {[ "status" := JStr "Accepted" ]})
    as (_ & _ & _ & _ & _ & H).
  apply H. intros Hin.
  repeat (apply elem_of_cons in Hin as [Hin | Hin]; [discriminate|]).
  inversion Hin.
Defined.

Lemma untargeted_request_dropped_witness :
  Channel.responses
    (Channel.requestHandler channel stationA
       (request "u-6" (Channel.Proc Channel.HEARTBEAT)
          {[ "hashIds" := JArr [JStr "B"; JStr "C"] ]})) = [].
Proof.
  apply (untargeted_request_dropped channel stationA _ "u-6"
           (Channel.Proc Channel.HEARTBEAT) {[ "hashIds" := JArr [JStr "B"; JStr "C"] ]}).
  - intros v [= <-]. reflexivity.
  - left. exists [JStr "B"; JStr "C"]. split; [reflexivity|]. split; [discriminate|].
    intros info [= <-] Hin.
    repeat (apply elem_of_cons in Hin as [Hin | Hin]; [discriminate|]).
    inversion Hin.
Defined.

Lemma unknown_command_failure_witness :
  Channel.responses
    (Channel.requestHandler channel stationA (request "u-7" (Channel.Other "reset") ∅))
  = [("u-7",
      Some {| Channel.hashId := Some "A"; Channel.status := Channel.FAILURE;
              Channel.command := Some (Channel.Other "reset");
              Channel.requestPayload := Some ∅;
              Channel.commandResponse := None;
              Channel.errorMessage :=
                Some "Unknown worker broadcast channel command: 'reset'";
              Channel.errorStack := None; Channel.errorDetails := None |})].
Proof.
  apply (unknown_command_failure channel stationA
           (request "u-7" (Channel.Other "reset") ∅) _ "u-7" (Channel.Other "reset") ∅
           eq_refl eq_refl eq_refl).
  - split; [left|]; reflexivity.
  - reflexivity.
Defined.

Lemma handler_gets_cleaned_payload_witness :
  Channel.cleanRequestPayload (Channel.Proc Channel.METER_VALUES)
    {[ "hashIds" := JArr [JStr "A"]; "connectorIds" := JArr [JNum 1]; "connectorId" := JNum 1 ]}
    !! "connectorId" = Some (JNum 1).
Proof.
  destruct (handler_gets_cleaned_payload channel stationA (Channel.Proc Channel.METER_VALUES)
              {[ "hashIds" := JArr [JStr "A"]; "connectorIds" := JArr [JNum 1];
                 "connectorId" := JNum 1 ]} _ eq_refl)
    as (_ & _ & _ & _ & _ & H).
  rewrite H.
  - vm_compute. reflexivity.
  - intros Hin.
    repeat (apply elem_of_cons in Hin as [Hin | Hin]; [discriminate|]).
    inversion Hin.
Defined.

Lemma empty_hashIds_dropped_witness :
  Channel.responses
    (Channel.requestHandler channel stationA
       (request "u-8" (Channel.Proc Channel.START_CHARGING_STATION) {[ "hashIds" := JArr [] ]}))
  = [].
Proof.
  apply (empty_hashIds_dropped channel stationA _ "u-8"
           (Channel.Proc Channel.START_CHARGING_STATION) {[ "hashIds" := JArr [] ]}).
  - intros v [= <-]. reflexivity.
  - reflexivity.
Defined.

Lemma start_sets_stopDate_witness :
  ATG.stopDate (ATG.start shortShift 1000000 paused).1 = Some (Some 1480000) /\
  exists d d',
    ATG.stopDate paused = Some (Some d) /\
    ATG.stopDate (ATG.start shortShift 1000000 paused).1 = Some (Some d') /\
    d' - 1000000 = d - 600000.
Proof.
  destruct (start_sets_stopDate shortShift 1000000 paused (3 # 10) eq_refl)
    as (_ & _ & _ & _ & _ & H).
  { left. exists (configuration (Some (3 # 10))). split; reflexivity. }
  destruct (H 1080000) as [_ Hrestart]; [by vm_compute | by vm_compute |].
  destruct (Hrestart 0 600000 eq_refl eq_refl) as [Hstop Hleft];
    [by vm_compute | by vm_compute |].
  split; [exact Hstop | exact (Hleft eq_refl)].
Defined.

Lemma startTransaction_decision_tree_witness :
  ATG.requests (trace (ATG.startTransaction perf (station None true true blocked idle) 1))
  = [ATG.SendAuthorize 1 "TAG"] /\
  outcome (ATG.startTransaction perf (station None true true blocked idle) 1)
  = inr (Some blocked).
Proof.
  destruct (startTransaction_decision_tree perf (station None true true blocked idle)
              (service blocked) 1 eq_refl) as (_ & H & _).
  destruct (H eq_refl eq_refl (Some blocked) eq_refl) as (Hno & _).
  apply Hno. intros (r & info & [= <-] & Hinfo & Hstatus).
  vm_compute in Hinfo. injection Hinfo as <-. vm_compute in Hstatus. discriminate.
Defined.

Lemma stopTransaction_cases_witness :
  ATG.requests (trace (ATG.stopTransaction perf (station None true false accepted charging)
                         2 ATG.NONE))
  = [ATG.SendStopTransaction 7 1500 (Some "TAG") ATG.NONE].
Proof.
  destruct (stopTransaction_cases perf (station None true false accepted charging) 2
              ATG.NONE charging eq_refl) as (_ & H).
  destruct (H eq_refl (service accepted) eq_refl) as (Hsent & _).
  exact Hsent.
Defined.

(** The dispatch scenarios of the design document, on station "A". *)

Example heartbeat_success :
  Channel.responses
    (Channel.requestHandler channel stationA (request "u-1" (Channel.Proc Channel.HEARTBEAT) ∅))
  = [("u-1", Some (Channel.statusOnly stationA Channel.SUCCESS))].
Proof. vm_compute. reflexivity. Qed.

Example boot_rejected :
  Channel.responses
    (Channel.requestHandler channel stationA
       (request "u-2" (Channel.Proc Channel.BOOT_NOTIFICATION) ∅))
  = [("u-2",
      Some {| Channel.hashId := Some "A"; Channel.status := Channel.FAILURE;
              Channel.command := Some (Channel.Proc Channel.BOOT_NOTIFICATION);
              Channel.requestPayload := Some ∅;
              Channel.commandResponse := Some rejectedBoot;
              Channel.errorMessage := None; Channel.errorStack := None;
              Channel.errorDetails := None |})].
Proof. vm_compute. reflexivity. Qed.

Example authorize_timeout :
  Channel.responses
    (Channel.requestHandler channel stationA
       (request "u-5" (Channel.Proc Channel.AUTHORIZE) ∅))
  = [("u-5",
      Some {| Channel.hashId := Some "A"; Channel.status := Channel.FAILURE;
              Channel.command := Some (Channel.Proc Channel.AUTHORIZE);
              Channel.requestPayload := Some ∅;
              Channel.commandResponse := None;
              Channel.errorMessage := Some "timeout"; Channel.errorStack := None;
              Channel.errorDetails := Some (JObj {[ "code" := JStr "NetworkError" ]}) |})].
Proof. vm_compute. reflexivity. Qed.

End Witnesses.

(** * Further properties *)

(** ** The worker command channel *)

Section ChannelFurther.
Import Channel.

Variable ch : WorkerBroadcastChannel.
Variable cs : ChargingStation.

Lemma accepts_run (ev : MessageEvent) (uuid : string) (command : Command)
    (requestPayload : JsObject) :
  accepts ch cs ev uuid command requestPayload ->
  requestHandler ch cs ev =
    ConsoleLog "requestHandler" :: dispatch ch cs uuid command requestPayload.
Proof.
  intros (v & Hv & Hr & Hd & Ht). exact (requestHandler_accepted ch cs _ _ _ _ _ Hv Hr Hd Ht).
Qed.

(** What a handler of the table does: at most one call on the station. *)
Lemma handler_calls (p : BroadcastChannelProcedureName) (h : CommandHandler)
    (requestPayload : JsObject) :
  mapGet (commandHandlers cs) p = Some h ->
  (length (stationCalls (trace (run h requestPayload))) <= 1)%nat.
Proof.
  intros H.
  destruct p; cbn in H; injection H as <-; cbn;
    unfold call; unfold_monad;
    repeat case_match; simplify_eq/=; lia.
Qed.

(** The run of [dispatch], event by event. *)
Lemma dispatch_events (uuid : string) (command : Command) (requestPayload : JsObject) :
  exists logged,
    dispatch ch cs uuid command requestPayload =
      (trace (commandHandler ch cs command requestPayload).2 ++ logged ++
       [SendResponse uuid (Some (published ch cs command requestPayload))])%list /\
    responses logged = [] /\ invocations logged = [] /\ stationCalls logged = [].
Proof.
  unfold dispatch, published, trace.
  destruct (commandHandler ch cs command requestPayload) as [p' [events [e|r]]]; cbn [fst snd].
  - eexists [_]. split; [reflexivity|]. by split_and!.
  - exists []. split; [reflexivity|]. by split_and!.
Qed.

Lemma commandHandler_counts (command : Command) (requestPayload : JsObject) :
  let events := trace (commandHandler ch cs command requestPayload).2 in
  (length (invocations events) <= 1)%nat /\ (length (stationCalls events) <= 1)%nat.
Proof.
  destruct (getHandler cs command) as [h|] eqn:H.
  - rewrite (commandHandler_known ch cs _ _ _ H). cbn.
    destruct command as [p|name]; [|discriminate].
    destruct (handler_events cs p h (cleanRequestPayload (Proc p) requestPayload) H) as [_ Hi].
    pose proof (handler_calls p h (cleanRequestPayload (Proc p) requestPayload) H) as Hc.
    unfold trace in *. unfold invocations in Hi. rewrite Hi. cbn. split; [lia | exact Hc].
  - rewrite (commandHandler_unknown ch cs _ _ H). cbn. lia.
Qed.

(** X1. Whatever the message, one run of [requestHandler] publishes at
    most one response, enters at most one handler and makes at most one
    call on the station. *)
Theorem requestHandler_at_most_once (ev : MessageEvent) :
  (length (responses (requestHandler ch cs ev)) <= 1)%nat /\
  (length (invocations (requestHandler ch cs ev)) <= 1)%nat /\
  (length (stationCalls (requestHandler ch cs ev)) <= 1)%nat.
Proof.
  assert (Hd : forall uuid command requestPayload,
    let d := dispatch ch cs uuid command requestPayload in
    (length (responses d) <= 1)%nat /\ (length (invocations d) <= 1)%nat /\
    (length (stationCalls d) <= 1)%nat).
  { intros uuid command requestPayload d. subst d.
    destruct (dispatch_events uuid command requestPayload) as (logged & -> & L1 & L2 & L3).
    destruct (commandHandler_counts command requestPayload) as [C1 C2].
    pose proof (commandHandler_no_response ch cs command requestPayload) as C0.
    cbv zeta in *.
    rewrite !responses_app, !invocations_app, !stationCalls_app, L1, L2, L3, C0.
    rewrite !length_app. cbn. lia. }
  unfold requestHandler.
  destruct (validateMessageEvent ch ev) as [v|]; [|cbn; lia].
  destruct (isResponse ch (data v)); [cbn; lia|].
  destruct (data v) as [uuid command requestPayload|]; [|cbn; lia].
  specialize (Hd uuid command requestPayload). cbv zeta in Hd.
  destruct (isNullish (requestPayload !! "hashId")); cbn [negb];
    repeat case_match; cbn; try lia; exact Hd.
Qed.

Lemma published_hashId (command : Command) (requestPayload : JsObject) :
  hashId (published ch cs command requestPayload) = stationHashId cs.
Proof.
  unfold published, onFulfilled, onRejected, commandResponseToResponsePayload.
  repeat case_match; reflexivity.
Qed.

(** A run of [requestHandler] either publishes nothing or is a run of
    [dispatch] on a request that got through every check. *)
Lemma requestHandler_cases (ev : MessageEvent) :
  responses (requestHandler ch cs ev) = [] \/
  exists v uuid command requestPayload,
    validateMessageEvent ch ev = Some v /\
    isResponse ch (data v) = false /\
    data v = RequestData uuid command requestPayload /\
    isNullish (requestPayload !! "hashId") = true /\
    (isNullish (requestPayload !! "hashIds") = true \/
     exists hashIds info,
       requestPayload !! "hashIds" = Some hashIds /\ stationInfo cs = Some info /\
       hashIdsIncludes hashIds (StationInfo.hashId info) = Some true) /\
    requestHandler ch cs ev =
      ConsoleLog "requestHandler" :: dispatch ch cs uuid command requestPayload.
Proof.
  unfold requestHandler.
  destruct (validateMessageEvent ch ev) as [v|] eqn:Hv; [|by left].
  destruct (isResponse ch (data v)) eqn:Hr; [by left|].
  destruct (data v) as [u command requestPayload|] eqn:Hd; [|by left].
  rewrite <- Hd in Hr.
  destruct (isNullish (requestPayload !! "hashId")) eqn:Hid; cbn [negb].
  - destruct (requestPayload !! "hashIds") as [hashIds|] eqn:Hids.
    + destruct hashIds eqn:Hshape;
        try (destruct (stationInfo cs) as [info|] eqn:Hinfo; [|by left];
             destruct (hashIdsIncludes _ _) as [[]|] eqn:Hinc; [|by left|by left]);
        right; exists v, u, command, requestPayload;
        refine (conj eq_refl (conj Hr (conj Hd (conj Hid (conj _ eq_refl)))));
        first [left; by rewrite Hids | right; by eauto 10].
    + right. exists v, u, command, requestPayload.
      refine (conj eq_refl (conj Hr (conj Hd (conj Hid (conj _ eq_refl))))).
      left. by rewrite Hids.
  - left. repeat case_match; reflexivity.
Qed.

(** X2. A response is only ever published for a validated message that is
    a request, not taken for a response, free of the legacy [hashId], and
    whose [hashIds] is absent or includes this station; it carries the uuid
    of that request and the [hashId] of this station. *)
Theorem response_answers_request (ev : MessageEvent) (uuid : string)
    (p : option BroadcastChannelResponsePayload) :
  (uuid, p) ∈ responses (requestHandler ch cs ev) ->
  exists v command requestPayload,
    validateMessageEvent ch ev = Some v /\
    isResponse ch (data v) = false /\
    data v = RequestData uuid command requestPayload /\
    isNullish (requestPayload !! "hashId") = true /\
    (isNullish (requestPayload !! "hashIds") = true \/
     exists hashIds info,
       requestPayload !! "hashIds" = Some hashIds /\ stationInfo cs = Some info /\
       hashIdsIncludes hashIds (StationInfo.hashId info) = Some true) /\
    p = Some (published ch cs command requestPayload) /\
    hashId (published ch cs command requestPayload) = stationHashId cs.
Proof.
  intros H.
  destruct (requestHandler_cases ev)
    as [Hnone | (v & u & command & requestPayload & Hv & Hr & Hd & Hid & Hids & Hrun)].
  - rewrite Hnone in H. inversion H.
  - rewrite Hrun in H. cbn [responses flat_map app] in H.
    change (flat_map _ ?l) with (responses l) in H.
    rewrite dispatch_responses in H. apply list_elem_of_singleton in H.
    injection H as -> ->.
    exists v, command, requestPayload.
    refine (conj Hv (conj Hr (conj Hd (conj Hid (conj Hids (conj eq_refl _)))))).
    apply published_hashId.
Qed.

(** X3. The response of a dispatched request has one of three shapes:
    [SUCCESS] with nothing but the [hashId]; [FAILURE] with the command, the
    request payload and the command response; [FAILURE] with the command,
    the request payload and the error message.  A failure never carries both
    a command response and an error. *)
Theorem response_shape (command : Command) (requestPayload : JsObject) :
  let p := published ch cs command requestPayload in
  (status p = SUCCESS ->
     Channel.command p = None /\ Channel.requestPayload p = None /\
     commandResponse p = None /\ errorMessage p = None /\
     errorStack p = None /\ errorDetails p = None) /\
  (status p = FAILURE ->
     Channel.command p = Some command /\ is_Some (Channel.requestPayload p) /\
     (is_Some (commandResponse p) <-> errorMessage p = None)).
Proof.
  unfold published, onFulfilled, onRejected, commandResponseToResponsePayload.
  destruct (commandHandler ch cs command requestPayload) as [p' [events [e|[r|]]]]; cbn.
  - split; [discriminate|]. intros _. split_and!; eauto.
    split; [by intros [? ?] | discriminate].
  - destruct (isEmpty r); cbn; [split; [intros _; by split_and! | discriminate]|].
    destruct (decide _) as [Hs|Hf]; cbn.
    + split; [intros _; by split_and! | intros Hf; congruence].
    + split; [intros Hs; by destruct Hf|].
      intros _. split_and!; eauto. split; eauto.
  - split; [intros _; by split_and! | discriminate].
Qed.

(** X4. The verdict is [SUCCESS] exactly when the handler came back with
    nothing, with an empty response, or with a response the classifier
    accepts: an empty response counts as success whatever the command. *)
Theorem success_iff (command : Command) (requestPayload : JsObject) :
  status (published ch cs command requestPayload) = SUCCESS <->
  exists r,
    outcome (commandHandler ch cs command requestPayload).2 = inr r /\
    (r = None \/ r = Some ∅ \/
     exists o, r = Some o /\ commandResponseToResponseStatus command o = SUCCESS).
Proof.
  unfold published, onFulfilled, onRejected, commandResponseToResponsePayload, outcome.
  destruct (commandHandler ch cs command requestPayload) as [p' [events [e|[r|]]]];
    cbn [fst snd].
  - split; [discriminate | intros (r & [=] & _)].
  - destruct (isEmpty r) eqn:He.
    + apply isEmpty_true in He as ->. split; [eauto 6 | done].
    + destruct (decide _) as [Hs|Hf]; cbn.
      * split; [eauto 8 | done].
      * split; [intros Hs; by destruct Hf|].
        intros (r' & [= <-] & [H | [H | (o & [= <-] & Ho)]]); try done.
        injection H as ->. by rewrite (proj2 (isEmpty_true ∅)) in He.
  - split; [eauto 6 | done].
Qed.

(** X5. For a command of the table, the request payload echoed in a
    [FAILURE] response is the payload after cleaning, not the one that was
    sent: it holds neither [hashId] nor [hashIds]. *)
Theorem failure_echoes_cleaned_payload (command : Command) (requestPayload : JsObject)
    (h : CommandHandler) :
  getHandler cs command = Some h ->
  status (published ch cs command requestPayload) = FAILURE ->
  exists echoed,
    Channel.requestPayload (published ch cs command requestPayload) = Some echoed /\
    echoed = cleanRequestPayload command requestPayload /\
    echoed !! "hashId" = None /\ echoed !! "hashIds" = None.
Proof.
  intros Hh. unfold published. rewrite (commandHandler_known ch cs _ _ _ Hh). cbv zeta.
  assert (Hc : cleanRequestPayload command requestPayload !! "hashId" = None /\
               cleanRequestPayload command requestPayload !! "hashIds" = None).
  { unfold cleanRequestPayload. destruct (negb _).
    - split; [rewrite !lookup_delete_ne by done | rewrite lookup_delete_ne by done];
        apply lookup_delete_eq.
    - split; [rewrite lookup_delete_ne by done|]; apply lookup_delete_eq. }
  destruct Hc as [Hc1 Hc2].
  unfold onFulfilled, onRejected, commandResponseToResponsePayload.
  destruct (outcome _) as [e|[r|]]; cbn.
  - intros _. exists (cleanRequestPayload command requestPayload). by split_and!.
  - destruct (isEmpty r); [discriminate|].
    destruct (decide _) as [Hs|Hf]; cbn; [by rewrite Hs|].
    intros _. exists (cleanRequestPayload command requestPayload). by split_and!.
  - discriminate.
Qed.

(** [dispatch] on a command of the table: the handler runs on the cleaned
    payload, and what it gives decides the response. *)
Lemma dispatch_known (uuid : string) (command : Command) (requestPayload : JsObject)
    (h : CommandHandler) :
  getHandler cs command = Some h ->
  let cleaned := cleanRequestPayload command requestPayload in
  dispatch ch cs uuid command requestPayload =
    (ConsoleLog "commandHandler" :: Invoke command cleaned :: trace (run h cleaned) ++
     match outcome (run h cleaned) with
     | inr r => [SendResponse uuid (Some (onFulfilled cs command cleaned r))]
     | inl e =>
         [LoggerError (logPrefix cs ++ " " ++ moduleName ++ ".requestHandler: Handle request error:")
                      (Some e);
          SendResponse uuid (Some (onRejected cs command cleaned e))]
     end)%list.
Proof.
  intros Hh cleaned. unfold dispatch. rewrite (commandHandler_known ch cs _ _ _ Hh).
  cbv zeta. fold cleaned. by destruct (outcome (run h cleaned)).
Qed.

(** X6. A lifecycle command (start or stop the station, delete it, open
    or close the connection, start or stop the generator, set the
    supervision URL) makes exactly one call on the station; the response
    is [SUCCESS] whenever that call returns, whatever it returns, and a
    [FAILURE] with the error when it throws. *)
Theorem lifecycle_command_outcome (ev : MessageEvent) (uuid : string)
    (p : BroadcastChannelProcedureName) (requestPayload : JsObject) :
  p ∈ lifecycleProcedures ->
  accepts ch cs ev uuid (Proc p) requestPayload ->
  exists c,
    stationCalls (requestHandler ch cs ev) = [c] /\
    (forall r, perform cs c = Returns r ->
       responses (requestHandler ch cs ev) = [(uuid, Some (statusOnly cs SUCCESS))]) /\
    (forall e, perform cs c = Throws e ->
       responses (requestHandler ch cs ev) =
         [(uuid, Some (onRejected cs (Proc p) (cleanRequestPayload (Proc p) requestPayload) e))]).
Proof.
  intros Hp Ha. rewrite (accepts_run _ _ _ _ Ha).
  unfold lifecycleProcedures in Hp.
  repeat (apply elem_of_cons in Hp as [-> | Hp];
    [ match goal with
      | |- context [dispatch ch cs uuid (Proc ?q) requestPayload] =>
          destruct (commandHandlers_exhaustive cs q) as [h Hh];
          rewrite (dispatch_known uuid (Proc q) requestPayload h Hh)
      end;
      cbn in Hh; injection Hh as <-; cbn [run sync async];
      unfold call; unfold_monad;
      match goal with
      | |- context [perform cs ?c] =>
          exists c; destruct (perform cs c) eqn:Hc; cbn;
          split_and!; intros; simplify_eq; done
      end
    |]).
  inversion Hp.
Qed.

(** X7. The two notifications the classifier has no case for, the
    diagnostics status and the firmware status: the response is [SUCCESS]
    when the request service hands back nothing or an empty object, and a
    [FAILURE] carrying the reply for any other reply. *)
Theorem unclassified_notification_outcome (ev : MessageEvent) (uuid : string)
    (p : BroadcastChannelProcedureName) (rc : RequestCommand) (requestPayload : JsObject)
    (reply : option JsObject) :
  (p, rc) ∈ [(DIAGNOSTICS_STATUS_NOTIFICATION, RC_DIAGNOSTICS_STATUS_NOTIFICATION);
             (FIRMWARE_STATUS_NOTIFICATION, RC_FIRMWARE_STATUS_NOTIFICATION)] ->
  accepts ch cs ev uuid (Proc p) requestPayload ->
  let cleaned := cleanRequestPayload (Proc p) requestPayload in
  perform cs (CS_ocppRequest rc cleaned requestParams) = Returns reply ->
  (reply = None \/ reply = Some ∅ ->
     responses (requestHandler ch cs ev) = [(uuid, Some (statusOnly cs SUCCESS))]) /\
  (forall o, reply = Some o -> o ≠ ∅ ->
     responses (requestHandler ch cs ev) =
       [(uuid,
         Some {| hashId := stationHashId cs; status := FAILURE;
                 command := Some (Proc p); Channel.requestPayload := Some cleaned;
                 commandResponse := Some o;
                 errorMessage := None; errorStack := None; errorDetails := None |})]).
Proof.
  intros Hp Ha cleaned Hreply. rewrite (accepts_run _ _ _ _ Ha).
  repeat (apply elem_of_cons in Hp as [[= -> ->] | Hp];
    [ match goal with
      | |- context [dispatch ch cs uuid (Proc ?q) requestPayload] =>
          destruct (commandHandlers_exhaustive cs q) as [h Hh];
          rewrite (dispatch_known uuid (Proc q) requestPayload h Hh)
      end;
      cbn in Hh; injection Hh as <-; cbn [run sync async];
      unfold call; fold cleaned; rewrite Hreply; cbn;
      split;
      [ intros [-> | ->]; [done | cbn; by rewrite (proj2 (isEmpty_true ∅))]
      | intros o -> Hne; cbn;
        destruct (isEmpty o) eqn:He; [by apply isEmpty_true in He | done] ]
    |]).
  inversion Hp.
Qed.

Lemma withDefault_lookup (k : string) (v : JsonValue) (m : JsObject) (j : string) :
  withDefault k v m !! j =
    match m !! j with
    | Some x => Some x
    | None => if decide (k = j) then Some v else None
    end.
Proof.
  unfold withDefault. rewrite lookup_union.
  destruct (decide (k = j)) as [->|Hne].
  - rewrite lookup_singleton_eq. by destruct (m !! j).
  - rewrite lookup_singleton_ne by done. by destruct (m !! j).
Qed.

(** Opens the run of an accepted request on the handler of its command. *)
Ltac open_handler :=
  match goal with
  | Ha : accepts ?ch ?cs ?ev ?uuid (Proc ?q) ?payload |- _ =>
      rewrite (accepts_run _ _ _ _ Ha);
      let h := fresh "h" in
      let Hh := fresh "Hh" in
      destruct (commandHandlers_exhaustive cs q) as [h Hh];
      rewrite (dispatch_known uuid (Proc q) payload h Hh);
      cbn in Hh; injection Hh as <-; cbn [run sync async]
  end.

(** X8. A stop-transaction command sends one StopTransaction request whose
    [meterStop] is the one of the payload when it has one, and otherwise
    the energy register the station keeps for the payload's
    [transactionId], read as final; every other field is the cleaned
    payload's. *)
Theorem stop_transaction_request (ev : MessageEvent) (uuid : string)
    (requestPayload : JsObject) :
  accepts ch cs ev uuid (Proc STOP_TRANSACTION) requestPayload ->
  exists sent,
    stationCalls (requestHandler ch cs ev) =
      [CS_ocppRequest RC_STOP_TRANSACTION sent requestParams] /\
    sent !! "meterStop" =
      Some (default (getEnergyActiveImportRegisterByTransactionId cs
                       (requestPayload !! "transactionId") true)
                    (requestPayload !! "meterStop")) /\
    (forall k, k ≠ "meterStop" ->
       sent !! k = cleanRequestPayload (Proc STOP_TRANSACTION) requestPayload !! k).
Proof.
  intros Ha. open_handler.
  assert (Hf : forall k, k ∉ ["hashId"; "hashIds"; "connectorIds"] ->
            cleanRequestPayload (Proc STOP_TRANSACTION) requestPayload !! k = requestPayload !! k)
    by (intros k; apply cleanRequestPayload_frame).
  assert (Hin : forall k : string, k ∈ ["hashId"; "hashIds"; "connectorIds"] ->
            k = "hashId" \/ k = "hashIds" \/ k = "connectorIds").
  { intros k Hk. repeat (apply elem_of_cons in Hk as [-> | Hk]; [auto|]). inversion Hk. }
  eexists. split_and!.
  - unfold call. destruct (perform cs _); reflexivity.
  - rewrite withDefault_lookup, !Hf.
    + by destruct (requestPayload !! "meterStop").
    + intros Hk. by destruct (Hin _ Hk) as [|[|]].
    + intros Hk. by destruct (Hin _ Hk) as [|[|]].
  - intros k Hk. rewrite withDefault_lookup. rewrite decide_False by done.
    by destruct (_ !! k).
Qed.

(** X9. A boot-notification command sends one BootNotification request
    with [skipBufferingOnError] and [throwError] set; each field is the
    cleaned payload's when it has it, and the station's own boot
    notification request's otherwise. *)
Theorem boot_notification_request (ev : MessageEvent) (uuid : string)
    (requestPayload : JsObject) :
  accepts ch cs ev uuid (Proc BOOT_NOTIFICATION) requestPayload ->
  exists sent,
    stationCalls (requestHandler ch cs ev) =
      [CS_ocppRequest RC_BOOT_NOTIFICATION sent
         {| skipBufferingOnError := Some true; throwError := Some true |}] /\
    (forall k,
       sent !! k =
         match cleanRequestPayload (Proc BOOT_NOTIFICATION) requestPayload !! k with
         | Some v => Some v
         | None => bootNotificationRequest cs !! k
         end).
Proof.
  intros Ha. open_handler.
  eexists. split.
  - unfold call. destruct (perform cs _); reflexivity.
  - intros k. rewrite lookup_union.
    destruct (_ !! k), (bootNotificationRequest cs !! k); reflexivity.
Qed.

(** X10. A meter-values command for a connector the station has no status
    for makes no call on the station and is answered with a [FAILURE]
    carrying an error; for a known connector it sends one MeterValues
    request whose [meterValue] is the payload's own when it has one, and
    otherwise the one sample built for the connector, its transaction id and
    the configured sample interval in milliseconds (60000 when none is
    configured). *)
Theorem meter_values_request (ev : MessageEvent) (uuid : string)
    (requestPayload : JsObject) :
  accepts ch cs ev uuid (Proc METER_VALUES) requestPayload ->
  let connectorId := requestPayload !! "connectorId" in
  (getConnectorStatus cs connectorId = None ->
     stationCalls (requestHandler ch cs ev) = [] /\
     exists p e,
       responses (requestHandler ch cs ev) = [(uuid, Some p)] /\
       status p = FAILURE /\ errorMessage p = Some (message e)) /\
  (forall connectorStatus, getConnectorStatus cs connectorId = Some connectorStatus ->
     exists sent,
       stationCalls (requestHandler ch cs ev) =
         [CS_ocppRequest RC_METER_VALUES sent requestParams] /\
       sent !! "meterValue" =
         Some (default
                 (JArr [buildMeterValue cs connectorId (transactionId connectorStatus)
                          match configuredMeterValueSampleInterval cs with
                          | Some seconds => seconds * 1000
                          | None => 60000
                          end])
                 (requestPayload !! "meterValue"))).
Proof.
  intros Ha connectorId. open_handler.
  assert (Hf : forall k, k ∉ ["hashId"; "hashIds"; "connectorIds"] ->
            cleanRequestPayload (Proc METER_VALUES) requestPayload !! k = requestPayload !! k)
    by (intros k; apply cleanRequestPayload_frame).
  assert (Hin : forall k : string, k ∈ ["hashId"; "hashIds"; "connectorIds"] ->
            k = "hashId" \/ k = "hashIds" \/ k = "connectorIds").
  { intros k Hk. repeat (apply elem_of_cons in Hk as [-> | Hk]; [auto|]). inversion Hk. }
  assert (Hc : cleanRequestPayload (Proc METER_VALUES) requestPayload !! "connectorId"
               = connectorId).
  { apply Hf. intros Hk. by destruct (Hin _ Hk) as [|[|]]. }
  rewrite Hc. split.
  - intros ->. unfold_monad. cbn. split; [done|].
    do 2 eexists. split_and!; reflexivity.
  - intros connectorStatus ->. eexists. split.
    + unfold call. destruct (perform cs _); reflexivity.
    + rewrite withDefault_lookup, Hf.
      * by destruct (requestPayload !! "meterValue").
      * intros Hk. by destruct (Hin _ Hk) as [|[|]].
Qed.

(** X11. No OCPP request sent for a command carries the targeting fields:
    whatever the payload held, the request payload has no [hashId], no
    [hashIds] and no [connectorIds] (the boot notification apart, whose
    defaults come from the station). *)
Theorem targeting_fields_not_forwarded (ev : MessageEvent) (uuid : string)
    (p : BroadcastChannelProcedureName) (requestPayload sent : JsObject) :
  p ≠ BOOT_NOTIFICATION ->
  accepts ch cs ev uuid (Proc p) requestPayload ->
  sent ∈ sentPayloads (stationCalls (requestHandler ch cs ev)) ->
  sent !! "hashId" = None /\ sent !! "hashIds" = None /\ sent !! "connectorIds" = None.
Proof.
  intros Hp Ha.
  assert (Hclean : forall q, q ≠ START_AUTOMATIC_TRANSACTION_GENERATOR ->
            q ≠ STOP_AUTOMATIC_TRANSACTION_GENERATOR ->
            let c := cleanRequestPayload (Proc q) requestPayload in
            c !! "hashId" = None /\ c !! "hashIds" = None /\ c !! "connectorIds" = None).
  { intros q H1 H2. cbv zeta. unfold cleanRequestPayload, procIncludes.
    rewrite bool_decide_eq_false_2.
    - cbn [negb]. split_and!.
      + rewrite !lookup_delete_ne by done. apply lookup_delete_eq.
      + rewrite lookup_delete_ne by done. apply lookup_delete_eq.
      + apply lookup_delete_eq.
    - intros Hq. repeat (apply elem_of_cons in Hq as [-> | Hq]; [done|]). inversion Hq. }
  destruct p; try done; open_handler;
    unfold call; unfold_monad; repeat case_match; simplify_eq/=;
    try (intros Hs; inversion Hs; fail);
    intros Hs; apply list_elem_of_singleton in Hs as ->;
    match goal with
    | |- context [cleanRequestPayload (Proc ?q) _] =>
        destruct (Hclean q ltac:(done) ltac:(done)) as (C1 & C2 & C3)
    end;
    rewrite ?withDefault_lookup, ?C1, ?C2, ?C3; by rewrite ?decide_False by done.
Qed.

(** X12. The response of an accepted request is the last event of its
    run: what the handler does on the station comes before it. *)
Theorem response_is_last (ev : MessageEvent) (uuid : string) (command : Command)
    (requestPayload : JsObject) :
  accepts ch cs ev uuid command requestPayload ->
  exists before,
    requestHandler ch cs ev =
      (before ++ [SendResponse uuid (Some (published ch cs command requestPayload))])%list /\
    responses before = [] /\
    stationCalls before = stationCalls (requestHandler ch cs ev).
Proof.
  intros Ha. rewrite (accepts_run _ _ _ _ Ha).
  destruct (dispatch_events uuid command requestPayload) as (logged & -> & L1 & L2 & L3).
  eexists (ConsoleLog "requestHandler" :: _ ++ logged)%list. split_and!.
  - cbn. by rewrite <- app_assoc.
  - cbn [responses flat_map app]. change (flat_map _ ?l) with (responses l).
    rewrite responses_app, L1, app_nil_r. apply commandHandler_no_response.
  - cbn [stationCalls flat_map app]. change (flat_map _ ?l) with (stationCalls l).
    rewrite !stationCalls_app. cbn. by rewrite app_nil_r.
Qed.

(** Cleaning a payload adds no field and is idempotent. *)
Theorem cleanRequestPayload_idempotent (command : Command) (requestPayload : JsObject) :
  cleanRequestPayload command (cleanRequestPayload command requestPayload) =
    cleanRequestPayload command requestPayload /\
  cleanRequestPayload command requestPayload ⊆ requestPayload.
Proof.
  unfold cleanRequestPayload. destruct (negb _); split.
  - apply map_eq. intros k. rewrite !lookup_delete. by repeat case_decide.
  - etrans; [apply delete_subseteq|]. etrans; apply delete_subseteq.
  - apply map_eq. intros k. rewrite !lookup_delete. by repeat case_decide.
  - etrans; apply delete_subseteq.
Qed.

End ChannelFurther.

(** ** The automatic transaction generator *)

Section ATGFurther.
Import ATG.

Variable ps : PerformanceStatistics.

(** X13. A second [start ()] on a started generator and a second
    [stop ()] on a stopped one change nothing and schedule nothing: each
    only logs an error. *)
Theorem repeated_start_and_stop_ignored (cs cs' : ChargingStation) (t1 t2 : Z)
    (g : Generator) :
  start cs' t2 (start cs t1 g).1 =
    ((start cs t1 g).1, [Log ERROR None "trying to start while already started"]) /\
  stop cs' (stop cs g).1 =
    ((stop cs g).1, [Log ERROR None "trying to stop while not started"]).
Proof.
  split.
  - unfold start at 2 3. destruct (started g) eqn:Hs; cbn [fst].
    + unfold start. by rewrite Hs.
    + reflexivity.
  - unfold stop at 2 3. destruct (started g) eqn:Hs; cbn [negb fst].
    + reflexivity.
    + unfold stop. by rewrite Hs.
Qed.

Lemma stopConnectors_fields (cs : ChargingStation) (g : Generator) :
  started (stopConnectors cs g) = started g /\
  startDate (stopConnectors cs g) = startDate g /\
  lastRunDate (stopConnectors cs g) = lastRunDate g /\
  stopDate (stopConnectors cs g) = stopDate g.
Proof.
  unfold stopConnectors. generalize g. clear g.
  induction (connectors cs) as [|[k conn] rest IH]; intros g; [done|].
  cbn [fold_left fst]. destruct (IH (if decide (k > 0) then stopConnector k g else g))
    as (H1 & H2 & H3 & H4).
  rewrite H1, H2, H3, H4. by destruct (decide (k > 0)).
Qed.

Lemma stopConnectors_lookup (cs : ChargingStation) (g : Generator) (c : Z) :
  connectorsStartStatus (stopConnectors cs g) !! c =
    if decide (c ∈ positiveIds cs) then Some false else connectorsStartStatus g !! c.
Proof.
  unfold stopConnectors, positiveIds. generalize g. clear g.
  induction (connectors cs) as [|[k conn] rest IH]; intros g.
  - cbn. rewrite decide_False; [done | apply not_elem_of_nil].
  - cbn [fold_left fst]. rewrite IH. rewrite fmap_cons. cbn [fst].
    destruct (decide (k > 0)) as [Hk|Hk].
    + rewrite filter_cons_True by done.
      destruct (decide (c ∈ filter _ rest.*1)) as [Hin|Hout].
      * rewrite decide_True; [done | by right].
      * destruct (decide (k = c)) as [->|Hne].
        -- rewrite decide_True by left. apply lookup_insert_eq.
        -- rewrite decide_False.
           ++ cbn. by rewrite lookup_insert_ne.
           ++ intros Hc. apply elem_of_cons in Hc as [->|]; done.
    + rewrite filter_cons_False by done. reflexivity.
Qed.

(** X14. [stop ()] on a started generator clears the [started] mark and
    the flag of every connector above 0 of the station's table, and nothing
    else: the three dates stay as they are, and so does the flag of a
    connector that is not in the table. *)
Theorem stop_effect (cs : ChargingStation) (g : Generator) :
  started g = true ->
  let g' := (stop cs g).1 in
  started g' = false /\
  (forall c, c ∈ positiveIds cs -> connectorsStartStatus g' !! c = Some false) /\
  (forall c, c ∉ positiveIds cs ->
     connectorsStartStatus g' !! c = connectorsStartStatus g !! c) /\
  startDate g' = startDate g /\ lastRunDate g' = lastRunDate g /\
  stopDate g' = stopDate g.
Proof.
  intros Hs g'. subst g'. unfold stop. rewrite Hs. cbn.
  destruct (stopConnectors_fields cs g) as (_ & H2 & H3 & H4).
  split_and!; try done.
  - intros c Hc. rewrite stopConnectors_lookup. by rewrite decide_True.
  - intros c Hc. rewrite stopConnectors_lookup. by rewrite decide_False.
Qed.

(** X15. A new generator is stopped, has no date, and holds a cleared
    flag for exactly the connectors above 0 of the table. *)
Theorem constructor_state (cs : ChargingStation) :
  let g := constructor cs in
  started g = false /\
  startDate g = None /\ lastRunDate g = None /\ stopDate g = None /\
  (forall c, connectorsStartStatus g !! c =
             if decide (c ∈ positiveIds cs) then Some false else None).
Proof.
  cbv zeta. unfold constructor. cbn.
  match goal with
  | |- context [stopConnectors cs ?g0] =>
      destruct (stopConnectors_fields cs g0) as (_ & H2 & H3 & H4)
  end.
  split_and!; try done.
  intros c. rewrite stopConnectors_lookup. cbn. by rewrite lookup_empty.
Qed.

Lemma start_sets_started (cs : ChargingStation) (now : Z) (g : Generator) :
  started g = false -> started (start cs now g).1 = true.
Proof. intros Hs. unfold start. by rewrite Hs. Qed.

Lemma start_scheduled (cs : ChargingStation) (now : Z) (g : Generator) :
  started g = false -> scheduled (start cs now g).2 = positiveIds cs.
Proof.
  intros Hs. unfold start. rewrite Hs. cbn [fst snd].
  unfold scheduled. rewrite flat_map_app. cbn [flat_map]. rewrite !app_nil_r.
  unfold startConnectors, positiveIds.
  induction (connectors cs) as [|[k conn] rest IH]; [done|].
  cbn [flat_map fst]. rewrite fmap_cons. cbn [fst].
  destruct (decide (k > 0)) as [Hk|Hk].
  - rewrite filter_cons_True by done. cbn. by rewrite IH.
  - rewrite filter_cons_False by done. cbn. by rewrite IH.
Qed.

Lemma stop_clears_started (cs : ChargingStation) (g : Generator) :
  started g = true -> started (stop cs g).1 = false.
Proof. intros Hs. unfold stop. by rewrite Hs. Qed.

(** X16. [start ()] on a stopped generator schedules one deferred loop
    for each connector above 0, in table order, and none for connector 0;
    it raises no flag itself. *)
Theorem start_schedules (cs : ChargingStation) (now : Z) (g : Generator) :
  started g = false ->
  scheduled (start cs now g).2 = positiveIds cs /\
  connectorsStartStatus (start cs now g).1 = connectorsStartStatus g.
Proof.
  intros Hs. split; [by apply start_scheduled|].
  unfold start. by rewrite Hs.
Qed.

(** X19. A loop that finds its flag cleared at the end of an iteration
    (after the sleep that follows a rejected start, or after the stop of
    its transaction) records the instant in [lastRunDate], leaves the loop
    and makes its last call of [stopTransaction]. *)
Theorem cancelled_loop_exits (tk : Tick) (task : Task) (g : Generator) :
  startStatus g (connectorId task) = false ->
  point task = RejectSleep \/ (exists r, point task = StoppingTransaction (inr r)) ->
  let last := stopTransaction ps (station tk) (connectorId task) NONE in
  resume ps tk task g =
    (setLastRunDate (now tk) g, trace last, at_ task (FinalStop (outcome last))).
Proof.
  intros Hf Hp last. subst last. unfold resume.
  assert (Hl : loopTop ps tk task (setLastRunDate (now tk) g) [] =
               (setLastRunDate (now tk) g,
                trace (stopTransaction ps (station tk) (connectorId task) NONE),
                at_ task (FinalStop (outcome (stopTransaction ps (station tk)
                                                (connectorId task) NONE))))).
  { unfold loopTop. change (startStatus (setLastRunDate (now tk) g) (connectorId task))
      with (startStatus g (connectorId task)). rewrite Hf. unfold exitLoop, trace, outcome.
    by destruct (stopTransaction ps (station tk) (connectorId task) NONE). }
  destruct Hp as [-> | [r ->]]; exact Hl.
Qed.

(** X20. After its delay sleep a loop looks neither at its flag nor at
    the generator: when the draw is below the probability of start it runs
    [startTransaction], so a loop stopped during that sleep still starts one
    more transaction. *)
Theorem loop_starts_after_delay (tk : Tick) (task : Task) (g : Generator)
    (cfg : Configuration) :
  point task = DelaySleep ->
  AutomaticTransactionGenerator (station tk) = Some cfg ->
  Qlt_bool (secureRandom tk) (probabilityOfStart cfg) = true ->
  let started := startTransaction ps (station tk) (connectorId task) in
  resume ps tk task g =
    (g, trace started,
     {| connectorId := connectorId task;
        point := StartingTransaction (outcome started);
        skippedTransactions := 0;
        skippedTransactionsTotal := skippedTransactionsTotal task |}).
Proof.
  intros Hp Hc Hd st. subst st. unfold resume. rewrite Hp, Hc, Hd.
  unfold trace, outcome. by destruct (startTransaction ps (station tk) (connectorId task)).
Qed.

(** X21. Why a loop whose flag is raised leaves at the top of an
    iteration, and what that does to the generator: past the deadline, or
    with the station unavailable, the whole generator is stopped; with the
    station not registered, or the connector unavailable, the loop alone
    leaves, the generator stays as it is and the flag of the loop stays
    raised. *)
Theorem loop_exit_reasons (tk : Tick) (task : Task) (g : Generator) :
  startStatus g (connectorId task) = true ->
  let cs := station tk in
  let g' := (loopTop ps tk task g []).1.1 in
  let task' := (loopTop ps tk task g []).2 in
  (dateAfter (now tk) (stopDate g) = true ->
     g' = (stop cs g).1 /\ exists r, point task' = FinalStop r) /\
  (dateAfter (now tk) (stopDate g) = false -> isRegistered cs = false ->
     g' = g /\ exists r, point task' = FinalStop r) /\
  (dateAfter (now tk) (stopDate g) = false -> isRegistered cs = true ->
   isChargingStationAvailable cs = false ->
     g' = (stop cs g).1 /\ exists r, point task' = FinalStop r) /\
  (dateAfter (now tk) (stopDate g) = false -> isRegistered cs = true ->
   isChargingStationAvailable cs = true ->
   isConnectorAvailable cs (connectorId task) = false ->
     g' = g /\ exists r, point task' = FinalStop r).
Proof.
  intros Hf cs g' task'. subst cs g' task'. unfold loopTop, exitLoop. rewrite Hf.
  split_and!.
  - intros ->. destruct (stop (station tk) g) as [g1 out].
    destruct (stopTransaction _ _ _ _). cbn. eauto.
  - intros -> ->. cbn [negb]. destruct (stopTransaction _ _ _ _). cbn. eauto.
  - intros -> -> ->. cbn [negb]. destruct (stop (station tk) g) as [g1 out].
    destruct (stopTransaction _ _ _ _). cbn. eauto.
  - intros -> -> -> ->. cbn [negb]. destruct (stopTransaction _ _ _ _). cbn. eauto.
Qed.

Lemma loopTop_counters (tk : Tick) (task : Task) (g : Generator) (events : list Event) :
  let task' := (loopTop ps tk task g events).2 in
  connectorId task' = connectorId task /\
  skippedTransactions task' = skippedTransactions task /\
  skippedTransactionsTotal task' = skippedTransactionsTotal task.
Proof.
  unfold loopTop, exitLoop, delay.
  repeat (case_match; simplify_eq/=); auto.
Qed.

Lemma loopTop_lastRunDate (tk : Tick) (task : Task) (g : Generator) (events : list Event) :
  lastRunDate (loopTop ps tk task g events).1.1 = lastRunDate g.
Proof.
  assert (Hs : forall cs, lastRunDate (stop cs g).1 = lastRunDate g).
  { intros cs. unfold stop. destruct (started g); cbn; [|done].
    by destruct (stopConnectors_fields cs g) as (_ & _ & H & _). }
  unfold loopTop, exitLoop, delay.
  repeat (case_match; simplify_eq/=); auto;
    match goal with
    | H : stop ?cs g = (?g1, _) |- _ => specialize (Hs cs); by rewrite H in Hs
    end.
Qed.

Lemma startRequests_nil (events : list Event) :
  Forall notStartRequest events -> startRequests events = [].
Proof.
  induction 1 as [|e l He _ IH]; [done|].
  unfold startRequests in *. cbn [List.filter]. rewrite IH. by destruct e.
Qed.

Lemma loopTop_notStartRequest (tk : Tick) (task : Task) (g : Generator)
    (events : list Event) :
  Forall notStartRequest events ->
  Forall notStartRequest (loopTop ps tk task g events).1.2.
Proof.
  intros He.
  assert (Hst : Forall notStartRequest
                  (stopTransaction ps (station tk) (connectorId task) NONE).1).
  { unfold stopTransaction, request. unfold_monad.
    repeat (case_match; simplify_eq/=); repeat constructor. }
  assert (Hstop : Forall notStartRequest (stop (station tk) g).2).
  { unfold stop. destruct (started g); repeat constructor. }
  unfold loopTop, exitLoop, delay.
  repeat (case_match; simplify_eq/=);
    repeat first [apply Forall_app; split | apply Forall_cons; split | apply Forall_nil_2];
    auto; exact I.
Qed.

(** X22. A turn the draw skips (draw not below the probability of start)
    sends neither Authorize nor StartTransaction, adds one to both skip
    counters and records the instant in [lastRunDate]. *)
Theorem skipped_turn (tk : Tick) (task : Task) (g : Generator) (cfg : Configuration) :
  point task = DelaySleep ->
  AutomaticTransactionGenerator (station tk) = Some cfg ->
  Qlt_bool (secureRandom tk) (probabilityOfStart cfg) = false ->
  let after := resume ps tk task g in
  startRequests after.1.2 = [] /\
  skippedTransactions after.2 = skippedTransactions task + 1 /\
  skippedTransactionsTotal after.2 = skippedTransactionsTotal task + 1 /\
  lastRunDate after.1.1 = Some (now tk).
Proof.
  intros Hp Hc Hd after. subst after. unfold resume, endOfIteration. rewrite Hp, Hc, Hd.
  split_and!.
  - apply startRequests_nil, loopTop_notStartRequest. by repeat constructor.
  - by destruct (loopTop_counters tk
       {| connectorId := connectorId task; point := DelaySleep;
          skippedTransactions := skippedTransactions task + 1;
          skippedTransactionsTotal := skippedTransactionsTotal task + 1 |}
       (setLastRunDate (now tk) g)
       [Log INFO (Some (connectorId task)) "skipped transaction"]) as (_ & -> & _).
  - by destruct (loopTop_counters tk
       {| connectorId := connectorId task; point := DelaySleep;
          skippedTransactions := skippedTransactions task + 1;
          skippedTransactionsTotal := skippedTransactionsTotal task + 1 |}
       (setLastRunDate (now tk) g)
       [Log INFO (Some (connectorId task)) "skipped transaction"]) as (_ & _ & ->).
  - by rewrite loopTop_lastRunDate.
Qed.

(** X23. What a loop does with the reply to its start: a reply that is
    not accepted is logged and followed by the 5000 ms wait, with no stop;
    an accepted one is followed by the sleep of the drawn duration and,
    after it, by one call of [stopTransaction]. *)
Theorem start_reply_handling (tk : Tick) (task : Task) (g : Generator)
    (reply : option JsObject) (cfg : Configuration) (connector : Connector) :
  AutomaticTransactionGenerator (station tk) = Some cfg ->
  getConnector (station tk) (connectorId task) = Some connector ->
  let c := connectorId task in
  let stopped := stopTransaction ps (station tk) c NONE in
  (~ acceptedReply reply ->
     resume ps tk (at_ task (StartingTransaction (inr reply))) g =
       (g, [Log WARN (Some c) "transaction rejected"; Sleep 5000], at_ task RejectSleep)) /\
  (acceptedReply reply ->
     resume ps tk (at_ task (StartingTransaction (inr reply))) g =
       (g, [Log INFO (Some c) "transaction will stop in"; Sleep (randomInteger tk * 1000)],
        at_ task DurationSleep)) /\
  resume ps tk (at_ task DurationSleep) g =
    (g, Log INFO (Some c) "stop transaction" :: trace stopped,
     at_ task (StoppingTransaction (outcome stopped))).
Proof.
  intros Hc Hk c stopped. subst c stopped. unfold resume. cbn [point connectorId at_].
  rewrite Hc, Hk. split_and!.
  - intros Hno. rewrite <- isAccepted_true in Hno.
    by destruct (isAccepted reply).
  - intros Hyes. rewrite <- isAccepted_true in Hyes. by rewrite Hyes.
  - unfold trace, outcome. by destruct (stopTransaction _ _ _ _).
Qed.

(** X24. A loop whose awaited request throws ends there: it emits
    nothing more, makes no last call of [stopTransaction], leaves the
    generator and its own flag as they are, and stays ended whatever comes
    next. *)
Theorem failed_loop_ends (tk tk' : Tick) (task : Task) (g g' : Generator) (e : Error) :
  point task = StartingTransaction (inl e) \/
  point task = StoppingTransaction (inl e) \/
  point task = FinalStop (inl e) ->
  resume ps tk task g = (g, [], at_ task (Failed e)) /\
  resume ps tk' (at_ task (Failed e)) g' = (g', [], at_ task (Failed e)).
Proof.
  intros Hp. split.
  - unfold resume. by destruct Hp as [-> | [-> | ->]].
  - reflexivity.
Qed.

(** X25. [startTransaction] and [stopTransaction] close the measurement
    they open exactly when they return: when a request throws, or the
    request service is missing when one is to be sent, the error goes to
    the caller and the measurement stays open. *)
Theorem measurement_closed_iff_returned (cs : ChargingStation) (connectorId : Z)
    (reason : StopTransactionReason) :
  let started := startTransaction ps cs connectorId in
  let stopped := stopTransaction ps cs connectorId reason in
  let startId := "StartTransaction with ATG" in
  let stopId := "StopTransaction with ATG" in
  ((exists r, outcome started = inr r) ->
     closedMeasures (trace started) = [(startId, beginMeasure ps startId)]) /\
  ((exists e, outcome started = inl e) -> closedMeasures (trace started) = []) /\
  ((exists r, outcome stopped = inr r) ->
     closedMeasures (trace stopped) = [(stopId, beginMeasure ps stopId)]) /\
  ((exists e, outcome stopped = inl e) -> closedMeasures (trace stopped) = []).
Proof.
  cbv zeta. unfold startTransaction, stopTransaction, request. unfold_monad.
  split_and!; intros [x Hx]; revert Hx;
    repeat (case_match; simplify_eq/=); try done.
Qed.

(** X26. [stop ()] does not withdraw the loops [start ()] has deferred: a
    start, a stop and a start again, before the event loop gets to run,
    leave two deferred loops for every connector above 0. *)
Theorem restart_defers_second_loops (cs : ChargingStation) (t1 t2 : Z) :
  immediates (run ps [CallStart cs t1; CallStop cs; CallStart cs t2] (boot cs)) =
    (positiveIds cs ++ positiveIds cs)%list.
Proof.
  cbn [run fold_left]. unfold boot.
  assert (Hs : started (constructor cs) = false) by reflexivity.
  pose proof (start_scheduled cs t1 (constructor cs) Hs) as Hsch1.
  pose proof (start_sets_started cs t1 (constructor cs) Hs) as Hst1.
  unfold step at 3. cbn [atg immediates tasks output].
  destruct (start cs t1 (constructor cs)) as [g1 ev1] eqn:E1. cbn [fst snd] in *.
  unfold step at 2. cbn [atg immediates tasks output].
  pose proof (stop_clears_started cs g1 Hst1) as Hs2.
  destruct (stop cs g1) as [g2 ev2] eqn:E2. cbn [fst snd] in *.
  unfold step. cbn [atg immediates tasks output].
  pose proof (start_scheduled cs t2 g2 Hs2) as Hsch2.
  destruct (start cs t2 g2) as [g3 ev3]. cbn [fst snd immediates] in *.
  by rewrite Hsch1, Hsch2.
Qed.

End ATGFurther.

(** ** The JSON file storage *)

Section StorageFurther.
Import JsonFileStorage.

Context {S : Type}.
Variable env : Environment S.

(** X27. Storing statistics on a storage without a file descriptor, one
    never opened or one closed since, throws the "file descriptor not
    found" error and queues no write; the statistics have been put in the
    store all the same. *)
Theorem store_needs_descriptor (statistics : JsObject) (st : Storage S) :
  let text := logPrefix st ++ " Performance records '" ++ dbName st ++
              "' file descriptor not found" in
  (fd st = None ->
     let r := storePerformanceStatistics env statistics st in
     thrown r = Some (BaseError env text) /\ queued r = false /\ events r = [] /\
     performanceStatistics (after r) =
       setPerformanceStatistics env statistics (performanceStatistics st)) /\
  (forall d, fd st = Some d -> closeSync env d = None ->
     let r := storePerformanceStatistics env statistics (after (close env st)) in
     thrown r = Some (BaseError env text) /\ queued r = false).
Proof.
  cbv zeta. split.
  - intros Hfd. unfold storePerformanceStatistics, checkPerformanceRecordsFile.
    cbn. by rewrite Hfd.
  - intros d Hfd Hclose. unfold close. cbn. rewrite Hfd, Hclose. done.
Qed.

(** X28. Opening a storage that has no descriptor, with a file system
    that lets it, looks for the directory of the file, makes it only when
    it is missing, and opens the file for writing; closing it then closes
    that very descriptor and leaves the storage without one. *)
Theorem open_then_close (st : Storage S) (d : Z) :
  fd st = None ->
  let dir := dirname env (dbName st) in
  (existsSync env dir = true \/ mkdirSync env dir = None) ->
  openSync env (dbName st) "w" = inr d ->
  closeSync env d = None ->
  let opened := open env st in
  let closed := close env (after opened) in
  fd (after opened) = Some d /\ thrown opened = None /\
  events opened =
    (ExistsSync dir :: (if existsSync env dir then [] else [MkdirSync dir true]) ++
     [OpenSync (dbName st) "w"])%list /\
  events closed = [CloseSync d] /\
  fd (after closed) = None /\ thrown closed = None /\
  dbName (after closed) = dbName st.
Proof.
  intros Hfd dir Hdir Hopen Hclose. cbv zeta. unfold open. rewrite Hfd.
  fold dir. destruct (existsSync env dir) eqn:Hex; cbn [negb].
  - rewrite Hopen. unfold close. cbn. by rewrite Hclose.
  - destruct Hdir as [|Hmk]; [done|]. rewrite Hmk, Hopen. unfold close. cbn.
    by rewrite Hclose.
Qed.

(** X29. A file system call that throws leaves the descriptor as it was
    and sends the error to the exception handler, once: a failed [open]
    leaves the storage without descriptor (and does not try to open the
    file when it is the directory that could not be made); a failed [close]
    leaves it with the descriptor it had, its statistics cleared all the
    same.  An [open] on a storage that has a descriptor does nothing. *)
Theorem failed_calls_keep_descriptor (st : Storage S) (e : Error) :
  let dir := dirname env (dbName st) in
  let report := [HandleFileException (dbName st) e (logPrefix st)] in
  (fd st = None -> existsSync env dir = false -> mkdirSync env dir = Some e ->
     after (open env st) = st /\
     events (open env st) = ([ExistsSync dir; MkdirSync dir true] ++ report)%list /\
     thrown (open env st) = handleFileException env (dbName st) e (logPrefix st)) /\
  (fd st = None -> existsSync env dir = true -> openSync env (dbName st) "w" = inl e ->
     after (open env st) = st /\
     events (open env st) = ([ExistsSync dir; OpenSync (dbName st) "w"] ++ report)%list) /\
  (forall d, fd st = Some d -> closeSync env d = Some e ->
     fd (after (close env st)) = Some d /\
     performanceStatistics (after (close env st)) =
       clearPerformanceStatistics env (performanceStatistics st) /\
     events (close env st) = (CloseSync d :: report)%list) /\
  (forall d, fd st = Some d ->
     open env st = {| after := st; events := []; thrown := None; queued := false |}).
Proof.
  cbv zeta. split_and!.
  - intros Hfd Hex Hmk. unfold open. by rewrite Hfd, Hex, Hmk.
  - intros Hfd Hex Hopen. unfold open. by rewrite Hfd, Hex, Hopen.
  - intros d Hfd Hclose. unfold close. cbn. by rewrite Hfd, Hclose.
  - intros d Hfd. unfold open. by rewrite Hfd.
Qed.

(** X30. The write a store queues runs on the storage as it is when the
    lock is obtained: it writes, at position 0, the statistics the store
    holds by then, on the descriptor the storage has by then.  After a
    [close] in between it is called without a descriptor and with the
    statistics cleared. *)
Theorem queued_write_sees_later_state (statistics : JsObject) (st : Storage S) (d : Z) :
  fd st = Some d ->
  let stored := storePerformanceStatistics env statistics st in
  let kept := setPerformanceStatistics env statistics (performanceStatistics st) in
  queued stored = true /\ thrown stored = None /\
  (exists rest,
     events (write env (after stored)) =
       WriteSync (Some d)
         (JSONStringifyWithMapSupport env (getPerformanceStatistics env kept) 2) 0 "utf8"
       :: rest) /\
  (closeSync env d = None ->
   exists rest,
     events (write env (after (close env (after stored)))) =
       WriteSync None
         (JSONStringifyWithMapSupport env
            (getPerformanceStatistics env (clearPerformanceStatistics env kept)) 2)
         0 "utf8"
       :: rest).
Proof.
  intros Hfd. cbv zeta. unfold storePerformanceStatistics, checkPerformanceRecordsFile.
  cbn. rewrite Hfd. cbn. split_and!; try done.
  - unfold write. cbn. rewrite Hfd. destruct (writeSync env _ _ _ _); cbn; eauto.
  - intros Hclose. unfold close. cbn. rewrite Hfd, Hclose. unfold write. cbn.
    destruct (writeSync env _ _ _ _); cbn; eauto.
Qed.

End StorageFurther.


(** ** The further properties on the sample stations *)

Section FurtherWitnesses.
Import Samples.

Lemma stationA_accepts (uuid : string) (command : Channel.Command) :
  Channel.accepts channel stationA (request uuid command ∅) uuid command ∅.
Proof.
  exists (request uuid command ∅). split_and!; try reflexivity.
  split; [left|]; reflexivity.
Qed.

Lemma response_answers_request_witness :
  exists v, Channel.validateMessageEvent channel
              (request "u-1" (Channel.Proc Channel.HEARTBEAT) ∅) = Some v.
Proof.
  destruct (response_answers_request channel stationA
              (request "u-1" (Channel.Proc Channel.HEARTBEAT) ∅) "u-1"
              (Some (Channel.statusOnly stationA Channel.SUCCESS)))
    as (v & _ & _ & Hv & _).
  - vm_compute. apply list_elem_of_here.
  - exists v. exact Hv.
Defined.

Lemma response_shape_witness :
  Channel.command (Channel.published channel stationA
                     (Channel.Proc Channel.BOOT_NOTIFICATION) ∅)
  = Some (Channel.Proc Channel.BOOT_NOTIFICATION).
Proof.
  destruct (response_shape channel stationA (Channel.Proc Channel.BOOT_NOTIFICATION) ∅)
    as [_ H].
  destruct H as [H _]; [vm_compute; reflexivity | exact H].
Defined.

Lemma success_iff_witness :
  Channel.status (Channel.published channel stationA (Channel.Proc Channel.HEARTBEAT) ∅)
  = Channel.SUCCESS.
Proof.
  apply (success_iff channel stationA (Channel.Proc Channel.HEARTBEAT) ∅).
  exists (Some {[ "currentTime" := JStr "2024-06-01T00:00:00Z" ]}).
  split; [reflexivity|]. right. right. eexists. split; reflexivity.
Defined.

Lemma failure_echoes_cleaned_payload_witness :
  exists echoed,
    Channel.requestPayload
      (Channel.published channel stationA (Channel.Proc Channel.BOOT_NOTIFICATION)
         {[ "hashIds" := JArr [JStr "A"] ]}) = Some echoed /\
    echoed !! "hashIds" = None.
Proof.
  destruct (failure_echoes_cleaned_payload channel stationA
              (Channel.Proc Channel.BOOT_NOTIFICATION) {[ "hashIds" := JArr [JStr "A"] ]}
              _ eq_refl) as (echoed & H1 & _ & _ & H2).
  - vm_compute. reflexivity.
  - exists echoed. split; assumption.
Defined.

Lemma lifecycle_command_outcome_witness :
  Channel.responses
    (Channel.requestHandler channel stationA
       (request "u-9" (Channel.Proc Channel.START_CHARGING_STATION) ∅))
  = [("u-9", Some (Channel.statusOnly stationA Channel.SUCCESS))].
Proof.
  destruct (lifecycle_command_outcome channel stationA
              (request "u-9" (Channel.Proc Channel.START_CHARGING_STATION) ∅) "u-9"
              Channel.START_CHARGING_STATION ∅ (list_elem_of_here _ _)
              (stationA_accepts "u-9" (Channel.Proc Channel.START_CHARGING_STATION)))
    as (c & Hc & Hreturns & _).
  vm_compute in Hc. injection Hc as <-.
  exact (Hreturns None eq_refl).
Defined.

Lemma unclassified_notification_outcome_witness :
  Channel.responses
    (Channel.requestHandler channel stationA
       (request "u-10" (Channel.Proc Channel.FIRMWARE_STATUS_NOTIFICATION) ∅))
  = [("u-10", Some (Channel.statusOnly stationA Channel.SUCCESS))].
Proof.
  destruct (unclassified_notification_outcome channel stationA
              (request "u-10" (Channel.Proc Channel.FIRMWARE_STATUS_NOTIFICATION) ∅) "u-10"
              Channel.FIRMWARE_STATUS_NOTIFICATION Channel.RC_FIRMWARE_STATUS_NOTIFICATION
              ∅ None)
    as [H _].
  - right. left.
  - exact (stationA_accepts "u-10" (Channel.Proc Channel.FIRMWARE_STATUS_NOTIFICATION)).
  - reflexivity.
  - apply H. by left.
Defined.

Lemma stop_transaction_request_witness :
  exists sent,
    Channel.stationCalls
      (Channel.requestHandler channel stationA
         (request "u-11" (Channel.Proc Channel.STOP_TRANSACTION) ∅))
    = [Channel.CS_ocppRequest Channel.RC_STOP_TRANSACTION sent Channel.requestParams] /\
    sent !! "meterStop" = Some (JNum 0).
Proof.
  destruct (stop_transaction_request channel stationA
              (request "u-11" (Channel.Proc Channel.STOP_TRANSACTION) ∅) "u-11" ∅
              (stationA_accepts "u-11" (Channel.Proc Channel.STOP_TRANSACTION)))
    as (sent & H1 & H2 & _).
  exists sent. split; [exact H1 | exact H2].
Defined.

Lemma boot_notification_request_witness :
  exists sent,
    Channel.stationCalls
      (Channel.requestHandler channel stationA
         (request "u-2" (Channel.Proc Channel.BOOT_NOTIFICATION) ∅))
    = [Channel.CS_ocppRequest Channel.RC_BOOT_NOTIFICATION sent
         {| Channel.skipBufferingOnError := Some true; Channel.throwError := Some true |}].
Proof.
  destruct (boot_notification_request channel stationA
              (request "u-2" (Channel.Proc Channel.BOOT_NOTIFICATION) ∅) "u-2" ∅
              (stationA_accepts "u-2" (Channel.Proc Channel.BOOT_NOTIFICATION)))
    as (sent & H1 & _).
  exists sent. exact H1.
Defined.

Lemma meter_values_request_witness :
  Channel.stationCalls
    (Channel.requestHandler channel stationA
       (request "u-12" (Channel.Proc Channel.METER_VALUES) ∅)) = [].
Proof.
  destruct (meter_values_request channel stationA
              (request "u-12" (Channel.Proc Channel.METER_VALUES) ∅) "u-12" ∅
              (stationA_accepts "u-12" (Channel.Proc Channel.METER_VALUES)))
    as [H _].
  destruct (H eq_refl) as [Hcalls _]. exact Hcalls.
Defined.

Lemma targeting_fields_not_forwarded_witness :
  exists sent,
    Channel.sentPayloads
      (Channel.stationCalls
         (Channel.requestHandler channel stationA
            (request "u-1" (Channel.Proc Channel.HEARTBEAT) addressed)))
    = [sent] /\
    sent !! "foo" = Some (JNum 3) /\
    sent !! "hashId" = None /\ sent !! "hashIds" = None /\ sent !! "connectorIds" = None.
Proof.
  exists (Channel.cleanRequestPayload (Channel.Proc Channel.HEARTBEAT) addressed).
  assert (Channel.sentPayloads
            (Channel.stationCalls
               (Channel.requestHandler channel stationA
                  (request "u-1" (Channel.Proc Channel.HEARTBEAT) addressed)))
          = [Channel.cleanRequestPayload (Channel.Proc Channel.HEARTBEAT) addressed]) as Hsent
    by (by vm_compute).
  split; [exact Hsent|]. split; [by vm_compute|].
  apply (targeting_fields_not_forwarded channel stationA
           (request "u-1" (Channel.Proc Channel.HEARTBEAT) addressed) "u-1"
           Channel.HEARTBEAT addressed).
  - discriminate.
  - exists (request "u-1" (Channel.Proc Channel.HEARTBEAT) addressed).
    split_and!; try reflexivity. split; [right | reflexivity].
    exists (JArr [JStr "A"]). split; [reflexivity|].
    exists {| Channel.StationInfo.hashId := "A" |}, [JStr "A"].
    split_and!; [reflexivity | reflexivity | apply list_elem_of_here].
  - rewrite Hsent. apply list_elem_of_here.
Defined.

Lemma response_is_last_witness :
  exists before,
    Channel.requestHandler channel stationA
      (request "u-1" (Channel.Proc Channel.HEARTBEAT) ∅)
    = (before ++
       [Channel.SendResponse "u-1"
          (Some (Channel.published channel stationA (Channel.Proc Channel.HEARTBEAT) ∅))])%list.
Proof.
  destruct (response_is_last channel stationA
              (request "u-1" (Channel.Proc Channel.HEARTBEAT) ∅) "u-1"
              (Channel.Proc Channel.HEARTBEAT) ∅
              (stationA_accepts "u-1" (Channel.Proc Channel.HEARTBEAT)))
    as (before & H & _).
  exists before. exact H.
Defined.

Lemma stop_effect_witness :
  ATG.started (ATG.stop ready running).1 = false /\
  ATG.lastRunDate (ATG.stop ready running).1 = Some 600000.
Proof.
  destruct (stop_effect ready running eq_refl) as (H1 & _ & _ & _ & H2 & _).
  split; [exact H1 | exact H2].
Defined.

Lemma start_schedules_witness :
  ATG.scheduled (ATG.start ready 0 (ATG.constructor ready)).2 = [1; 2].
Proof.
  destruct (start_schedules ready 0 (ATG.constructor ready) eq_refl) as [H _].
  rewrite H. reflexivity.
Defined.

Lemma invariant_without_late_start_witness :
  ATG.stoppedMeansNoneStarted (ATG.atg (ATG.run perf quietRun (ATG.boot ready))).
Proof.
  apply (invariant_without_late_start perf ready quietRun).
  - repeat (apply Forall_cons; split; [reflexivity|]). apply Forall_nil_2.
  - vm_compute. repeat split.
Defined.

Lemma restart_runs_for_the_remainder_witness :
  exists d1 d2,
    ATG.stopDate (ATG.start ready 0 (ATG.constructor ready)).1 = Some (Some d1) /\
    ATG.stopDate (ATG.start ready 1000000 (ATG.stop ready running).1).1 = Some (Some d2) /\
    d2 - 1000000 = d1 - 600000.
Proof.
  apply (restart_runs_for_the_remainder ready 0 600000 1000000 900000
           (ATG.constructor ready) (ATG.stop ready running).1);
    try reflexivity; vm_compute; discriminate.
Defined.

Lemma cancelled_loop_exits_witness :
  ATG.point (ATG.resume perf (tick 2000 ready) (loop ATG.RejectSleep)
               (ATG.stop ready running).1).2
  = ATG.FinalStop (inr None).
Proof.
  rewrite (cancelled_loop_exits perf (tick 2000 ready) (loop ATG.RejectSleep)
             (ATG.stop ready running).1 eq_refl (or_introl eq_refl)).
  reflexivity.
Defined.

Lemma loop_starts_after_delay_witness :
  ATG.requests (ATG.resume perf (tick 2000 ready) (loop ATG.DelaySleep)
                  (ATG.stop ready running).1).1.2
  = [ATG.SendStartTransaction 1 (Some "TAG")].
Proof.
  rewrite (loop_starts_after_delay perf (tick 2000 ready) (loop ATG.DelaySleep)
             (ATG.stop ready running).1 (configuration None) eq_refl eq_refl eq_refl).
  reflexivity.
Defined.

Lemma loop_exit_reasons_witness :
  (ATG.loopTop perf (tick 2000 unavailable) (loop ATG.RejectSleep)
     (ATG.setStartStatus 1 running) []).1.1
  = (ATG.stop unavailable (ATG.setStartStatus 1 running)).1.
Proof.
  destruct (loop_exit_reasons perf (tick 2000 unavailable) (loop ATG.RejectSleep)
              (ATG.setStartStatus 1 running) eq_refl) as (_ & _ & H & _).
  destruct (H eq_refl eq_refl eq_refl) as [Hg _]. exact Hg.
Defined.

Lemma skipped_turn_witness :
  ATG.skippedTransactions
    (ATG.resume perf (unlucky 2000 ready) (loop ATG.DelaySleep) running).2 = 1.
Proof.
  destruct (skipped_turn perf (unlucky 2000 ready) (loop ATG.DelaySleep) running
              (configuration None) eq_refl eq_refl eq_refl) as (_ & H & _).
  exact H.
Defined.

Lemma start_reply_handling_witness :
  ATG.resume perf (tick 2000 ready)
    (ATG.at_ (loop ATG.DelaySleep) (ATG.StartingTransaction (inr (Some blocked)))) running
  = (running,
     [ATG.Log ATG.WARN (Some 1) "transaction rejected"; ATG.Sleep 5000],
     ATG.at_ (loop ATG.DelaySleep) ATG.RejectSleep).
Proof.
  destruct (start_reply_handling perf (tick 2000 ready) (loop ATG.DelaySleep) running
              (Some blocked) (configuration None) idle eq_refl eq_refl) as (H & _).
  apply H. intros (r & info & [= <-] & Hinfo & Hstatus).
  vm_compute in Hinfo. injection Hinfo as <-. vm_compute in Hstatus. discriminate.
Defined.

Lemma failed_loop_ends_witness :
  ATG.resume perf (tick 2000 ready) (loop (ATG.StartingTransaction (inl timeout))) running
  = (running, [], ATG.at_ (loop (ATG.StartingTransaction (inl timeout))) (ATG.Failed timeout)).
Proof.
  destruct (failed_loop_ends perf (tick 2000 ready) (tick 3000 ready)
              (loop (ATG.StartingTransaction (inl timeout))) running running timeout
              (or_introl eq_refl)) as [H _].
  exact H.
Defined.

Lemma measurement_closed_iff_returned_witness :
  ATG.closedMeasures (trace (ATG.startTransaction perf ready 1))
  = [("StartTransaction with ATG", "StartTransaction with ATG~start")].
Proof.
  destruct (measurement_closed_iff_returned perf ready 1 ATG.NONE) as (H & _).
  apply H. eexists. reflexivity.
Defined.

Lemma store_needs_descriptor_witness :
  JsonFileStorage.thrown
    (JsonFileStorage.storePerformanceStatistics (fileSystem false) ∅ (storage None))
  = Some {| message :=
              "JSON | Performance records '/var/log/performance.json' file descriptor not found";
            stack := None; details := None |}.
Proof.
  destruct (store_needs_descriptor (fileSystem false) ∅ (storage None)) as [H _].
  destruct (H eq_refl) as [Hthrown _]. exact Hthrown.
Defined.

Lemma open_then_close_witness :
  JsonFileStorage.events (JsonFileStorage.open (fileSystem false) (storage None))
  = [JsonFileStorage.ExistsSync "/var/log"; JsonFileStorage.MkdirSync "/var/log" true;
     JsonFileStorage.OpenSync "/var/log/performance.json" "w"].
Proof.
  destruct (open_then_close (fileSystem false) (storage None) 3 eq_refl
              (or_intror eq_refl) eq_refl eq_refl) as (_ & _ & H & _).
  exact H.
Defined.

Lemma failed_calls_keep_descriptor_witness :
  JsonFileStorage.fd (JsonFileStorage.after
                        (JsonFileStorage.close (fileSystem true) (storage (Some 3))))
  = Some 3.
Proof.
  destruct (failed_calls_keep_descriptor (fileSystem true) (storage (Some 3)) refused)
    as (_ & _ & H & _).
  destruct (H 3 eq_refl eq_refl) as [Hfd _]. exact Hfd.
Defined.

Lemma queued_write_sees_later_state_witness :
  exists rest,
    JsonFileStorage.events
      (JsonFileStorage.write (fileSystem false)
         (JsonFileStorage.after
            (JsonFileStorage.close (fileSystem false)
               (JsonFileStorage.after
                  (JsonFileStorage.storePerformanceStatistics (fileSystem false) ∅
                     (storage (Some 3)))))))
    = JsonFileStorage.WriteSync None "[]" 0 "utf8" :: rest.
Proof.
  destruct (queued_write_sees_later_state (fileSystem false) ∅ (storage (Some 3)) 3 eq_refl)
    as (_ & _ & _ & H).
  exact (H eq_refl).
Defined.

End FurtherWitnesses.
